(** * http-utils: a shallow embedding of the request helpers

    The repository holds three successive versions of one Go package:

    - [src/http-utils.go] (package [httputils]): [HttpReqXML], [HttpReqJSON]
      and a dispatcher [sendHttpReq] without token, transport or timeout;
    - [src/unnamed/part_001] (package [utils]): adds the bearer token, the
      custom transport, the form-encoded POST variants and a fixed client
      timeout;
    - [src/unnamed/part_000] (package [utils]): adds the caller-supplied
      timeout and the multipart file-upload variants.

    Each version is embedded in a module of its own ([HttpUtilsGo],
    [Part001], [Part000]).  The Go standard library is the host platform:
    the parts of it whose behaviour is fixed by a few lines of library code
    ([http.NewRequest], [http.Header], [url.ParseQuery], [url.Values.Encode],
    [mime/multipart.Writer], [ioutil.ReadAll]) are written out, the rest
    (the URL parser, the network, the codecs, Unicode case mapping, the
    runtime's map iteration order and random source) is a [Platform] record
    over which every function and theorem is parametrised. *)

From Stdlib Require Import ZArith Lia Ascii String DecimalString.
From stdpp Require Import base option list strings gmap fin_maps.

Local Open Scope Z_scope.

(** ** Go values *)

Module Go.

(** [[]byte]: [None] is the nil slice, [Some s] a slice holding the bytes
    of [s] (a Go string is a byte sequence, as is [String.string]). *)
Definition ByteSlice : Type := option string.

(** [string(data)] *)
Definition string_of (data : ByteSlice) : string := default EmptyString data.

(** [len(data)] *)
Definition len (data : ByteSlice) : Z := Z.of_nat (String.length (string_of data)).

(** Two's-complement wrap-around of a 64-bit signed integer ([int64],
    and [int] on the 64-bit targets). *)
Definition wrap64 (z : Z) : Z := (z + 2 ^ 63) mod 2 ^ 64 - 2 ^ 63.

(** [time.Duration] is an [int64] count of nanoseconds. *)
Definition Duration (n : Z) : Z := wrap64 n.
Definition Second : Z := 1000000000.
Definition Duration_mul (a b : Z) : Z := wrap64 (a * b).

(** [strings.ContainsAny(s, chars)] for ASCII [chars]: some byte of [s]
    is one of the bytes of [chars]. *)
Fixpoint contains_byte (c : ascii) (s : string) : bool :=
  match s with
  | EmptyString => false
  | String a s' => if Ascii.eqb a c then true else contains_byte c s'
  end.

Fixpoint ContainsAny (s chars : string) : bool :=
  match chars with
  | EmptyString => false
  | String c chars' => contains_byte c s || ContainsAny s chars'
  end.

(** [strings.Cut(s, sep)] for a one-byte separator: the text before the
    first [sep], the text after it, and whether [sep] was found. *)
Fixpoint Cut (s : string) (sep : ascii) : string * string * bool :=
  match s with
  | EmptyString => (EmptyString, EmptyString, false)
  | String a s' =>
      if Ascii.eqb a sep then (EmptyString, s', true)
      else let '(before, after, found) := Cut s' sep in
           (String a before, after, found)
  end.

(** [strings.LastIndex(s, sep)] for a one-byte separator, [-1] when
    [sep] does not occur. *)
Fixpoint LastIndex_from (i acc : Z) (s : string) (sep : ascii) : Z :=
  match s with
  | EmptyString => acc
  | String a s' => LastIndex_from (i + 1) (if Ascii.eqb a sep then i else acc) s' sep
  end.

Definition LastIndex (s : string) (sep : ascii) : Z := LastIndex_from 0 (-1) s sep.

(** [strings.TrimSuffix(s, suffix)] for a one-byte suffix. *)
Fixpoint TrimSuffix (s : string) (suffix : ascii) : string :=
  match s with
  | EmptyString => EmptyString
  | String a EmptyString => if Ascii.eqb a suffix then EmptyString else s
  | String a s' => String a (TrimSuffix s' suffix)
  end.

(** Error values made outside the package: by the standard library or by
    [fmt.Errorf]. *)
Inductive StdError : Type :=
| InvalidMethod (method : string)
    (* fmt.Errorf("net/http: invalid method %q", method), from http.NewRequest *)
| LibError (text : string)
    (* made inside url.Parse, Client.Do, Body.Read, json/xml.Unmarshal *)
| Errorf (text : string).
    (* fmt.Errorf(text) *)

End Go.
Export Go.

(** ** net/url: query strings *)

Module NetURL.

Definition byte_between (lo hi c : ascii) : bool :=
  Nat.leb (nat_of_ascii lo) (nat_of_ascii c) && Nat.leb (nat_of_ascii c) (nat_of_ascii hi).

Definition is_alnum (c : ascii) : bool :=
  byte_between "a" "z" c || byte_between "A" "Z" c || byte_between "0" "9" c.

(** [ishex] and [unhex] *)
Definition ishex (c : ascii) : bool :=
  byte_between "0" "9" c || byte_between "a" "f" c || byte_between "A" "F" c.

Definition unhex (c : ascii) : nat :=
  if byte_between "0" "9" c then nat_of_ascii c - nat_of_ascii "0"
  else if byte_between "a" "f" c then nat_of_ascii c - nat_of_ascii "a" + 10
  else if byte_between "A" "F" c then nat_of_ascii c - nat_of_ascii "A" + 10
  else 0.

(** [upperhex[n]] for [n < 16] *)
Definition upperhex (n : nat) : ascii :=
  nth n (list_ascii_of_string "0123456789ABCDEF") "0"%char.

(** [shouldEscape(c, encodeQueryComponent)]: letters, digits and the marks
    [-_.~] are kept, every other byte is escaped. *)
Definition shouldEscape (c : ascii) : bool :=
  if is_alnum c then false
  else if (Ascii.eqb c "-" || Ascii.eqb c "_" || Ascii.eqb c "." || Ascii.eqb c "~")%bool
       then false
       else true.

(** [QueryEscape]: a space becomes [+], an escaped byte [%XX]. *)
Fixpoint QueryEscape (s : string) : string :=
  match s with
  | EmptyString => EmptyString
  | String c s' =>
      if Ascii.eqb c " " then String "+" (QueryEscape s')
      else if shouldEscape c then
        String "%" (String (upperhex (nat_of_ascii c / 16))
                      (String (upperhex (nat_of_ascii c mod 16)) (QueryEscape s')))
      else String c (QueryEscape s')
  end.

(** [QueryUnescape]: [None] is the [EscapeError] returned when a [%] is
    not followed by two hex digits. *)
Fixpoint QueryUnescape (s : string) : option string :=
  match s with
  | EmptyString => Some EmptyString
  | String "%" (String h1 (String h2 rest)) =>
      if ishex h1 && ishex h2
      then String (ascii_of_nat (unhex h1 * 16 + unhex h2)) <$> QueryUnescape rest
      else None
  | String "%" _ => None
  | String "+" rest => String " " <$> QueryUnescape rest
  | String c rest => String c <$> QueryUnescape rest
  end.

(** The [sep]-separated pieces of [s], in order: what the loop
    [for query != empty { key, query, _ = strings.Cut(query, sep) ... }]
    visits (a final empty piece is visited by neither; [ParseQuery]
    skips empty pieces). *)
Fixpoint pieces (sep : ascii) (s : string) : list string :=
  match s with
  | EmptyString => [EmptyString]
  | String a s' =>
      if Ascii.eqb a sep then EmptyString :: pieces sep s'
      else match pieces sep s' with
           | x :: r => String a x :: r
           | [] => [String a EmptyString]
           end
  end.

(** [url.Values] is [map[string][]string]. *)
Abbreviation Values := (gmap string (list string)).

(** One iteration of the loop of [parseQuery]; an invalid piece is
    skipped ([continue]). *)
Definition parsePiece (m : Values) (piece : string) : Values :=
  if contains_byte ";" piece then m
  else if String.eqb piece EmptyString then m
  else
    let '(key, value, _) := Cut piece "=" in
    match QueryUnescape key with
    | None => m
    | Some key =>
        match QueryUnescape value with
        | None => m
        | Some value => <[key := default [] (m !! key) ++ [value]]> m
        end
    end.

(** [v, _ := ParseQuery(query)]: the values parsed, the error dropped, as
    [URL.Query] does. *)
Definition ParseQuery (query : string) : Values :=
  fold_left parsePiece (pieces "&" query) ∅.

(** [slices.Sort] on strings: insertion into a list sorted by byte-wise
    lexicographic order. *)
Fixpoint insert_sorted (k : string) (l : list string) : list string :=
  match l with
  | [] => [k]
  | x :: r => if String.leb k x then k :: l else x :: insert_sorted k r
  end.

Definition sort_strings (l : list string) : list string :=
  fold_right insert_sorted [] l.

(** [strings.Join(l, sep)] *)
Fixpoint Join (l : list string) (sep : string) : string :=
  match l with
  | [] => EmptyString
  | [x] => x
  | x :: r => x +:+ sep +:+ Join r sep
  end.

(** [Values.Encode]: keys in sorted order, each value as
    [QueryEscape(k) = QueryEscape(v)], pairs joined by [&] (a pair is
    never empty, so [buf.Len() > 0] holds from the second pair on). *)
Definition Encode (v : Values) : string :=
  Join (flat_map (fun k => map (fun x => QueryEscape k +:+ "=" +:+ QueryEscape x)
                             (default [] (v !! k)))
                 (sort_strings (map fst (map_to_list v))))
       "&".

(** The fields of [url.URL] the package and [http.NewRequest] touch. *)
Record URL : Type := mkURL {
  Scheme : string;
  Host : string;
  Path : string;
  ForceQuery : bool;
  RawQuery : string;
  Fragment : string
}.

(** [u.Query()] *)
Definition Query (u : URL) : Values := ParseQuery (RawQuery u).

(** [u.RawQuery = q] *)
Definition set_RawQuery (q : string) (u : URL) : URL :=
  mkURL (Scheme u) (Host u) (Path u) (ForceQuery u) q (Fragment u).

End NetURL.
Export NetURL.

(** ** The package's own types *)

(** [ResourceError], declared identically in the three files.  [Body] is an
    [interface{}]: nil or, in [sendHttpReq], a string.  [Err] is only ever
    given an error made by the standard library or by [fmt.Errorf]. *)
Module ResourceError.
Record t : Type := mk {
  URL : string;
  HTTPCode : Z;
  Message : string;
  Body : option string;
  Err : option StdError
}.
End ResourceError.

(** What an [error] result of the package can hold: a [*ResourceError] or
    an error of the standard library handed on as it is. *)
Inductive error : Type :=
| ErrResource (re : ResourceError.t)
| ErrStd (e : StdError).

(** [FileItem] of [part_000]. *)
Module FileItem.
Record t : Type := mk {
  Key : string;
  FileName : string;
  Content : ByteSlice
}.
End FileItem.

(** ** net/http values *)

(** [http.Header] is [map[string][]string]. *)
Abbreviation Header := (gmap string (list string)).

(** [*http.Transport]: an opaque handle. *)
Inductive Transport : Type := TransportRef (id : nat).

(** The fields of [http.Cookie] written by [Request.AddCookie]. *)
Module Cookie.
Record t : Type := mk { Name : string; Value : string }.
End Cookie.

(** [http.Client]: [Timeout] is a [time.Duration] in nanoseconds, zero
    meaning no timeout; [Transport] nil means [http.DefaultTransport]. *)
Module Client.
Record t : Type := mk { Transport : option Transport; Timeout : Z }.
End Client.

(** [http.Request] as [http.NewRequest] fills it from a [*bytes.Buffer]. *)
Module Request.
Record t : Type := mk {
  Method : string;
  URL : NetURL.URL;
  Header : gmap string (list string);
  Host : string;
  Body : string;
  ContentLength : Z
}.
End Request.

(** [http.Response]: the status code and the body stream.  The stream is
    given by what reading it to the end yields: the bytes delivered and the
    error, if any, that ended the reading before EOF. *)
Module Response.
Record t : Type := mk {
  StatusCode : Z;
  Body : string * option StdError
}.
End Response.

(** [ioutil.ReadAll(body)]: the bytes read (a non-nil slice) and the error. *)
Definition ReadAll (body : string * option StdError) : ByteSlice * option StdError :=
  (Some (fst body), snd body).

(** The decoders of [encoding/json] and [encoding/xml]. *)
Inductive Codec : Type := JSON | XML.

(** A non-nil [responseStruct]: a handle on the caller's output value. *)
Inductive Target : Type := TargetRef (id : nat).

(** A reference to a [map[string]string] in the store. *)
Definition loc : Type := nat.

(** ** The host platform *)

Record Platform : Type := mkPlatform {
  (** [strings.ToUpper], [strings.TrimSpace] (Unicode-aware) *)
  ToUpper : string → string;
  TrimSpace : string → string;
  (** [url.Parse], [URL.String] *)
  url_Parse : string → StdError + URL;
  URL_String : URL → string;
  (** [textproto.CanonicalMIMEHeaderKey] *)
  CanonicalMIMEHeaderKey : string → string;
  (** [sanitizeCookieName], [sanitizeCookieValue] of [net/http] *)
  sanitizeCookieName : string → string;
  sanitizeCookieValue : string → string;
  (** the order in which the [n]-th executed [range] statement visits the
      entries of a map: any order, every entry once *)
  rangeOrder : nat → gmap string string → list (string * string);
  rangeOrder_perm : ∀ n m, rangeOrder n m ≡ₚ map_to_list m;
  (** the boundary drawn by the [n]-th [multipart.NewWriter] *)
  randomBoundary : nat → string;
  (** [escapeQuotes] of [mime/multipart] *)
  escapeQuotes : string → string;
  (** [Client.Do]: the round trip, a transport error or a response *)
  Do : Client.t → Request.t → StdError + Response.t;
  (** [json.Unmarshal] / [xml.Unmarshal]: the error returned, if any *)
  Unmarshal : Codec → string → Target → option StdError
}.

(** ** The store and the effects *)

(** What a call does to the outside world, in order. *)
Inductive Event : Type :=
| EvDo (client : Client.t) (request : Request.t)   (* client.Do(request) *)
| EvClose                                          (* response.Body.Close() *)
| EvUnmarshal (codec : Codec) (data : string) (v : Target).

Record World : Type := mkWorld {
  maps : gmap loc (gmap string string);   (* the string maps alive *)
  iter : nat;                             (* [range] statements executed *)
  rand : nat;                             (* boundaries drawn *)
  log : list Event
}.

Definition M (A : Type) : Type := World → A * World.

#[global] Instance M_ret : MRet M := λ A a w, (a, w).
#[global] Instance M_bind : MBind M := λ A B k m w, let '(a, w') := m w in k a w'.

Definition emit (e : Event) : M unit :=
  λ w, (tt, mkWorld (maps w) (iter w) (rand w) (log w ++ [e])).

(** [map[string]string{k: v, ...}]: a new map, at an unused reference. *)
Definition map_make (m : gmap string string) : M loc :=
  λ w, let l := fresh (dom (maps w)) in
       (l, mkWorld (<[l := m]> (maps w)) (iter w) (rand w) (log w)).

(** [m[k]], [m[k] = v], [_, ok := m[k]], through a non-nil reference. *)
Definition map_read (l : loc) : M (gmap string string) :=
  λ w, (default ∅ (maps w !! l), w).

Definition map_assign (l : loc) (k v : string) : M unit :=
  λ w, (tt, mkWorld (<[l := <[k := v]> (default ∅ (maps w !! l))]> (maps w))
                    (iter w) (rand w) (log w)).

Definition map_has (l : loc) (k : string) : M bool :=
  m ← map_read l; mret (bool_decide (is_Some (m !! k))).

(** [for k, v := range m]: the entries in the order the runtime picks for
    this execution of the statement. *)
Definition range_of (P : Platform) (m : gmap string string) : M (list (string * string)) :=
  λ w, (rangeOrder P (iter w) m, mkWorld (maps w) (S (iter w)) (rand w) (log w)).

(** Ranging over a [headers] variable, which may be nil (no entries). *)
Definition range_headers (P : Platform) (headers : option loc) : M (list (string * string)) :=
  match headers with
  | None => range_of P ∅
  | Some l => m ← map_read l; range_of P m
  end.

(** ** net/http: building a request *)

Module NetHTTP.

(** [httpguts.IsTokenRune]: the token characters of RFC 7230.  Every
    byte of a rune outside ASCII is at least 0x80, so the test by bytes
    agrees with the test by runes. *)
Definition isTokenByte (c : ascii) : bool :=
  is_alnum c ||
  existsb (Ascii.eqb c) (list_ascii_of_string "!#$%&'*+-.^_`|~").

Fixpoint all_bytes (f : ascii → bool) (s : string) : bool :=
  match s with
  | EmptyString => true
  | String a s' => f a && all_bytes f s'
  end.

(** [validMethod]: non-empty and made of token characters. *)
Definition validMethod (method : string) : bool :=
  negb (String.eqb method EmptyString) && all_bytes isTokenByte method.

(** [hasPort] and [removeEmptyPort] *)
Definition hasPort (s : string) : bool := LastIndex s "]" <? LastIndex s ":".

Definition removeEmptyPort (host : string) : string :=
  if hasPort host then TrimSuffix host ":" else host.

Section WithPlatform.
Context (P : Platform).

(** [h.Add(key, value)], [h.Get(key)], [h.Set(key, value)] *)
Definition Header_Add (h : Header) (key value : string) : Header :=
  let key := CanonicalMIMEHeaderKey P key in
  <[key := default [] (h !! key) ++ [value]]> h.

Definition Header_Get (h : Header) (key : string) : string :=
  match h !! CanonicalMIMEHeaderKey P key with
  | Some (v :: _) => v
  | _ => EmptyString
  end.

Definition Header_Set (h : Header) (key value : string) : Header :=
  <[CanonicalMIMEHeaderKey P key := [value]]> h.

Definition with_Header (h : Header) (r : Request.t) : Request.t :=
  Request.mk (Request.Method r) (Request.URL r) h (Request.Host r)
             (Request.Body r) (Request.ContentLength r).

(** [request.Header.Add(key, value)] *)
Definition Request_Header_Add (r : Request.t) (key value : string) : Request.t :=
  with_Header (Header_Add (Request.Header r) key value) r.

(** [request.AddCookie(c)]: the cookie is appended to the [Cookie]
    header, after [; ] when the header already has a value. *)
Definition AddCookie (r : Request.t) (c : Cookie.t) : Request.t :=
  let s := sanitizeCookieName P (Cookie.Name c) +:+ "=" +:+
           sanitizeCookieValue P (Cookie.Value c) in
  let old := Header_Get (Request.Header r) "Cookie" in
  if negb (String.eqb old EmptyString)
  then with_Header (Header_Set (Request.Header r) "Cookie" (old +:+ "; " +:+ s)) r
  else with_Header (Header_Set (Request.Header r) "Cookie" s) r.

(** [http.NewRequest(method, url, bytes.NewBuffer(data))]: an empty
    method means GET; the method must be a token; the URL is parsed by
    [url.Parse] and its error handed on; an empty port is dropped from
    the host; the buffer becomes the body. *)
Definition NewRequest (method urlString : string) (data : ByteSlice)
  : StdError + Request.t :=
  let method := if String.eqb method EmptyString then "GET"%string else method in
  if negb (validMethod method) then inl (InvalidMethod method)
  else match url_Parse P urlString with
       | inl err => inl err
       | inr u =>
           let host := removeEmptyPort (Host u) in
           let u := mkURL (Scheme u) host (Path u) (ForceQuery u) (RawQuery u) (Fragment u) in
           inr (Request.mk method u ∅ host (string_of data) (len data))
       end.

End WithPlatform.

End NetHTTP.
Export NetHTTP.

(** ** mime/multipart: the writer over a [bytes.Buffer] *)

Module Multipart.

Definition CRLF : string := String (ascii_of_nat 13) (String (ascii_of_nat 10) EmptyString).
Definition dquote : string := String (ascii_of_nat 34) EmptyString.

(** [multipart.Writer] writing into a [*bytes.Buffer]: the buffer, the
    boundary, and whether a part has been created ([lastpart != nil]).
    A write into a [bytes.Buffer] returns no error, so no part ever
    records a write error and closing a part cannot fail. *)
Record Writer : Type := mkWriter {
  body : string;
  boundary : string;
  lastpart : bool
}.

(** [multipart.NewWriter(body)] on a fresh buffer. *)
Definition NewWriter (P : Platform) : M Writer :=
  λ w, (mkWriter EmptyString (randomBoundary P (rand w)) false,
        mkWorld (maps w) (iter w) (S (rand w)) (log w)).

(** [w.CreatePart(header)] for a header given as its lines in sorted key
    order: the delimiter line (preceded by CRLF after an earlier part),
    the header lines, an empty line. *)
Definition CreatePart (w : Writer) (header : list (string * string)) : StdError + Writer :=
  let delim := if lastpart w then CRLF +:+ "--" +:+ boundary w +:+ CRLF
               else "--" +:+ boundary w +:+ CRLF in
  let lines := fold_right (λ kv acc, fst kv +:+ ": " +:+ snd kv +:+ CRLF +:+ acc)
                          EmptyString header in
  inr (mkWriter (body w +:+ delim +:+ lines +:+ CRLF) (boundary w) true).

(** [part.Write(d)] on the part created last. *)
Definition part_Write (w : Writer) (d : ByteSlice) : Writer :=
  mkWriter (body w +:+ string_of d) (boundary w) (lastpart w).

Section WithPlatform.
Context (P : Platform).

(** [w.CreateFormField(fieldname)] *)
Definition CreateFormField (w : Writer) (fieldname : string) : StdError + Writer :=
  CreatePart w
    [("Content-Disposition"%string,
      "form-data; name=" +:+ dquote +:+ escapeQuotes P fieldname +:+ dquote)].

(** [w.WriteField(fieldname, value)]: the error is returned to the
    caller, and a failed part creation writes nothing. *)
Definition WriteField (w : Writer) (fieldname value : string) : option StdError * Writer :=
  match CreateFormField w fieldname with
  | inl err => (Some err, w)
  | inr w' => (None, part_Write w' (Some value))
  end.

(** [w.CreateFormFile(fieldname, filename)] *)
Definition CreateFormFile (w : Writer) (fieldname filename : string) : StdError + Writer :=
  CreatePart w
    [("Content-Disposition"%string,
      "form-data; name=" +:+ dquote +:+ escapeQuotes P fieldname +:+ dquote +:+
      "; filename=" +:+ dquote +:+ escapeQuotes P filename +:+ dquote);
     ("Content-Type"%string, "application/octet-stream"%string)].

End WithPlatform.

(** [w.FormDataContentType()]: the boundary is quoted when it holds one
    of the tspecials of RFC 2045 or a space. *)
Definition backslash : string := String (ascii_of_nat 92) EmptyString.
Definition tspecials : string := "()<>@,;:" +:+ backslash +:+ dquote +:+ "/[]?= ".

Definition FormDataContentType (w : Writer) : string :=
  let b := boundary w in
  let b := if ContainsAny b tspecials then dquote +:+ b +:+ dquote else b in
  "multipart/form-data; boundary=" +:+ b.

(** [w.Close()]: the last part is finished and the closing delimiter
    written. *)
Definition Close (w : Writer) : Writer :=
  mkWriter (body w +:+ CRLF +:+ "--" +:+ boundary w +:+ "--" +:+ CRLF) (boundary w) false.

(** [body.Bytes()] *)
Definition Bytes (w : Writer) : ByteSlice := Some (body w).

End Multipart.

(** ** src/http-utils.go (package httputils) *)

Module HttpUtilsGo.
Section WithPlatform.
Context (P : Platform).

(** [sendHttpReq], lines 72-123.  The client is [&http.Client{}]: no
    transport, a zero [Timeout]. *)
Definition sendHttpReq (method urlString : string) (data : ByteSlice)
  (headers : option loc) (cookie : option Cookie.t)
  : M (Z * ByteSlice * option error) :=
  let httpStatus := 0 in
  let client := Client.mk None 0 in
  match NewRequest P method urlString data with
  | inl err =>
      mret (httpStatus, None,
            Some (ErrResource (ResourceError.mk urlString 0 EmptyString None (Some err))))
  | inr request =>
      let request := match cookie with
                     | Some c => AddCookie P request c
                     | None => request
                     end in
      entries ← range_headers P headers;
      let request := fold_left (λ r kv, Request_Header_Add P r kv.1 kv.2)
                               entries request in
      let reencoded : StdError + string :=
        if ContainsAny urlString "?" then
          match url_Parse P urlString with
          | inl err => inl err
          | inr urlTemp =>
              let urlQuery := Query urlTemp in
              let urlTemp := set_RawQuery (Encode urlQuery) urlTemp in
              inr (URL_String P urlTemp)
          end
        else inr urlString in
      match reencoded with
      | inl err =>
          mret (httpStatus, None,
                Some (ErrResource (ResourceError.mk urlString 0 EmptyString None (Some err))))
      | inr urlString =>
          _ ← emit (EvDo client request);
          match Do P client request with
          | inl err =>
              mret (httpStatus, None,
                    Some (ErrResource (ResourceError.mk urlString 0 EmptyString None (Some err))))
          | inr response =>
              let '(buf, err) := ReadAll (Response.Body response) in
              match err with
              | Some err =>
                  _ ← emit EvClose;
                  mret (httpStatus, None,
                        Some (ErrResource
                                (ResourceError.mk urlString (Response.StatusCode response)
                                   EmptyString None (Some err))))
              | None =>
                  let httpStatus := Response.StatusCode response in
                  if 399 <? Response.StatusCode response then
                    _ ← emit EvClose;
                    mret (httpStatus, buf,
                          Some (ErrResource
                                  (ResourceError.mk urlString (Response.StatusCode response)
                                     "incorrect response.StatusCode"
                                     (Some (string_of data))
                                     (Some (Errorf "incorrect status code")))))
                  else
                    _ ← emit EvClose;
                    mret (httpStatus, buf, None)
              end
          end
      end
  end.

(** [HttpReqXML], lines 32-49.  The method is handed to the dispatcher
    as the caller gave it. *)
Definition HttpReqXML (method urlString : string) (body : ByteSlice)
  (headers : option loc) (cookie : option Cookie.t) (resultStruct : option Target)
  : M (Z * ByteSlice * option error) :=
  headers ← match headers with
            | None => map_make {["Content-Type"%string := "text/xml"%string]}
            | Some l => _ ← map_assign l "Content-Type" "text/xml"; mret l
            end;
  '(httpStatus, responseBody, err) ←
    sendHttpReq method urlString body (Some headers) cookie;
  match err with
  | Some _ => mret (httpStatus, responseBody, err)
  | None =>
      match resultStruct with
      | Some v =>
          if 0 <? len responseBody then
            _ ← emit (EvUnmarshal XML (string_of responseBody) v);
            mret (httpStatus, responseBody,
                  ErrStd <$> Unmarshal P XML (string_of responseBody) v)
          else mret (httpStatus, responseBody, err)
      | None => mret (httpStatus, responseBody, err)
      end
  end.

(** [HttpReqJSON], lines 51-70. *)
Definition HttpReqJSON (method urlString : string) (body : ByteSlice)
  (headers : option loc) (cookie : option Cookie.t) (resultStruct : option Target)
  : M (Z * ByteSlice * option error) :=
  let method := TrimSpace P (ToUpper P method) in
  headers ← match headers with
            | None => map_make {["Content-Type"%string := "application/json"%string]}
            | Some l => _ ← map_assign l "Content-Type" "application/json"; mret l
            end;
  '(httpStatus, responseBody, err) ←
    sendHttpReq method urlString body (Some headers) cookie;
  match err with
  | Some _ => mret (httpStatus, responseBody, err)
  | None =>
      match resultStruct with
      | Some v =>
          if 0 <? len responseBody then
            _ ← emit (EvUnmarshal JSON (string_of responseBody) v);
            mret (httpStatus, responseBody,
                  ErrStd <$> Unmarshal P JSON (string_of responseBody) v)
          else mret (httpStatus, responseBody, err)
      | None => mret (httpStatus, responseBody, err)
      end
  end.

End WithPlatform.
End HttpUtilsGo.

(** ** src/unnamed/part_001 (package utils, fixed timeout) *)

Module Part001.
Section WithPlatform.
Context (P : Platform).

(** [sendHttpReq], lines 151-212.  The client has the fixed timeout
    [30 * time.Second]. *)
Definition sendHttpReq (method urlString token : string) (data : ByteSlice)
  (headers : option loc) (cookie : option Cookie.t) (transport : option Transport)
  : M (Z * ByteSlice * option error) :=
  let httpStatus := 0 in
  let client := Client.mk None (30 * Second) in
  let client := match transport with
                | Some t => Client.mk (Some t) (Client.Timeout client)
                | None => client
                end in
  match NewRequest P method urlString data with
  | inl err =>
      mret (httpStatus, None,
            Some (ErrResource (ResourceError.mk urlString 0 EmptyString None (Some err))))
  | inr request =>
      let request := match cookie with
                     | Some c => AddCookie P request c
                     | None => request
                     end in
      entries ← range_headers P headers;
      let request := fold_left (λ r kv, Request_Header_Add P r kv.1 kv.2)
                               entries request in
      let request := if negb (String.eqb token EmptyString)
                     then Request_Header_Add P request "Authorization" token
                     else request in
      let reencoded : StdError + string :=
        if ContainsAny urlString "?" then
          match url_Parse P urlString with
          | inl err => inl err
          | inr urlTemp =>
              let urlQuery := Query urlTemp in
              let urlTemp := set_RawQuery (Encode urlQuery) urlTemp in
              inr (URL_String P urlTemp)
          end
        else inr urlString in
      match reencoded with
      | inl err =>
          mret (httpStatus, None,
                Some (ErrResource (ResourceError.mk urlString 0 EmptyString None (Some err))))
      | inr urlString =>
          _ ← emit (EvDo client request);
          match Do P client request with
          | inl err =>
              mret (httpStatus, None,
                    Some (ErrResource (ResourceError.mk urlString 0 EmptyString None (Some err))))
          | inr response =>
              let '(buf, err) := ReadAll (Response.Body response) in
              match err with
              | Some err =>
                  _ ← emit EvClose;
                  mret (httpStatus, None,
                        Some (ErrResource
                                (ResourceError.mk urlString (Response.StatusCode response)
                                   EmptyString None (Some err))))
              | None =>
                  let httpStatus := Response.StatusCode response in
                  if 399 <? Response.StatusCode response then
                    _ ← emit EvClose;
                    mret (httpStatus, buf,
                          Some (ErrResource
                                  (ResourceError.mk urlString (Response.StatusCode response)
                                     "incorrect response.StatusCode"
                                     (Some (string_of data))
                                     (Some (Errorf "incorrect status code")))))
                  else
                    _ ← emit EvClose;
                    mret (httpStatus, buf, None)
              end
          end
      end
  end.

(** [HttpReqAuthXML], lines 33-51. *)
Definition HttpReqAuthXML (method urlString token : string) (body : ByteSlice)
  (headers : option loc) (cookie : option Cookie.t) (transport : option Transport) (responseStruct : option Target)
  : M (Z * ByteSlice * option error) :=
  let method := TrimSpace P (ToUpper P method) in
  headers ← match headers with
            | None => map_make {["Content-Type"%string := "text/xml"%string]}
            | Some l => _ ← map_assign l "Content-Type" "text/xml"; mret l
            end;
  '(httpStatus, responseBody, err) ←
    sendHttpReq method urlString token body (Some headers) cookie transport;
  match err with
  | Some _ => mret (httpStatus, responseBody, err)
  | None =>
      match responseStruct with
      | Some v =>
          if negb (len responseBody =? 0) then
            _ ← emit (EvUnmarshal XML (string_of responseBody) v);
            mret (httpStatus, responseBody,
                  ErrStd <$> Unmarshal P XML (string_of responseBody) v)
          else mret (httpStatus, responseBody, err)
      | None => mret (httpStatus, responseBody, err)
      end
  end.

(** [HttpReqAuthJSON], lines 53-71. *)
Definition HttpReqAuthJSON (method urlString token : string) (body : ByteSlice)
  (headers : option loc) (cookie : option Cookie.t) (transport : option Transport) (responseStruct : option Target)
  : M (Z * ByteSlice * option error) :=
  let method := TrimSpace P (ToUpper P method) in
  headers ← match headers with
            | None => map_make {["Content-Type"%string := "application/json"%string]}
            | Some l => _ ← map_assign l "Content-Type" "application/json"; mret l
            end;
  '(httpStatus, responseBody, err) ←
    sendHttpReq method urlString token body (Some headers) cookie transport;
  match err with
  | Some _ => mret (httpStatus, responseBody, err)
  | None =>
      match responseStruct with
      | Some v =>
          if negb (len responseBody =? 0) then
            _ ← emit (EvUnmarshal JSON (string_of responseBody) v);
            mret (httpStatus, responseBody,
                  ErrStd <$> Unmarshal P JSON (string_of responseBody) v)
          else mret (httpStatus, responseBody, err)
      | None => mret (httpStatus, responseBody, err)
      end
  end.

(** [HttpReqXML], lines 73-92. *)
Definition HttpReqXML (method urlString : string) (body : ByteSlice)
  (headers : option loc) (cookie : option Cookie.t) (transport : option Transport) (resultStruct : option Target)
  : M (Z * ByteSlice * option error) :=
  let method := TrimSpace P (ToUpper P method) in
  headers ← match headers with
            | None => map_make {["Content-Type"%string := "text/xml"%string]}
            | Some l => _ ← map_assign l "Content-Type" "text/xml"; mret l
            end;
  '(httpStatus, responseBody, err) ←
    sendHttpReq method urlString EmptyString body (Some headers) cookie transport;
  match err with
  | Some _ => mret (httpStatus, responseBody, err)
  | None =>
      match resultStruct with
      | Some v =>
          if 0 <? len responseBody then
            _ ← emit (EvUnmarshal XML (string_of responseBody) v);
            mret (httpStatus, responseBody,
                  ErrStd <$> Unmarshal P XML (string_of responseBody) v)
          else mret (httpStatus, responseBody, err)
      | None => mret (httpStatus, responseBody, err)
      end
  end.

(** [HttpReqJSON], lines 94-113. *)
Definition HttpReqJSON (method urlString : string) (body : ByteSlice)
  (headers : option loc) (cookie : option Cookie.t) (transport : option Transport) (resultStruct : option Target)
  : M (Z * ByteSlice * option error) :=
  let method := TrimSpace P (ToUpper P method) in
  headers ← match headers with
            | None => map_make {["Content-Type"%string := "application/json"%string]}
            | Some l => _ ← map_assign l "Content-Type" "application/json"; mret l
            end;
  '(httpStatus, responseBody, err) ←
    sendHttpReq method urlString EmptyString body (Some headers) cookie transport;
  match err with
  | Some _ => mret (httpStatus, responseBody, err)
  | None =>
      match resultStruct with
      | Some v =>
          if 0 <? len responseBody then
            _ ← emit (EvUnmarshal JSON (string_of responseBody) v);
            mret (httpStatus, responseBody,
                  ErrStd <$> Unmarshal P JSON (string_of responseBody) v)
          else mret (httpStatus, responseBody, err)
      | None => mret (httpStatus, responseBody, err)
      end
  end.

(** [HttpReqPostFormJSON], lines 115-130. *)
Definition HttpReqPostFormJSON (urlString : string) (body : ByteSlice)
  (headers : option loc) (cookie : option Cookie.t) (transport : option Transport) (responseStruct : option Target)
  : M (Z * ByteSlice * option error) :=
  headers ← match headers with
            | None => map_make {["Content-Type"%string := "application/x-www-form-urlencoded"%string]}
            | Some l => _ ← map_assign l "Content-Type" "application/x-www-form-urlencoded"; mret l
            end;
  '(httpStatus, responseBody, err) ←
    sendHttpReq "POST" urlString EmptyString body (Some headers) cookie transport;
  match err with
  | Some _ => mret (httpStatus, responseBody, err)
  | None =>
      match responseStruct with
      | Some v =>
          if negb (len responseBody =? 0) then
            _ ← emit (EvUnmarshal JSON (string_of responseBody) v);
            mret (httpStatus, responseBody,
                  ErrStd <$> Unmarshal P JSON (string_of responseBody) v)
          else mret (httpStatus, responseBody, err)
      | None => mret (httpStatus, responseBody, err)
      end
  end.

(** [HttpReqPostFormXML], lines 132-149. *)
Definition HttpReqPostFormXML (urlString : string) (body : ByteSlice)
  (headers : option loc) (cookie : option Cookie.t) (transport : option Transport) (responseStruct : option Target)
  : M (Z * ByteSlice * option error) :=
  headers ← match headers with
            | None => map_make {["Content-Type"%string := "application/x-www-form-urlencoded"%string]}
            | Some l =>
                ok ← map_has l "Content-Type";
                if negb ok
                then (_ ← map_assign l "Content-Type" "application/x-www-form-urlencoded"; mret l)
                else mret l
            end;
  '(httpStatus, responseBody, err) ←
    sendHttpReq "POST" urlString EmptyString body (Some headers) cookie transport;
  match err with
  | Some _ => mret (httpStatus, responseBody, err)
  | None =>
      match responseStruct with
      | Some v =>
          if negb (len responseBody =? 0) then
            _ ← emit (EvUnmarshal XML (string_of responseBody) v);
            mret (httpStatus, responseBody,
                  ErrStd <$> Unmarshal P XML (string_of responseBody) v)
          else mret (httpStatus, responseBody, err)
      | None => mret (httpStatus, responseBody, err)
      end
  end.

End WithPlatform.
End Part001.

(** ** src/unnamed/part_000 (package utils, caller-supplied timeout, file upload) *)

Module Part000.
Import Multipart.

Section WithPlatform.
Context (P : Platform).

(** [sendHttpReq], lines 236-303.  [timeout] is an [int] of seconds;
    [time.Duration(timeout) * time.Second] is an [int64] product. *)
Definition sendHttpReq (method urlString token : string) (data : ByteSlice)
  (headers : option loc) (cookie : option Cookie.t) (transport : option Transport)
  (timeout : Z)
  : M (Z * ByteSlice * option error) :=
  let httpStatus := 0 in
  let defaultTimeout := 30 * Second in
  let defaultTimeout := if 0 <? timeout
                        then Duration_mul (Duration timeout) Second
                        else defaultTimeout in
  let client := Client.mk None defaultTimeout in
  let client := match transport with
                | Some t => Client.mk (Some t) (Client.Timeout client)
                | None => client
                end in
  match NewRequest P method urlString data with
  | inl err =>
      mret (httpStatus, None,
            Some (ErrResource (ResourceError.mk urlString 0 EmptyString None (Some err))))
  | inr request =>
      let request := match cookie with
                     | Some c => AddCookie P request c
                     | None => request
                     end in
      entries ← range_headers P headers;
      let request := fold_left (λ r kv, Request_Header_Add P r kv.1 kv.2)
                               entries request in
      let request := if negb (String.eqb token EmptyString)
                     then Request_Header_Add P request "Authorization" token
                     else request in
      let reencoded : StdError + string :=
        if ContainsAny urlString "?" then
          match url_Parse P urlString with
          | inl err => inl err
          | inr urlTemp =>
              let urlQuery := Query urlTemp in
              let urlTemp := set_RawQuery (Encode urlQuery) urlTemp in
              inr (URL_String P urlTemp)
          end
        else inr urlString in
      match reencoded with
      | inl err =>
          mret (httpStatus, None,
                Some (ErrResource (ResourceError.mk urlString 0 EmptyString None (Some err))))
      | inr urlString =>
          _ ← emit (EvDo client request);
          match Do P client request with
          | inl err =>
              mret (httpStatus, None,
                    Some (ErrResource (ResourceError.mk urlString 0 EmptyString None (Some err))))
          | inr response =>
              let '(buf, err) := ReadAll (Response.Body response) in
              match err with
              | Some err =>
                  _ ← emit EvClose;
                  mret (httpStatus, None,
                        Some (ErrResource
                                (ResourceError.mk urlString (Response.StatusCode response)
                                   EmptyString None (Some err))))
              | None =>
                  let httpStatus := Response.StatusCode response in
                  if 399 <? Response.StatusCode response then
                    _ ← emit EvClose;
                    mret (httpStatus, buf,
                          Some (ErrResource
                                  (ResourceError.mk urlString (Response.StatusCode response)
                                     "incorrect response.StatusCode"
                                     (Some (string_of data))
                                     (Some (Errorf "incorrect status code")))))
                  else
                    _ ← emit EvClose;
                    mret (httpStatus, buf, None)
              end
          end
      end
  end.

(** [HttpReqAuthXML], lines 40-58. *)
Definition HttpReqAuthXML (method urlString token : string) (body : ByteSlice)
  (headers : option loc) (cookie : option Cookie.t) (transport : option Transport)
  (timeout : Z) (responseStruct : option Target)
  : M (Z * ByteSlice * option error) :=
  let method := TrimSpace P (ToUpper P method) in
  headers ← match headers with
            | None => map_make {["Content-Type"%string := "text/xml"%string]}
            | Some l => _ ← map_assign l "Content-Type" "text/xml"; mret l
            end;
  '(httpStatus, responseBody, err) ←
    sendHttpReq method urlString token body (Some headers) cookie transport timeout;
  match err with
  | Some _ => mret (httpStatus, responseBody, err)
  | None =>
      match responseStruct with
      | Some v =>
          if negb (len responseBody =? 0) then
            _ ← emit (EvUnmarshal XML (string_of responseBody) v);
            mret (httpStatus, responseBody,
                  ErrStd <$> Unmarshal P XML (string_of responseBody) v)
          else mret (httpStatus, responseBody, err)
      | None => mret (httpStatus, responseBody, err)
      end
  end.

(** [HttpReqAuthJSON], lines 60-78. *)
Definition HttpReqAuthJSON (method urlString token : string) (body : ByteSlice)
  (headers : option loc) (cookie : option Cookie.t) (transport : option Transport)
  (timeout : Z) (responseStruct : option Target)
  : M (Z * ByteSlice * option error) :=
  let method := TrimSpace P (ToUpper P method) in
  headers ← match headers with
            | None => map_make {["Content-Type"%string := "application/json"%string]}
            | Some l => _ ← map_assign l "Content-Type" "application/json"; mret l
            end;
  '(httpStatus, responseBody, err) ←
    sendHttpReq method urlString token body (Some headers) cookie transport timeout;
  match err with
  | Some _ => mret (httpStatus, responseBody, err)
  | None =>
      match responseStruct with
      | Some v =>
          if negb (len responseBody =? 0) then
            _ ← emit (EvUnmarshal JSON (string_of responseBody) v);
            mret (httpStatus, responseBody,
                  ErrStd <$> Unmarshal P JSON (string_of responseBody) v)
          else mret (httpStatus, responseBody, err)
      | None => mret (httpStatus, responseBody, err)
      end
  end.

(** [HttpReqXML], lines 80-99. *)
Definition HttpReqXML (method urlString : string) (body : ByteSlice)
  (headers : option loc) (cookie : option Cookie.t) (transport : option Transport)
  (timeout : Z) (responseStruct : option Target)
  : M (Z * ByteSlice * option error) :=
  let method := TrimSpace P (ToUpper P method) in
  headers ← match headers with
            | None => map_make {["Content-Type"%string := "text/xml"%string]}
            | Some l => _ ← map_assign l "Content-Type" "text/xml"; mret l
            end;
  '(httpStatus, responseBody, err) ←
    sendHttpReq method urlString EmptyString body (Some headers) cookie transport timeout;
  match err with
  | Some _ => mret (httpStatus, responseBody, err)
  | None =>
      match responseStruct with
      | Some v =>
          if 0 <? len responseBody then
            _ ← emit (EvUnmarshal XML (string_of responseBody) v);
            mret (httpStatus, responseBody,
                  ErrStd <$> Unmarshal P XML (string_of responseBody) v)
          else mret (httpStatus, responseBody, err)
      | None => mret (httpStatus, responseBody, err)
      end
  end.

(** [HttpReqJSON], lines 101-120. *)
Definition HttpReqJSON (method urlString : string) (body : ByteSlice)
  (headers : option loc) (cookie : option Cookie.t) (transport : option Transport)
  (timeout : Z) (responseStruct : option Target)
  : M (Z * ByteSlice * option error) :=
  let method := TrimSpace P (ToUpper P method) in
  headers ← match headers with
            | None => map_make {["Content-Type"%string := "application/json"%string]}
            | Some l => _ ← map_assign l "Content-Type" "application/json"; mret l
            end;
  '(httpStatus, responseBody, err) ←
    sendHttpReq method urlString EmptyString body (Some headers) cookie transport timeout;
  match err with
  | Some _ => mret (httpStatus, responseBody, err)
  | None =>
      match responseStruct with
      | Some v =>
          if 0 <? len responseBody then
            _ ← emit (EvUnmarshal JSON (string_of responseBody) v);
            mret (httpStatus, responseBody,
                  ErrStd <$> Unmarshal P JSON (string_of responseBody) v)
          else mret (httpStatus, responseBody, err)
      | None => mret (httpStatus, responseBody, err)
      end
  end.

(** [HttpReqPostFormJSON], lines 122-137. *)
Definition HttpReqPostFormJSON (urlString : string) (body : ByteSlice)
  (headers : option loc) (cookie : option Cookie.t) (transport : option Transport)
  (timeout : Z) (responseStruct : option Target)
  : M (Z * ByteSlice * option error) :=
  headers ← match headers with
            | None => map_make {["Content-Type"%string := "application/x-www-form-urlencoded"%string]}
            | Some l => _ ← map_assign l "Content-Type" "application/x-www-form-urlencoded"; mret l
            end;
  '(httpStatus, responseBody, err) ←
    sendHttpReq "POST" urlString EmptyString body (Some headers) cookie transport timeout;
  match err with
  | Some _ => mret (httpStatus, responseBody, err)
  | None =>
      match responseStruct with
      | Some v =>
          if negb (len responseBody =? 0) then
            _ ← emit (EvUnmarshal JSON (string_of responseBody) v);
            mret (httpStatus, responseBody,
                  ErrStd <$> Unmarshal P JSON (string_of responseBody) v)
          else mret (httpStatus, responseBody, err)
      | None => mret (httpStatus, responseBody, err)
      end
  end.

(** [HttpReqPostFormXML], lines 139-156. *)
Definition HttpReqPostFormXML (urlString : string) (body : ByteSlice)
  (headers : option loc) (cookie : option Cookie.t) (transport : option Transport)
  (timeout : Z) (responseStruct : option Target)
  : M (Z * ByteSlice * option error) :=
  headers ← match headers with
            | None => map_make {["Content-Type"%string := "application/x-www-form-urlencoded"%string]}
            | Some l =>
                ok ← map_has l "Content-Type";
                if negb ok
                then (_ ← map_assign l "Content-Type" "application/x-www-form-urlencoded"; mret l)
                else mret l
            end;
  '(httpStatus, responseBody, err) ←
    sendHttpReq "POST" urlString EmptyString body (Some headers) cookie transport timeout;
  match err with
  | Some _ => mret (httpStatus, responseBody, err)
  | None =>
      match responseStruct with
      | Some v =>
          if negb (len responseBody =? 0) then
            _ ← emit (EvUnmarshal XML (string_of responseBody) v);
            mret (httpStatus, responseBody,
                  ErrStd <$> Unmarshal P XML (string_of responseBody) v)
          else mret (httpStatus, responseBody, err)
      | None => mret (httpStatus, responseBody, err)
      end
  end.

(** [HttpReqPostFile], lines 158-191.  The errors of [WriteField] and of
    [fileWriter.Write] are not looked at. *)
Definition HttpReqPostFile (urlString : string)
  (paramTexts : gmap string string) (paramFile : FileItem.t)
  (headers : option loc) (cookie : option Cookie.t) (transport : option Transport)
  (timeout : Z) (responseStruct : option Target)
  : M (Z * ByteSlice * option error) :=
  writer ← NewWriter P;
  entries ← range_of P paramTexts;
  let writer := fold_left (λ w kv, (WriteField P w kv.1 kv.2).2) entries writer in
  match CreateFormFile P writer (FileItem.Key paramFile) (FileItem.FileName paramFile) with
  | inl err => mret (0, None, Some (ErrStd err))
  | inr writer =>
      let writer := part_Write writer (FileItem.Content paramFile) in
      headers ← match headers with
                | None => map_make {["Content-Type"%string := FormDataContentType writer]}
                | Some l => _ ← map_assign l "Content-Type" (FormDataContentType writer); mret l
                end;
      let writer := Close writer in
      '(httpStatus, responseBody, err) ←
        sendHttpReq "POST" urlString EmptyString (Bytes writer) (Some headers) cookie transport timeout;
      match err with
      | Some _ => mret (httpStatus, responseBody, err)
      | None =>
          match responseStruct with
          | Some v =>
              if 0 <? len responseBody then
                _ ← emit (EvUnmarshal JSON (string_of responseBody) v);
                mret (httpStatus, responseBody,
                      ErrStd <$> Unmarshal P JSON (string_of responseBody) v)
              else mret (httpStatus, responseBody, err)
          | None => mret (httpStatus, responseBody, err)
          end
      end
  end.

(** [httpReqAuthFile], lines 201-234.  The errors of [WriteField] and of
    [fileWriter.Write] are not looked at. *)
Definition httpReqAuthFile (method urlString token : string)
  (paramTexts : gmap string string) (paramFile : FileItem.t)
  (headers : option loc) (cookie : option Cookie.t) (transport : option Transport)
  (timeout : Z) (responseStruct : option Target)
  : M (Z * ByteSlice * option error) :=
  writer ← NewWriter P;
  entries ← range_of P paramTexts;
  let writer := fold_left (λ w kv, (WriteField P w kv.1 kv.2).2) entries writer in
  match CreateFormFile P writer (FileItem.Key paramFile) (FileItem.FileName paramFile) with
  | inl err => mret (0, None, Some (ErrStd err))
  | inr writer =>
      let writer := part_Write writer (FileItem.Content paramFile) in
      headers ← match headers with
                | None => map_make {["Content-Type"%string := FormDataContentType writer]}
                | Some l => _ ← map_assign l "Content-Type" (FormDataContentType writer); mret l
                end;
      let writer := Close writer in
      '(httpStatus, responseBody, err) ←
        sendHttpReq method urlString token (Bytes writer) (Some headers) cookie transport timeout;
      match err with
      | Some _ => mret (httpStatus, responseBody, err)
      | None =>
          match responseStruct with
          | Some v =>
              if 0 <? len responseBody then
                _ ← emit (EvUnmarshal JSON (string_of responseBody) v);
                mret (httpStatus, responseBody,
                      ErrStd <$> Unmarshal P JSON (string_of responseBody) v)
              else mret (httpStatus, responseBody, err)
          | None => mret (httpStatus, responseBody, err)
          end
      end
  end.

(** [HttpReqAuthPutFile], lines 193-195. *)
Definition HttpReqAuthPutFile (urlString token : string)
  (paramTexts : gmap string string) (paramFile : FileItem.t)
  (headers : option loc) (cookie : option Cookie.t) (transport : option Transport)
  (timeout : Z) (responseStruct : option Target)
  : M (Z * ByteSlice * option error) :=
  httpReqAuthFile "PUT" urlString token paramTexts paramFile headers cookie
                  transport timeout responseStruct.

(** [HttpReqAuthPostFile], lines 197-199. *)
Definition HttpReqAuthPostFile (urlString token : string)
  (paramTexts : gmap string string) (paramFile : FileItem.t)
  (headers : option loc) (cookie : option Cookie.t) (transport : option Transport)
  (timeout : Z) (responseStruct : option Target)
  : M (Z * ByteSlice * option error) :=
  httpReqAuthFile "POST" urlString token paramTexts paramFile headers cookie
                  transport timeout responseStruct.

End WithPlatform.
End Part000.

(** ** A platform to run the functions on

    [Sample.platform] fixes the platform for the worked examples.  It agrees
    with the Go standard library on the inputs the examples use: ASCII
    method names, plain URLs of the shape [scheme://host/path?query#fragment],
    cookie names and values that need no sanitising.  The network is a small
    scripted server. *)

Module Sample.

Definition lower (c : ascii) : ascii :=
  if byte_between "A" "Z" c then ascii_of_nat (nat_of_ascii c + 32) else c.
Definition upper (c : ascii) : ascii :=
  if byte_between "a" "z" c then ascii_of_nat (nat_of_ascii c - 32) else c.

Fixpoint map_bytes (f : ascii → ascii) (s : string) : string :=
  match s with
  | EmptyString => EmptyString
  | String a s' => String (f a) (map_bytes f s')
  end.

Definition ToUpper (s : string) : string := map_bytes upper s.

(** The ASCII white space of [unicode.IsSpace]: tab, LF, VT, FF, CR, space. *)
Definition isSpace (c : ascii) : bool :=
  byte_between (ascii_of_nat 9) (ascii_of_nat 13) c || Ascii.eqb c " ".

Fixpoint TrimLeft (s : string) : string :=
  match s with
  | EmptyString => EmptyString
  | String a s' => if isSpace a then TrimLeft s' else s
  end.

Fixpoint TrimRight (s : string) : string :=
  match s with
  | EmptyString => EmptyString
  | String a s' =>
      match TrimRight s' with
      | EmptyString => if isSpace a then EmptyString else String a EmptyString
      | r => String a r
      end
  end.

Definition TrimSpace (s : string) : string := TrimRight (TrimLeft s).

(** Canonical header keys: a key made of token characters gets its first
    letter and every letter after a hyphen in upper case, the others in
    lower case; any other key is left alone. *)
Fixpoint canon (up : bool) (s : string) : string :=
  match s with
  | EmptyString => EmptyString
  | String a s' => String (if up then upper a else lower a) (canon (Ascii.eqb a "-") s')
  end.

Definition CanonicalMIMEHeaderKey (s : string) : string :=
  if all_bytes isTokenByte s then canon true s else s.

(** The scheme: letters, then letters, digits and [+-.], up to a colon. *)
Fixpoint getScheme (first : bool) (s : string) : option (string * string) :=
  match s with
  | EmptyString => Some (EmptyString, EmptyString)
  | String a s' =>
      if Ascii.eqb a ":" then (if first then None else Some (EmptyString, s'))
      else if byte_between "a" "z" a || byte_between "A" "Z" a
              || (negb first && (byte_between "0" "9" a || Ascii.eqb a "+"
                                 || Ascii.eqb a "-" || Ascii.eqb a "."))
      then match getScheme false s' with
           | Some (sch, rest) => Some (String a sch, rest)
           | None => None
           end
      else Some (EmptyString, s)
  end.

(** The scheme is only a scheme when the colon was reached. *)
Definition splitScheme (s : string) : option (string * string) :=
  if contains_byte ":" s then
    match getScheme true s with
    | None => None
    | Some (sch, rest) =>
        if Nat.eqb (String.length sch + String.length rest + 1) (String.length s)
        then Some (map_bytes lower sch, rest)
        else Some (EmptyString, s)
    end
  else Some (EmptyString, s).

Definition isCTL (c : ascii) : bool :=
  Nat.ltb (nat_of_ascii c) 32 || Nat.eqb (nat_of_ascii c) 127.

Fixpoint count_byte (c : ascii) (s : string) : nat :=
  match s with
  | EmptyString => O
  | String a s' => (if Ascii.eqb a c then 1 else 0) + count_byte c s'
  end.

Fixpoint ends_with (c : ascii) (s : string) : bool :=
  match s with
  | EmptyString => false
  | String a EmptyString => Ascii.eqb a c
  | String _ s' => ends_with c s'
  end.

Definition url_Parse (rawURL : string) : StdError + URL :=
  let '(u, frag, _) := Cut rawURL "#" in
  if negb (all_bytes (λ c, negb (isCTL c)) u)
  then inl (LibError "net/url: invalid control character in URL")
  else match splitScheme u with
       | None => inl (LibError "missing protocol scheme")
       | Some (scheme, rest) =>
           let '(rest, force, query) :=
             if ends_with "?" rest && Nat.eqb (count_byte "?" rest) 1
             then (TrimSuffix rest "?", true, EmptyString)
             else let '(r, q, _) := Cut rest "?" in (r, false, q) in
           match rest with
           | String "/" (String "/" auth) =>
               let '(host, path, found) := Cut auth "/" in
               inr (mkURL scheme host (if found then String "/" path else EmptyString)
                          force query frag)
           | _ => inr (mkURL scheme EmptyString rest force query frag)
           end
       end.

Definition URL_String (u : URL) : string :=
  (if String.eqb (Scheme u) EmptyString then EmptyString else Scheme u +:+ ":") +:+
  (if String.eqb (Host u) EmptyString then EmptyString else "//" +:+ Host u) +:+
  Path u +:+
  (if ForceQuery u || negb (String.eqb (RawQuery u) EmptyString)
   then "?" +:+ RawQuery u else EmptyString) +:+
  (if String.eqb (Fragment u) EmptyString then EmptyString else "#" +:+ Fragment u).

(** [escapeQuotes]: a backslash before every backslash and quote. *)
Fixpoint escapeQuotes (s : string) : string :=
  match s with
  | EmptyString => EmptyString
  | String a s' =>
      if Ascii.eqb a (ascii_of_nat 92) || Ascii.eqb a (ascii_of_nat 34)
      then String (ascii_of_nat 92) (String a (escapeQuotes s'))
      else String a (escapeQuotes s')
  end.

Definition randomBoundary (n : nat) : string :=
  "5f1c2e9a7b3d4c6e8f0a1b2c3d4e5f60718293a4b5c6d7e8f9012345678a".

(** The scripted server: host [down.example] refuses the connection,
    [/missing] answers 404, [/broken] ends the body early, [/data] answers
    200 with a JSON object, every other path answers 200 with no body.  A
    transport is needed for any scheme but [http] and [https]. *)
Definition Do (c : Client.t) (r : Request.t) : StdError + Response.t :=
  let u := Request.URL r in
  if negb (String.eqb (Scheme u) "http" || String.eqb (Scheme u) "https")
  then inl (LibError "unsupported protocol scheme")
  else if String.eqb (Request.Host r) "down.example"
  then inl (LibError "dial tcp: connection refused")
  else if String.eqb (Path u) "/missing"
  then inr (Response.mk 404 ("not found"%string, None))
  else if String.eqb (Path u) "/broken"
  then inr (Response.mk 200 ("{"%string, Some (LibError "unexpected EOF")))
  else if String.eqb (Path u) "/data"
  then inr (Response.mk 200 ("{}"%string, None))
  else if String.eqb (Path u) "/text"
  then inr (Response.mk 200 ("hello"%string, None))
  else inr (Response.mk 200 (EmptyString, None)).

(** The decoders accept a document that starts with the opening bracket
    of their format. *)
Definition Unmarshal (c : Codec) (data : string) (v : Target) : option StdError :=
  match c, data with
  | JSON, String "{" _ => None
  | XML, String "<" _ => None
  | JSON, _ => Some (LibError "invalid character looking for beginning of value")
  | XML, _ => Some (LibError "EOF")
  end.

Definition platform : Platform :=
  mkPlatform ToUpper TrimSpace url_Parse URL_String CanonicalMIMEHeaderKey
             (λ s, s) (λ s, s) (λ _ m, map_to_list m)
             (λ _ m, Permutation_refl (map_to_list m))
             randomBoundary escapeQuotes Do Unmarshal.

(** The empty world. *)
Definition world0 : World := mkWorld ∅ 0 0 [].

End Sample.

(** ** The shape shared by the three dispatchers

    The three versions of [sendHttpReq] differ in the client they build and
    in whether a token is added.  [dispatch] is their common shape, with the
    client as an argument and the store threaded by hand; the lemmas
    [sendHttpReq_dispatch] below show each version equal to it. *)

Definition Result : Type := Z * ByteSlice * option error.

(** The map a [headers] variable stands for. *)
Definition headers_map (headers : option loc) (w : World) : gmap string string :=
  match headers with
  | None => ∅
  | Some l => default ∅ (maps w !! l)
  end.

(** The request as it leaves for [client.Do]: cookie, header entries in
    range order, token. *)
Definition decorate (P : Platform) (request : Request.t) (cookie : option Cookie.t)
    (entries : list (string * string)) (token : string) : Request.t :=
  let request := match cookie with
                 | Some c => AddCookie P request c
                 | None => request
                 end in
  let request := fold_left (λ r kv, Request_Header_Add P r kv.1 kv.2) entries request in
  if negb (String.eqb token EmptyString)
  then Request_Header_Add P request "Authorization" token
  else request.

(** The value of the local [urlString] after the re-encoding block. *)
Definition reencode (P : Platform) (urlString : string) : StdError + string :=
  if ContainsAny urlString "?" then
    match url_Parse P urlString with
    | inl err => inl err
    | inr urlTemp => inr (URL_String P (set_RawQuery (Encode (Query urlTemp)) urlTemp))
    end
  else inr urlString.

(** A failure before the status check: no message, no payload. *)
Definition failure (url : string) (code : Z) (err : StdError) : Result :=
  (0, None, Some (ErrResource (ResourceError.mk url code EmptyString None (Some err)))).

(** The world after the [range] over the headers and the events [evs]. *)
Definition after (w : World) (evs : list Event) : World :=
  mkWorld (maps w) (S (iter w)) (rand w) (log w ++ evs).

Definition dispatch (P : Platform) (client : Client.t) (method urlString token : string)
    (data : ByteSlice) (headers : option loc) (cookie : option Cookie.t) : M Result :=
  λ w,
    match NewRequest P method urlString data with
    | inl err => (failure urlString 0 err, w)
    | inr request =>
        let request :=
          decorate P request cookie (rangeOrder P (iter w) (headers_map headers w)) token in
        match reencode P urlString with
        | inl err => (failure urlString 0 err, after w [])
        | inr url =>
            match Do P client request with
            | inl err => (failure url 0 err, after w [EvDo client request])
            | inr response =>
                match (Response.Body response).2 with
                | Some err =>
                    (failure url (Response.StatusCode response) err,
                     after w [EvDo client request; EvClose])
                | None =>
                    if 399 <? Response.StatusCode response then
                      ((Response.StatusCode response, Some (Response.Body response).1,
                        Some (ErrResource
                                (ResourceError.mk url (Response.StatusCode response)
                                   "incorrect response.StatusCode"
                                   (Some (string_of data))
                                   (Some (Errorf "incorrect status code"))))),
                       after w [EvDo client request; EvClose])
                    else
                      ((Response.StatusCode response, Some (Response.Body response).1, None),
                       after w [EvDo client request; EvClose])
                end
            end
        end
    end.

(** The client of [part_000]: the caller's transport and the timeout
    worked out from the [timeout] argument. *)
Definition client_of (transport : option Transport) (timeout : Z) : Client.t :=
  Client.mk transport
    (if 0 <? timeout then Duration_mul (Duration timeout) Second else 30 * Second).

(** ** The shape shared by the entry points

    Every entry point makes sure of a headers map ([prepare_headers]), calls
    the dispatcher, and decodes what came back ([decode_response]). *)

(** The headers step: a nil [headers] becomes a new one-entry map; in a map
    the caller passed, [Content-Type] is assigned, always or only when the
    key is absent. *)
Definition prepare_headers (always : bool) (ct : string) (headers : option loc) : M loc :=
  λ w,
    match headers with
    | None =>
        let l := fresh (dom (maps w)) in
        (l, mkWorld (<[l := {["Content-Type"%string := ct]}]> (maps w))
                    (iter w) (rand w) (log w))
    | Some l =>
        let m := default ∅ (maps w !! l) in
        if always || negb (bool_decide (is_Some (m !! "Content-Type"%string)))
        then (l, mkWorld (<[l := <["Content-Type"%string := ct]> m]> (maps w))
                         (iter w) (rand w) (log w))
        else (l, w)
    end.

(** The decoding step applied to what the dispatcher returned. *)
Definition decode_response (P : Platform) (codec : Codec) (responseStruct : option Target)
    (sent : Result * World) : Result * World :=
  let '((httpStatus, responseBody, err), w) := sent in
  match err, responseStruct with
  | None, Some v =>
      if 0 <? len responseBody then
        ((httpStatus, responseBody, ErrStd <$> Unmarshal P codec (string_of responseBody) v),
         mkWorld (maps w) (iter w) (rand w)
                 (log w ++ [EvUnmarshal codec (string_of responseBody) v]))
      else sent
  | _, _ => sent
  end.

(** The decoding rule as a relation between the dispatcher's return and
    the entry point's: status and bytes are handed on; the decoder runs
    exactly when there is no error, an output value and a non-empty body,
    and then its result is the error returned. *)
Definition decoding_rule (P : Platform) (codec : Codec) (responseStruct : option Target)
    (sent out : Result * World) : Prop :=
  out.1.1.1 = sent.1.1.1 ∧ out.1.1.2 = sent.1.1.2 ∧
  ((∃ v, sent.1.2 = None ∧ responseStruct = Some v ∧ len sent.1.1.2 ≠ 0
         ∧ log out.2 = log sent.2 ++ [EvUnmarshal codec (string_of sent.1.1.2) v]
         ∧ out.1.2 = ErrStd <$> Unmarshal P codec (string_of sent.1.1.2) v)
   ∨ ((sent.1.2 ≠ None ∨ responseStruct = None ∨ len sent.1.1.2 = 0)
      ∧ out.2 = sent.2 ∧ out.1.2 = sent.1.2)).

(** A return without error carries the status code and the body of the
    response the server gave to the request of this run. *)
Definition server_reported (P : Platform) (w : World) (sent : Result * World) : Prop :=
  sent.1.2 = None →
  ∃ c r response,
    log sent.2 = log w ++ [EvDo c r; EvClose]
    ∧ Do P c r = inr response
    ∧ sent.1.1.1 = Response.StatusCode response
    ∧ sent.1.1.2 = Some (Response.Body response).1.

(** ** The layout of a multipart body *)

Module Layout.
Import Multipart.

(** One part: the delimiter line (after a CRLF unless the part is the
    first), the header lines, an empty line, the content. *)
Definition part (b : string) (first : bool) (header_lines content : string) : string :=
  (if first then EmptyString else CRLF) +:+ "--" +:+ b +:+ CRLF +:+
  header_lines +:+ CRLF +:+ content.

Definition field_lines (P : Platform) (k : string) : string :=
  "Content-Disposition" +:+ ": " +:+
  ("form-data; name=" +:+ dquote +:+ escapeQuotes P k +:+ dquote) +:+ CRLF.

Definition file_lines (P : Platform) (key filename : string) : string :=
  "Content-Disposition" +:+ ": " +:+
  ("form-data; name=" +:+ dquote +:+ escapeQuotes P key +:+ dquote +:+
   "; filename=" +:+ dquote +:+ escapeQuotes P filename +:+ dquote) +:+ CRLF +:+
  "Content-Type" +:+ ": " +:+ "application/octet-stream" +:+ CRLF.

(** The text fields, one part each, in the given order. *)
Fixpoint text_parts (P : Platform) (b : string) (first : bool)
    (texts : list (string * string)) : string :=
  match texts with
  | [] => EmptyString
  | kv :: rest => part b first (field_lines P kv.1) kv.2 +:+ text_parts P b false rest
  end.

Definition file_part (P : Platform) (b : string) (first : bool) (f : FileItem.t) : string :=
  part b first (file_lines P (FileItem.Key f) (FileItem.FileName f))
       (string_of (FileItem.Content f)).

(** The closing delimiter. *)
Definition terminator (b : string) : string := CRLF +:+ "--" +:+ b +:+ "--" +:+ CRLF.

Definition is_nil {A : Type} (l : list A) : bool :=
  match l with [] => true | _ => false end.

(** Text parts first, then the file part, then the terminator. *)
Definition multipart_body (P : Platform) (b : string) (texts : list (string * string))
    (f : FileItem.t) : string :=
  text_parts P b true texts +:+ file_part P b (is_nil texts) f +:+ terminator b.

(** The content type announcing boundary [b]. *)
Definition content_type (b : string) : string :=
  "multipart/form-data; boundary=" +:+
  (if ContainsAny b tspecials then dquote +:+ b +:+ dquote else b).

End Layout.

(** The world once the writer is made and the text fields are ranged over. *)
Definition after_writer (w : World) : World :=
  mkWorld (maps w) (S (iter w)) (S (rand w)) (log w).

(** ** The rules the dispatchers are checked against

    A rule speaks about a run [run : M Result] of a dispatcher with all its
    arguments given.  That the run made the round trip with client [c] and
    request [r] reads [log (run w).2 = log w ++ EvDo c r :: rest]; what the
    server answered is [Do P c r]. *)

(** Status 400 and above, body read to the end. *)
Definition status_failure_rule (P : Platform) (data : ByteSlice) (run : M Result) : Prop :=
  ∀ w c r rest response,
    log (run w).2 = log w ++ EvDo c r :: rest →
    Do P c r = inr response →
    (Response.Body response).2 = None →
    400 ≤ Response.StatusCode response →
    ∃ re,
      (run w).1 = (Response.StatusCode response, Some (Response.Body response).1,
                   Some (ErrResource re))
      ∧ ResourceError.Body re = Some (string_of data)
      ∧ ResourceError.Message re = "incorrect response.StatusCode"%string
      ∧ ResourceError.HTTPCode re = Response.StatusCode response.

(** The request could not be built, or the round trip failed. *)
Definition no_response_rule (P : Platform) (method urlString : string) (data : ByteSlice)
    (run : M Result) : Prop :=
  (∀ w err,
      NewRequest P method urlString data = inl err →
      run w = ((0, None,
                Some (ErrResource (ResourceError.mk urlString 0 EmptyString None (Some err)))),
               w))
  ∧
  (∀ w c r rest err,
      log (run w).2 = log w ++ EvDo c r :: rest →
      Do P c r = inl err →
      ∃ url,
        reencode P urlString = inr url
        ∧ (run w).1 = (0, None,
                       Some (ErrResource (ResourceError.mk url 0 EmptyString None (Some err))))).

(** The response arrived and reading its body failed. *)
Definition read_failure_rule (P : Platform) (run : M Result) : Prop :=
  ∀ w c r rest response err,
    log (run w).2 = log w ++ EvDo c r :: rest →
    Do P c r = inr response →
    (Response.Body response).2 = Some err →
    ∃ re,
      (run w).1 = (0, None, Some (ErrResource re))
      ∧ ResourceError.HTTPCode re = Response.StatusCode response
      ∧ ResourceError.Err re = Some err.

(** Once the request is built the round trip is made: no return lies
    between [http.NewRequest] and [client.Do]. *)
Definition always_sent_rule (P : Platform) (method urlString : string) (data : ByteSlice)
    (run : M Result) : Prop :=
  ∀ w request,
    NewRequest P method urlString data = inr request →
    (∃ u, url_Parse P urlString = inr u)
    ∧ ∃ c r rest, log (run w).2 = log w ++ EvDo c r :: rest.

(** The client of the round trip has the given [Timeout]. *)
Definition client_timeout_rule (timeout : Z) (run : M Result) : Prop :=
  ∀ w c r rest,
    log (run w).2 = log w ++ EvDo c r :: rest → Client.Timeout c = timeout.

(** The request of the round trip carries the query string of the URL as
    the caller wrote it. *)
Definition sent_query_rule (P : Platform) (urlString : string) (run : M Result) : Prop :=
  ∀ w c r rest,
    log (run w).2 = log w ++ EvDo c r :: rest →
    ∃ u, url_Parse P urlString = inr u ∧ RawQuery (Request.URL r) = RawQuery u.

(** The request of the round trip has method [method] (GET when empty)
    and body [data]. *)
Definition sent_method_rule (method : string) (data : ByteSlice) (run : M Result) : Prop :=
  ∀ w c r rest,
    log (run w).2 = log w ++ EvDo c r :: rest →
    Request.Method r = (if String.eqb method EmptyString then "GET"%string else method)
    ∧ Request.Body r = string_of data.

(** The headers rule, between the world before the call and a world
    after the headers step: a nil [headers] gives a map at an unused
    reference holding the content type and nothing else; in a map the
    caller passed, the content type is assigned, always or only when no
    [Content-Type] entry is there. *)
Definition headers_rule (always : bool) (ct : string) (headers : option loc)
    (w w' : World) : Prop :=
  match headers with
  | None =>
      ∃ l, (l ∉ dom (maps w)) ∧ maps w' = <[l := {["Content-Type"%string := ct]}]> (maps w)
  | Some l =>
      let m := default ∅ (maps w !! l) in
      if always then maps w' = <[l := <["Content-Type"%string := ct]> m]> (maps w)
      else match m !! "Content-Type"%string with
           | Some _ => maps w' = maps w
           | None => maps w' = <[l := <["Content-Type"%string := ct]> m]> (maps w)
           end
  end.

(** ** Further rules for the dispatchers *)

(** Status below 400, body read to the end: the status code, the bytes
    and no error. *)
Definition success_rule (P : Platform) (run : M Result) : Prop :=
  ∀ w c r rest response,
    log (run w).2 = log w ++ EvDo c r :: rest →
    Do P c r = inr response →
    (Response.Body response).2 = None →
    Response.StatusCode response ≤ 399 →
    (run w).1 = (Response.StatusCode response, Some (Response.Body response).1, None).

(** Whatever error comes back is a [*ResourceError] with its cause set
    and with the URL as given or re-encoded; beside it come either status 0
    and nil bytes, or a status above 399 with the bytes and the fixed
    message. *)
Definition error_shape_rule (P : Platform) (urlString : string) (run : M Result) : Prop :=
  ∀ w e,
    (run w).1.2 = Some e →
    ∃ re,
      e = ErrResource re
      ∧ is_Some (ResourceError.Err re)
      ∧ (ResourceError.URL re = urlString
         ∨ reencode P urlString = inr (ResourceError.URL re))
      ∧ (((run w).1.1 = (0, None)
          ∧ ResourceError.Body re = None
          ∧ ResourceError.Message re = EmptyString)
         ∨ (399 < (run w).1.1.1
            ∧ ResourceError.HTTPCode re = (run w).1.1.1
            ∧ is_Some (run w).1.1.2
            ∧ ResourceError.Message re = "incorrect response.StatusCode"%string)).

(** All a run does to the world: nothing when the request cannot be built;
    otherwise one [range], one round trip, and the closing of the body
    exactly when a response arrived. *)
Definition effects_rule (P : Platform) (method urlString : string) (data : ByteSlice)
    (run : M Result) : Prop :=
  ∀ w,
    match NewRequest P method urlString data with
    | inl _ => (run w).2 = w
    | inr _ =>
        ∃ c r,
          (run w).2
          = mkWorld (maps w) (S (iter w)) (rand w)
              (log w ++ EvDo c r :: match Do P c r with
                                    | inl _ => []
                                    | inr _ => [EvClose]
                                    end)
    end.

(** A method that is not empty and holds a byte that is no token character
    stops the call before anything is done. *)
Definition invalid_method_rule (method urlString : string) (run : M Result) : Prop :=
  method ≠ EmptyString →
  all_bytes isTokenByte method = false →
  ∀ w, run w = (failure urlString 0 (InvalidMethod method), w).

(** [value] is among the values of header [key]. *)
Definition header_has (h : Header) (key value : string) : Prop :=
  ∃ vs, h !! key = Some vs ∧ value ∈ vs.

(** Every entry of the headers map is on the request sent, under its
    canonical key. *)
Definition headers_sent_rule (P : Platform) (headers : option loc) (run : M Result) : Prop :=
  ∀ w c r rest k v,
    log (run w).2 = log w ++ EvDo c r :: rest →
    headers_map headers w !! k = Some v →
    header_has (Request.Header r) (CanonicalMIMEHeaderKey P k) v.

(** A non-empty token is the last value of the [Authorization] header, as
    the caller gave it. *)
Definition token_sent_rule (P : Platform) (token : string) (run : M Result) : Prop :=
  ∀ w c r rest,
    log (run w).2 = log w ++ EvDo c r :: rest →
    token ≠ EmptyString →
    ∃ vs, Request.Header r !! CanonicalMIMEHeaderKey P "Authorization" = Some (vs ++ [token]).

(** A cookie is the first value of the [Cookie] header, as [name=value]. *)
Definition cookie_sent_rule (P : Platform) (cookie : option Cookie.t) (run : M Result)
    : Prop :=
  ∀ w c r rest ck,
    log (run w).2 = log w ++ EvDo c r :: rest →
    cookie = Some ck →
    ∃ vs, Request.Header r !! CanonicalMIMEHeaderKey P "Cookie"
          = Some ((sanitizeCookieName P (Cookie.Name ck) +:+ "=" +:+
                   sanitizeCookieValue P (Cookie.Value ck)) :: vs).

(** The client of the round trip has the given transport. *)
Definition transport_rule (transport : option Transport) (run : M Result) : Prop :=
  ∀ w c r rest,
    log (run w).2 = log w ++ EvDo c r :: rest → Client.Transport c = transport.

(** ** Further rules for the entry points *)

(** A response with a status below 400 whose body is read to the end:
    the status code and the bytes come back; the decoder runs after the
    body is closed when there is an output value and the body is not empty,
    and its result is the error; otherwise the error is nil and nothing
    runs after the closing. *)
Definition entry_success_rule (P : Platform) (codec : Codec) (rs : option Target)
    (run : M Result) : Prop :=
  ∀ w c r rest response,
    log (run w).2 = log w ++ EvDo c r :: rest →
    Do P c r = inr response →
    (Response.Body response).2 = None →
    Response.StatusCode response ≤ 399 →
    (run w).1.1 = (Response.StatusCode response, Some (Response.Body response).1)
    ∧ match rs with
      | Some v =>
          if String.eqb (Response.Body response).1 EmptyString
          then (run w).1.2 = None ∧ rest = [EvClose]
          else (run w).1.2 = ErrStd <$> Unmarshal P codec (Response.Body response).1 v
               ∧ rest = [EvClose; EvUnmarshal codec (Response.Body response).1 v]
      | None => (run w).1.2 = None ∧ rest = [EvClose]
      end.

(** A response with a status of 400 or more: the dispatcher's
    [*ResourceError] comes back with the status code and the bytes, and the
    decoder does not run, whatever the body holds. *)
Definition entry_failure_rule (P : Platform) (run : M Result) : Prop :=
  ∀ w c r rest response,
    log (run w).2 = log w ++ EvDo c r :: rest →
    Do P c r = inr response →
    (Response.Body response).2 = None →
    400 ≤ Response.StatusCode response →
    rest = [EvClose]
    ∧ ∃ re,
        (run w).1 = (Response.StatusCode response, Some (Response.Body response).1,
                     Some (ErrResource re))
        ∧ ResourceError.HTTPCode re = Response.StatusCode response
        ∧ ResourceError.Message re = "incorrect response.StatusCode"%string.

(** The request sent has [value] among the values of its [Content-Type]
    header. *)
Definition content_type_sent_rule (P : Platform) (value : World → string) (run : M Result)
    : Prop :=
  ∀ w c r rest,
    log (run w).2 = log w ++ EvDo c r :: rest →
    header_has (Request.Header r) (CanonicalMIMEHeaderKey P "Content-Type") (value w).

(** ** The text of a [ResourceError]

    [ResourceError.Error], declared identically in the three files (lines
    22-30 of [http-utils.go], 23-31 of [part_001], 30-38 of [part_000]):
    [fmt.Sprintf] with the verbs [%s] for the URL and [%v] for the code, the
    cause and the payload. *)

(** [%v] of an [int]: its decimal digits, with a minus sign when negative. *)
Definition Itoa (z : Z) : string := NilZero.string_of_int (Z.to_int z).

(** [err.Error()] of an error made outside the package.  [quote] stands
    for [strconv.Quote], the [%q] of the invalid-method error; [Errorf text]
    is an error whose message is [text]. *)
Definition StdError_text (quote : string → string) (e : StdError) : string :=
  match e with
  | InvalidMethod method => "net/http: invalid method " +:+ quote method
  | LibError text => text
  | Errorf text => text
  end.

(** [re.Error()]: a nil cause and a nil payload print as [<nil>]. *)
Definition ResourceError_Error (quote : string → string) (re : ResourceError.t) : string :=
  "Resource error: URL: " +:+ ResourceError.URL re +:+
  ", status code: " +:+ Itoa (ResourceError.HTTPCode re) +:+
  ",  err: " +:+ match ResourceError.Err re with
                 | Some e => StdError_text quote e
                 | None => "<nil>"%string
                 end +:+
  ", body: " +:+ match ResourceError.Body re with
                 | Some payload => payload
                 | None => "<nil>"%string
                 end.

(** The text of the error returned for a status code of 400 or more: it
    carries the URL after re-encoding, the status code in decimal and the
    whole request body. *)
Definition error_text_rule (P : Platform) (quote : string → string)
    (urlString : string) (data : ByteSlice) (run : M Result) : Prop :=
  ∀ w c r rest response,
    log (run w).2 = log w ++ EvDo c r :: rest →
    Do P c r = inr response →
    (Response.Body response).2 = None →
    400 ≤ Response.StatusCode response →
    ∃ re url,
      (run w).1.2 = Some (ErrResource re)
      ∧ reencode P urlString = inr url
      ∧ ResourceError_Error quote re
        = ("Resource error: URL: " +:+ url +:+
           ", status code: " +:+ Itoa (Response.StatusCode response) +:+
           ",  err: incorrect status code, body: " +:+ string_of data)%string.

(** ** Lemmas on the dispatchers *)

Lemma World_eta (w : World) : mkWorld (maps w) (iter w) (rand w) (log w) = w.
Proof. by destruct w. Qed.

Ltac run :=
  unfold mbind, M_bind, mret, M_ret, emit, range_headers, range_of, map_read,
         map_make, map_assign, map_has; simpl.

Ltac dispatch_eq :=
  unfold dispatch, reencode, decorate, failure, after, headers_map, client_of;
  match goal with
  | |- context [NewRequest ?P ?m ?u ?d] =>
      destruct (NewRequest P m u d) as [?|?]; [done|]
  end;
  match goal with
  | |- context [range_headers _ ?h] => destruct h as [?|]
  end;
  try match goal with t : option Transport |- _ => destruct t end;
  run;
  match goal with
  | |- context [contains_byte ?c ?u] => destruct (contains_byte c u); simpl
  end;
  try match goal with
    | |- context [url_Parse ?P ?u] => destruct (url_Parse P u); simpl
    end;
  rewrite ?app_nil_r; try done;
  match goal with
  | |- context [Do ?P ?c ?r] => destruct (Do P c r) as [?|?]; simpl
  end;
  try done;
  match goal with
  | |- context [Response.Body ?r] =>
      destruct (Response.Body r).2; simpl;
      try destruct (399 <? Response.StatusCode r); simpl
  end;
  rewrite <- ?app_assoc; done.

Lemma sendHttpReq_dispatch0 (P : Platform) method urlString data headers cookie w :
  HttpUtilsGo.sendHttpReq P method urlString data headers cookie w
  = dispatch P (Client.mk None 0) method urlString EmptyString data headers cookie w.
Proof. unfold HttpUtilsGo.sendHttpReq. dispatch_eq. Qed.

Lemma sendHttpReq_dispatch1 (P : Platform) method urlString token data headers cookie
    transport w :
  Part001.sendHttpReq P method urlString token data headers cookie transport w
  = dispatch P (Client.mk transport (30 * Second)) method urlString token data headers
             cookie w.
Proof. unfold Part001.sendHttpReq. dispatch_eq. Qed.

Lemma sendHttpReq_dispatch2 (P : Platform) method urlString token data headers cookie
    transport timeout w :
  Part000.sendHttpReq P method urlString token data headers cookie transport timeout w
  = dispatch P (client_of transport timeout) method urlString token data headers cookie w.
Proof. unfold Part000.sendHttpReq. dispatch_eq. Qed.

Lemma app_eq_self {A : Type} (l k : list A) : l = l ++ k → k = [].
Proof. intros H. apply (app_inv_head l). by rewrite app_nil_r. Qed.

(** [http.NewRequest] succeeds only on a URL that [url.Parse] accepts, and
    keeps the method, the query string and the body it was given. *)
Lemma NewRequest_inr (P : Platform) method urlString data request :
  NewRequest P method urlString data = inr request →
  ∃ u, url_Parse P urlString = inr u
       ∧ RawQuery (Request.URL request) = RawQuery u
       ∧ Request.Method request
         = (if String.eqb method EmptyString then "GET"%string else method)
       ∧ Request.Body request = string_of data.
Proof.
  unfold NewRequest. intros H.
  destruct (negb _); [done|].
  destruct (url_Parse P urlString) as [err|u]; [done|].
  exists u. by simplify_eq/=.
Qed.

Lemma reencode_after_NewRequest (P : Platform) method urlString data request :
  NewRequest P method urlString data = inr request →
  ∃ url, reencode P urlString = inr url.
Proof.
  intros (u & Hu & _)%NewRequest_inr. unfold reencode.
  destruct (ContainsAny urlString "?"); rewrite ?Hu; eauto.
Qed.

(** Adding header entries changes the header only. *)
Lemma with_Header_fields (h : Header) (r : Request.t) :
  Request.Method (with_Header h r) = Request.Method r
  ∧ Request.URL (with_Header h r) = Request.URL r
  ∧ Request.Body (with_Header h r) = Request.Body r.
Proof. done. Qed.

Lemma fold_Header_Add_fields (P : Platform) (entries : list (string * string)) r :
  let r' := fold_left (λ r kv, Request_Header_Add P r kv.1 kv.2) entries r in
  Request.Method r' = Request.Method r
  ∧ Request.URL r' = Request.URL r
  ∧ Request.Body r' = Request.Body r.
Proof.
  revert r. induction entries as [|kv entries IH]; intros r; [done|].
  simpl. destruct (IH (Request_Header_Add P r kv.1 kv.2)) as (-> & -> & ->). done.
Qed.

Lemma decorate_fields (P : Platform) request cookie entries token :
  let r' := decorate P request cookie entries token in
  Request.Method r' = Request.Method request
  ∧ Request.URL r' = Request.URL request
  ∧ Request.Body r' = Request.Body request.
Proof.
  unfold decorate. simpl.
  assert (∀ r0, Request.Method
                  (match cookie with Some c => AddCookie P r0 c | None => r0 end)
                = Request.Method r0
              ∧ Request.URL (match cookie with Some c => AddCookie P r0 c | None => r0 end)
                = Request.URL r0
              ∧ Request.Body (match cookie with Some c => AddCookie P r0 c | None => r0 end)
                = Request.Body r0) as Hc.
  { intros r0. destruct cookie as [c|]; [|done]. unfold AddCookie. by destruct (negb _). }
  destruct (Hc request) as (Hm & Hu & Hb).
  pose proof (fold_Header_Add_fields P entries
                (match cookie with Some c => AddCookie P request c | None => request end))
    as (Hm' & Hu' & Hb'). simpl in *.
  destruct (negb _); simpl; rewrite ?Hm', ?Hu', ?Hb'; done.
Qed.

(** What a run of the dispatcher can be: the five ways out of
    [sendHttpReq] after the request was built, told apart by the events. *)
Lemma dispatch_inr (P : Platform) client method urlString token data headers cookie w
    request :
  NewRequest P method urlString data = inr request →
  ∃ url,
    reencode P urlString = inr url ∧
    let r := decorate P request cookie (rangeOrder P (iter w) (headers_map headers w)) token in
    dispatch P client method urlString token data headers cookie w =
    match Do P client r with
    | inl err => (failure url 0 err, after w [EvDo client r])
    | inr response =>
        match (Response.Body response).2 with
        | Some err =>
            (failure url (Response.StatusCode response) err, after w [EvDo client r; EvClose])
        | None =>
            if 399 <? Response.StatusCode response then
              ((Response.StatusCode response, Some (Response.Body response).1,
                Some (ErrResource
                        (ResourceError.mk url (Response.StatusCode response)
                           "incorrect response.StatusCode"
                           (Some (string_of data))
                           (Some (Errorf "incorrect status code"))))),
               after w [EvDo client r; EvClose])
            else
              ((Response.StatusCode response, Some (Response.Body response).1, None),
               after w [EvDo client r; EvClose])
        end
    end.
Proof.
  intros HN. destruct (reencode_after_NewRequest _ _ _ _ _ HN) as [url Hurl].
  exists url. split; [done|]. unfold dispatch. by rewrite HN, Hurl.
Qed.

Lemma dispatch_inl (P : Platform) client method urlString token data headers cookie w err :
  NewRequest P method urlString data = inl err →
  dispatch P client method urlString token data headers cookie w
  = (failure urlString 0 err, w).
Proof. intros HN. unfold dispatch. by rewrite HN. Qed.

(** The dispatcher leaves the maps alone, and what it logs is nothing, or
    the round trip alone (transport failure), or the round trip and the
    closing of the body. *)
Lemma dispatch_world (P : Platform) client method urlString token data headers cookie w :
  let w' := (dispatch P client method urlString token data headers cookie w).2 in
  maps w' = maps w ∧ rand w' = rand w ∧
  (log w' = log w ∨ ∃ r, log w' = log w ++ [EvDo client r]
                      ∨ log w' = log w ++ [EvDo client r; EvClose]).
Proof.
  destruct (NewRequest P method urlString data) as [err|request] eqn:HN.
  - rewrite (dispatch_inl _ _ _ _ _ _ _ _ _ _ HN). simpl. auto.
  - destruct (dispatch_inr P client method urlString token data headers cookie w _ HN)
      as (url & _ & ->).
    simpl. repeat case_match; simpl; eauto 6.
Qed.

(** A request found in the log of a run is the request built by
    [http.NewRequest], decorated; the client is the one the version made. *)
Lemma dispatch_sent (P : Platform) client method urlString token data headers cookie w
    c r rest :
  log (dispatch P client method urlString token data headers cookie w).2
  = log w ++ EvDo c r :: rest →
  ∃ request url,
    NewRequest P method urlString data = inr request
    ∧ reencode P urlString = inr url
    ∧ c = client
    ∧ r = decorate P request cookie (rangeOrder P (iter w) (headers_map headers w)) token
    ∧ dispatch P client method urlString token data headers cookie w =
      match Do P c r with
      | inl err => (failure url 0 err, after w [EvDo c r])
      | inr response =>
          match (Response.Body response).2 with
          | Some err =>
              (failure url (Response.StatusCode response) err, after w [EvDo c r; EvClose])
          | None =>
              if 399 <? Response.StatusCode response then
                ((Response.StatusCode response, Some (Response.Body response).1,
                  Some (ErrResource
                          (ResourceError.mk url (Response.StatusCode response)
                             "incorrect response.StatusCode"
                             (Some (string_of data))
                             (Some (Errorf "incorrect status code"))))),
                 after w [EvDo c r; EvClose])
              else
                ((Response.StatusCode response, Some (Response.Body response).1, None),
                 after w [EvDo c r; EvClose])
          end
      end.
Proof.
  intros Hlog.
  destruct (NewRequest P method urlString data) as [err|request] eqn:HN.
  { rewrite (dispatch_inl _ _ _ _ _ _ _ _ _ _ HN) in Hlog. simpl in Hlog.
    by apply app_eq_self in Hlog. }
  destruct (dispatch_inr P client method urlString token data headers cookie w _ HN)
    as (url & Hurl & Heq).
  simpl in Heq. rewrite Heq in Hlog.
  assert (c = client ∧
          r = decorate P request cookie (rangeOrder P (iter w) (headers_map headers w)) token)
    as [-> ->].
  { repeat case_match; simpl in Hlog; apply app_inv_head in Hlog; by simplify_eq. }
  exists request, url. by rewrite Heq.
Qed.

(** ** Lemmas on the entry points *)

Lemma len_nonneg (b : ByteSlice) : 0 ≤ len b.
Proof. unfold len. lia. Qed.

Lemma len_test (b : ByteSlice) : negb (len b =? 0) = (0 <? len b).
Proof.
  pose proof (len_nonneg b).
  destruct (Z.eqb_spec (len b) 0), (Z.ltb_spec 0 (len b)); simpl; try done; lia.
Qed.

Ltac entry_shape :=
  unfold prepare_headers, decode_response;
  match goal with
  | |- context [match ?h with Some _ => _ | None => map_make _ end] => destruct h as [?|]
  end;
  run; rewrite ?len_test;
  repeat match goal with
    | |- context [bool_decide ?p] => destruct (bool_decide p); simpl
    end;
  rewrite ?World_eta;
  match goal with
  | |- context [HttpUtilsGo.sendHttpReq ?P ?a ?b ?c ?d ?e ?w] =>
      destruct (HttpUtilsGo.sendHttpReq P a b c d e w) as [[[? ?] [?|]] ?]
  | |- context [Part001.sendHttpReq ?P ?a ?b ?c ?d ?e ?f ?g ?w] =>
      destruct (Part001.sendHttpReq P a b c d e f g w) as [[[? ?] [?|]] ?]
  | |- context [Part000.sendHttpReq ?P ?a ?b ?c ?d ?e ?f ?g ?h ?w] =>
      destruct (Part000.sendHttpReq P a b c d e f g h w) as [[[? ?] [?|]] ?]
  end;
  simpl; try done;
  match goal with
  | rs : option Target |- _ => destruct rs as [?|]; simpl; try done
  end;
  rewrite ?len_test; by case_match.

Lemma HttpUtilsGo_HttpReqXML_shape (P : Platform) method urlString body headers cookie rs w :
  HttpUtilsGo.HttpReqXML P method urlString body headers cookie rs w
  = let lw := prepare_headers true "text/xml" headers w in
    decode_response P XML rs
      (HttpUtilsGo.sendHttpReq P method urlString body (Some lw.1) cookie lw.2).
Proof. unfold HttpUtilsGo.HttpReqXML. entry_shape. Qed.

Lemma HttpUtilsGo_HttpReqJSON_shape (P : Platform) method urlString body headers cookie rs w :
  HttpUtilsGo.HttpReqJSON P method urlString body headers cookie rs w
  = let lw := prepare_headers true "application/json" headers w in
    decode_response P JSON rs
      (HttpUtilsGo.sendHttpReq P (TrimSpace P (ToUpper P method)) urlString body (Some lw.1) cookie lw.2).
Proof. unfold HttpUtilsGo.HttpReqJSON. entry_shape. Qed.

Lemma Part001_HttpReqAuthXML_shape (P : Platform) method urlString token body headers cookie transport rs w :
  Part001.HttpReqAuthXML P method urlString token body headers cookie transport rs w
  = let lw := prepare_headers true "text/xml" headers w in
    decode_response P XML rs
      (Part001.sendHttpReq P (TrimSpace P (ToUpper P method)) urlString token body (Some lw.1) cookie transport lw.2).
Proof. unfold Part001.HttpReqAuthXML. entry_shape. Qed.

Lemma Part001_HttpReqAuthJSON_shape (P : Platform) method urlString token body headers cookie transport rs w :
  Part001.HttpReqAuthJSON P method urlString token body headers cookie transport rs w
  = let lw := prepare_headers true "application/json" headers w in
    decode_response P JSON rs
      (Part001.sendHttpReq P (TrimSpace P (ToUpper P method)) urlString token body (Some lw.1) cookie transport lw.2).
Proof. unfold Part001.HttpReqAuthJSON. entry_shape. Qed.

Lemma Part001_HttpReqXML_shape (P : Platform) method urlString body headers cookie transport rs w :
  Part001.HttpReqXML P method urlString body headers cookie transport rs w
  = let lw := prepare_headers true "text/xml" headers w in
    decode_response P XML rs
      (Part001.sendHttpReq P (TrimSpace P (ToUpper P method)) urlString EmptyString body (Some lw.1) cookie transport lw.2).
Proof. unfold Part001.HttpReqXML. entry_shape. Qed.

Lemma Part001_HttpReqJSON_shape (P : Platform) method urlString body headers cookie transport rs w :
  Part001.HttpReqJSON P method urlString body headers cookie transport rs w
  = let lw := prepare_headers true "application/json" headers w in
    decode_response P JSON rs
      (Part001.sendHttpReq P (TrimSpace P (ToUpper P method)) urlString EmptyString body (Some lw.1) cookie transport lw.2).
Proof. unfold Part001.HttpReqJSON. entry_shape. Qed.

Lemma Part001_HttpReqPostFormJSON_shape (P : Platform) urlString body headers cookie transport rs w :
  Part001.HttpReqPostFormJSON P urlString body headers cookie transport rs w
  = let lw := prepare_headers true "application/x-www-form-urlencoded" headers w in
    decode_response P JSON rs
      (Part001.sendHttpReq P "POST" urlString EmptyString body (Some lw.1) cookie transport lw.2).
Proof. unfold Part001.HttpReqPostFormJSON. entry_shape. Qed.

Lemma Part001_HttpReqPostFormXML_shape (P : Platform) urlString body headers cookie transport rs w :
  Part001.HttpReqPostFormXML P urlString body headers cookie transport rs w
  = let lw := prepare_headers false "application/x-www-form-urlencoded" headers w in
    decode_response P XML rs
      (Part001.sendHttpReq P "POST" urlString EmptyString body (Some lw.1) cookie transport lw.2).
Proof. unfold Part001.HttpReqPostFormXML. entry_shape. Qed.

Lemma Part000_HttpReqAuthXML_shape (P : Platform) method urlString token body headers cookie transport timeout rs w :
  Part000.HttpReqAuthXML P method urlString token body headers cookie transport timeout rs w
  = let lw := prepare_headers true "text/xml" headers w in
    decode_response P XML rs
      (Part000.sendHttpReq P (TrimSpace P (ToUpper P method)) urlString token body (Some lw.1) cookie transport timeout lw.2).
Proof. unfold Part000.HttpReqAuthXML. entry_shape. Qed.

Lemma Part000_HttpReqAuthJSON_shape (P : Platform) method urlString token body headers cookie transport timeout rs w :
  Part000.HttpReqAuthJSON P method urlString token body headers cookie transport timeout rs w
  = let lw := prepare_headers true "application/json" headers w in
    decode_response P JSON rs
      (Part000.sendHttpReq P (TrimSpace P (ToUpper P method)) urlString token body (Some lw.1) cookie transport timeout lw.2).
Proof. unfold Part000.HttpReqAuthJSON. entry_shape. Qed.

Lemma Part000_HttpReqXML_shape (P : Platform) method urlString body headers cookie transport timeout rs w :
  Part000.HttpReqXML P method urlString body headers cookie transport timeout rs w
  = let lw := prepare_headers true "text/xml" headers w in
    decode_response P XML rs
      (Part000.sendHttpReq P (TrimSpace P (ToUpper P method)) urlString EmptyString body (Some lw.1) cookie transport timeout lw.2).
Proof. unfold Part000.HttpReqXML. entry_shape. Qed.

Lemma Part000_HttpReqJSON_shape (P : Platform) method urlString body headers cookie transport timeout rs w :
  Part000.HttpReqJSON P method urlString body headers cookie transport timeout rs w
  = let lw := prepare_headers true "application/json" headers w in
    decode_response P JSON rs
      (Part000.sendHttpReq P (TrimSpace P (ToUpper P method)) urlString EmptyString body (Some lw.1) cookie transport timeout lw.2).
Proof. unfold Part000.HttpReqJSON. entry_shape. Qed.

Lemma Part000_HttpReqPostFormJSON_shape (P : Platform) urlString body headers cookie transport timeout rs w :
  Part000.HttpReqPostFormJSON P urlString body headers cookie transport timeout rs w
  = let lw := prepare_headers true "application/x-www-form-urlencoded" headers w in
    decode_response P JSON rs
      (Part000.sendHttpReq P "POST" urlString EmptyString body (Some lw.1) cookie transport timeout lw.2).
Proof. unfold Part000.HttpReqPostFormJSON. entry_shape. Qed.

Lemma Part000_HttpReqPostFormXML_shape (P : Platform) urlString body headers cookie transport timeout rs w :
  Part000.HttpReqPostFormXML P urlString body headers cookie transport timeout rs w
  = let lw := prepare_headers false "application/x-www-form-urlencoded" headers w in
    decode_response P XML rs
      (Part000.sendHttpReq P "POST" urlString EmptyString body (Some lw.1) cookie transport timeout lw.2).
Proof. unfold Part000.HttpReqPostFormXML. entry_shape. Qed.

(** ** Lemmas on the multipart writer *)

Lemma append_assoc (a b c : string) : (a +:+ b) +:+ c = a +:+ (b +:+ c).
Proof.
  induction a as [|x a IH]; [done|].
  change (String x ((a +:+ b) +:+ c) = String x (a +:+ (b +:+ c))). by rewrite IH.
Qed.

Lemma append_empty_l (a : string) : EmptyString +:+ a = a.
Proof. done. Qed.

Lemma append_empty_r (a : string) : a +:+ EmptyString = a.
Proof.
  induction a as [|x a IH]; [done|].
  change (String x (a +:+ EmptyString) = String x a). by rewrite IH.
Qed.

Section Uploads.
Import Multipart Layout.

(** Writing one text field appends one part. *)
Lemma WriteField_part (P : Platform) (w : Writer) (k v : string) :
let w' := (WriteField P w k v).2 in
boundary w' = boundary w
∧ lastpart w' = true
∧ body w' = body w +:+ part (boundary w) (negb (lastpart w)) (field_lines P k) v.
Proof.
unfold WriteField, CreateFormField, CreatePart, part_Write, part, field_lines. simpl.
split; [done|]. split; [done|].
destruct (lastpart w); simpl; rewrite ?append_assoc, ?append_empty_r, ?append_empty_l; done.
Qed.

(** Writing the text fields in turn appends their parts in that order. *)
Lemma fold_WriteField (P : Platform) (texts : list (string * string)) (w : Writer) :
let w' := fold_left (λ w kv, (WriteField P w kv.1 kv.2).2) texts w in
boundary w' = boundary w
∧ lastpart w' = lastpart w || negb (is_nil texts)
∧ body w' = body w +:+ text_parts P (boundary w) (negb (lastpart w)) texts.
Proof.
revert w. induction texts as [|kv texts IH]; intros w.
- simpl. rewrite orb_false_r, append_empty_r. done.
- cbn [fold_left text_parts is_nil negb]. cbv zeta.
  destruct (IH (WriteField P w kv.1 kv.2).2) as (Hb & Hl & Hbody).
  destruct (WriteField_part P w kv.1 kv.2) as (Hb1 & Hl1 & Hbody1).
  cbv zeta in Hb, Hl, Hbody, Hb1, Hl1, Hbody1.
  rewrite Hb, Hl, Hbody. rewrite Hb1, Hl1, Hbody1. simpl.
  rewrite orb_true_r, append_assoc. done.
Qed.

(** [CreateFormFile] on a writer over a buffer does not fail, and appends
  the head of the file part. *)
Lemma CreateFormFile_inr (P : Platform) (w : Writer) (key filename : string) :
∃ w', CreateFormFile P w key filename = inr w'
      ∧ boundary w' = boundary w
      ∧ body w' = body w +:+ part (boundary w) (negb (lastpart w))
                                  (file_lines P key filename) EmptyString.
Proof.
unfold CreateFormFile, CreatePart. eexists. split; [done|]. split; [done|].
unfold part, file_lines. simpl.
destruct (lastpart w); simpl; rewrite ?append_assoc, ?append_empty_r, ?append_empty_l; done.
Qed.

(** The buffer once the text fields, the file and the closing delimiter
  are written. *)
Lemma writer_body (P : Platform) (b : string) (texts : list (string * string))
  (f : FileItem.t) (w1 : Writer) :
CreateFormFile P
  (fold_left (λ w kv, (WriteField P w kv.1 kv.2).2) texts (mkWriter EmptyString b false))
  (FileItem.Key f) (FileItem.FileName f) = inr w1 →
FormDataContentType (part_Write w1 (FileItem.Content f)) = content_type b
∧ Bytes (Close (part_Write w1 (FileItem.Content f))) = Some (multipart_body P b texts f).
Proof.
intros Hw1.
destruct (fold_WriteField P texts (mkWriter EmptyString b false)) as (Hb & Hl & Hbody).
destruct (CreateFormFile_inr P
            (fold_left (λ w kv, (WriteField P w kv.1 kv.2).2) texts
                       (mkWriter EmptyString b false))
            (FileItem.Key f) (FileItem.FileName f)) as (w' & Hw' & Hb' & Hbody').
cbv zeta in Hb, Hl, Hbody. rewrite Hw' in Hw1. simplify_eq.
split.
- unfold FormDataContentType, content_type. simpl. rewrite Hb', Hb. done.
- unfold Bytes, Close, part_Write. simpl. f_equal.
  rewrite Hb', Hbody', Hb, Hl, Hbody. simpl.
  unfold multipart_body, file_part, terminator, part.
  replace (negb (negb (is_nil texts))) with (is_nil texts) by by destruct (is_nil texts).
  rewrite ?append_assoc, ?append_empty_r, ?append_empty_l. done.
Qed.

Lemma Part000_httpReqAuthFile_shape (P : Platform) method urlString token paramTexts
  paramFile headers cookie transport timeout rs w :
Part000.httpReqAuthFile P method urlString token paramTexts paramFile headers cookie
  transport timeout rs w
= let b := randomBoundary P (rand w) in
  let lw := prepare_headers true (content_type b) headers (after_writer w) in
  decode_response P JSON rs
    (Part000.sendHttpReq P method urlString token
       (Some (multipart_body P b (rangeOrder P (iter w) paramTexts) paramFile))
       (Some lw.1) cookie transport timeout lw.2).
Proof.
unfold Part000.httpReqAuthFile, NewWriter, after_writer.
unfold mbind, M_bind, mret, M_ret, range_of. cbv beta iota zeta.
destruct (CreateFormFile P _ _ _) as [err|w1] eqn:Hw1.
{ match type of Hw1 with
  | CreateFormFile ?P ?wr ?k ?f = _ =>
      destruct (CreateFormFile_inr P wr k f) as (? & ? & _)
  end.
  congruence. }
destruct (writer_body P _ _ _ _ Hw1) as [Hct Hbytes].
rewrite Hct, Hbytes.
unfold prepare_headers, decode_response.
destruct headers as [l|]; run;
  match goal with
  | |- context [Part000.sendHttpReq ?P ?a ?b ?c ?d ?e ?f ?g ?h ?w] =>
      destruct (Part000.sendHttpReq P a b c d e f g h w) as [[[? ?] [?|]] ?]
  end; simpl; try done; destruct rs; simpl; try done; by case_match.
Qed.

End Uploads.

(** ** The rules hold of the common shape *)

Section DispatchRules.
Context (P : Platform) (client : Client.t) (method urlString token : string)
        (data : ByteSlice) (headers : option loc) (cookie : option Cookie.t).

Local Abbreviation run := (dispatch P client method urlString token data headers cookie).

Lemma dispatch_status_failure : status_failure_rule P data run.
Proof.
  intros w c r rest response Hlog HDo Hread Hcode.
  destruct (dispatch_sent _ _ _ _ _ _ _ _ _ _ _ _ Hlog)
    as (request & url & _ & _ & _ & _ & ->).
  rewrite HDo, Hread.
  destruct (Z.ltb_spec 399 (Response.StatusCode response)); [|lia].
  eexists. simpl. done.
Qed.

Lemma dispatch_no_response : no_response_rule P method urlString data run.
Proof.
  split.
  - intros w err HN. by rewrite (dispatch_inl _ _ _ _ _ _ _ _ _ _ HN).
  - intros w c r rest err Hlog HDo.
    destruct (dispatch_sent _ _ _ _ _ _ _ _ _ _ _ _ Hlog)
      as (request & url & _ & Hurl & _ & _ & ->).
    rewrite HDo. eauto.
Qed.

Lemma dispatch_read_failure : read_failure_rule P run.
Proof.
  intros w c r rest response err Hlog HDo Hread.
  destruct (dispatch_sent _ _ _ _ _ _ _ _ _ _ _ _ Hlog)
    as (request & url & _ & _ & _ & _ & ->).
  rewrite HDo, Hread. eexists. simpl. done.
Qed.

Lemma dispatch_always_sent : always_sent_rule P method urlString data run.
Proof.
  intros w request HN. split.
  - destruct (NewRequest_inr _ _ _ _ _ HN) as (u & Hu & _). eauto.
  - destruct (dispatch_inr P client method urlString token data headers cookie w _ HN)
      as (url & _ & ->).
    repeat case_match; simpl; eauto.
Qed.

Lemma dispatch_client_timeout : client_timeout_rule (Client.Timeout client) run.
Proof.
  intros w c r rest Hlog.
  by destruct (dispatch_sent _ _ _ _ _ _ _ _ _ _ _ _ Hlog)
    as (request & url & _ & _ & -> & _ & _).
Qed.

Lemma dispatch_sent_query : sent_query_rule P urlString run.
Proof.
  intros w c r rest Hlog.
  destruct (dispatch_sent _ _ _ _ _ _ _ _ _ _ _ _ Hlog)
    as (request & url & HN & _ & _ & -> & _).
  destruct (NewRequest_inr _ _ _ _ _ HN) as (u & Hu & Hq & _).
  exists u. split; [done|].
  by destruct (decorate_fields P request cookie
                 (rangeOrder P (iter w) (headers_map headers w)) token) as (_ & -> & _).
Qed.

Lemma dispatch_sent_method : sent_method_rule method data run.
Proof.
  intros w c r rest Hlog.
  destruct (dispatch_sent _ _ _ _ _ _ _ _ _ _ _ _ Hlog)
    as (request & url & HN & _ & _ & -> & _).
  destruct (NewRequest_inr _ _ _ _ _ HN) as (u & _ & _ & Hm & Hb).
  by destruct (decorate_fields P request cookie
                 (rangeOrder P (iter w) (headers_map headers w)) token) as (-> & _ & ->).
Qed.

Lemma dispatch_server_reported (w : World) : server_reported P w (run w).
Proof.
  intros Herr.
  destruct (NewRequest P method urlString data) as [err|request] eqn:HN.
  { by rewrite (dispatch_inl _ _ _ _ _ _ _ _ _ _ HN) in Herr. }
  destruct (dispatch_inr P client method urlString token data headers cookie w _ HN)
    as (url & _ & Heq).
  simpl in Heq. rewrite Heq in Herr |- *.
  destruct (Do P client _) as [err|response] eqn:HDo; [done|].
  destruct (Response.Body response).2; [done|].
  destruct (399 <? Response.StatusCode response); [done|].
  simpl. eauto 10.
Qed.

End DispatchRules.

Ltac to_dispatch :=
  rewrite ?sendHttpReq_dispatch0, ?sendHttpReq_dispatch1, ?sendHttpReq_dispatch2 in *.

(** ** The headers step and the decoding step *)

Lemma prepare_headers_rule (always : bool) (ct : string) (headers : option loc) (w : World) :
  headers_rule always ct headers w (prepare_headers always ct headers w).2.
Proof.
  unfold headers_rule, prepare_headers. destruct headers as [l|]; simpl.
  - destruct always; simpl; [done|].
    destruct (default ∅ (maps w !! l) !! "Content-Type"%string) eqn:Hct.
    + rewrite bool_decide_eq_true_2 by eauto. done.
    + rewrite bool_decide_eq_false_2 by (by intros [? ?]). done.
  - exists (fresh (dom (maps w))). split; [apply is_fresh|done].
Qed.

Lemma prepare_headers_world (always : bool) (ct : string) (headers : option loc) (w : World) :
  let w' := (prepare_headers always ct headers w).2 in
  log w' = log w ∧ iter w' = iter w ∧ rand w' = rand w.
Proof.
  unfold prepare_headers. destruct headers as [l|]; simpl; [|done].
  by destruct (always || _).
Qed.

(** After the headers step the map handed to the dispatcher has the
    content type, when the step assigns always. *)
Lemma prepare_headers_lookup (ct : string) (headers : option loc) (w : World) :
  let lw := prepare_headers true ct headers w in
  headers_map (Some lw.1) lw.2 !! "Content-Type"%string = Some ct.
Proof.
  unfold prepare_headers, headers_map. destruct headers as [l|]; simpl.
  - rewrite lookup_insert_eq. simpl. by rewrite lookup_insert_eq.
  - rewrite lookup_insert_eq. simpl. by rewrite lookup_singleton_eq.
Qed.

Lemma prepare_headers_log (always : bool) (ct : string) (headers : option loc)
    (w0 w : World) :
  log w0 = log w → log (prepare_headers always ct headers w0).2 = log w.
Proof. intros <-. apply prepare_headers_world. Qed.

Lemma headers_rule_maps (always : bool) ct headers (w0 w w1 w2 : World) :
  maps w0 = maps w → maps w2 = maps w1 →
  headers_rule always ct headers w0 w1 → headers_rule always ct headers w w2.
Proof. unfold headers_rule. by intros -> ->. Qed.

Lemma decode_response_maps (P : Platform) codec rs (sent : Result * World) :
  maps (decode_response P codec rs sent).2 = maps sent.2.
Proof.
  destruct sent as [[[st rb] [err|]] w]; simpl; [done|].
  destruct rs; [|done]. by destruct (0 <? len rb).
Qed.

Lemma decode_response_rule (P : Platform) codec rs (sent : Result * World) :
  decoding_rule P codec rs sent (decode_response P codec rs sent).
Proof.
  unfold decoding_rule.
  destruct sent as [[[st rb] [err|]] w]; simpl.
  { split; [done|]. split; [done|]. right. eauto. }
  destruct rs as [v|]; simpl.
  - destruct (Z.ltb_spec 0 (len rb)); simpl.
    + split; [done|]. split; [done|]. left. exists v. repeat split; try done. lia.
    + split; [done|]. split; [done|]. right. pose proof (len_nonneg rb).
      repeat split; try done. right. right. lia.
  - split; [done|]. split; [done|]. right. eauto.
Qed.

(** The events of an entry point are those of the dispatcher, followed by
    at most the decoding. *)
Lemma decode_response_log (P : Platform) codec rs (sent : Result * World) :
  ∃ tail, log (decode_response P codec rs sent).2 = log sent.2 ++ tail
          ∧ (tail = [] ∨ ∃ d v, tail = [EvUnmarshal codec d v]).
Proof.
  destruct sent as [[[st rb] [err|]] w]; simpl.
  { exists []. by rewrite app_nil_r; auto. }
  destruct rs as [v|]; simpl.
  - destruct (0 <? len rb); simpl.
    + eexists. split; [done|]. right. eauto.
    + exists []. by rewrite app_nil_r; auto.
  - exists []. by rewrite app_nil_r; auto.
Qed.

Lemma decode_dispatch_sent (P : Platform) codec rs client method urlString token data
    headers cookie (w0 w : World) c r rest :
  log w0 = log w →
  log (decode_response P codec rs
         (dispatch P client method urlString token data headers cookie w0)).2
  = log w ++ EvDo c r :: rest →
  ∃ rest', log (dispatch P client method urlString token data headers cookie w0).2
           = log w0 ++ EvDo c r :: rest'.
Proof.
  intros Hw0 Hlog.
  destruct (decode_response_log P codec rs
              (dispatch P client method urlString token data headers cookie w0))
    as (tail & Htail & Hshape).
  rewrite Htail in Hlog.
  destruct (dispatch_world P client method urlString token data headers cookie w0)
    as (_ & _ & [Hd|[r' [Hd|Hd]]]); simpl in Hd; rewrite Hd, Hw0 in Hlog |- *.
  - apply app_inv_head in Hlog. destruct Hshape as [->|(d & v & ->)]; done.
  - rewrite <- app_assoc in Hlog. apply app_inv_head in Hlog. simplify_eq/=. eauto.
  - rewrite <- app_assoc in Hlog. apply app_inv_head in Hlog. simplify_eq/=. eauto.
Qed.

(** * The claims *)

(** C2.  In the three versions of [sendHttpReq]: when the server answers
    with a status code of 400 or more and the body is read to the end, the
    call returns that status code, the bytes of the response body, and a
    [*ResourceError] whose [Body] is the string form of the request body
    [data], whose [Message] is the fixed text and whose [HTTPCode] is the
    status code. *)
Theorem C2_status_failure (P : Platform) :
  (∀ method urlString data headers cookie,
      status_failure_rule P data
        (HttpUtilsGo.sendHttpReq P method urlString data headers cookie))
  ∧ (∀ method urlString token data headers cookie transport,
      status_failure_rule P data
        (Part001.sendHttpReq P method urlString token data headers cookie transport))
  ∧ (∀ method urlString token data headers cookie transport timeout,
      status_failure_rule P data
        (Part000.sendHttpReq P method urlString token data headers cookie transport timeout)).
Proof.
  split; [|split]; unfold status_failure_rule; intros; to_dispatch;
    eapply dispatch_status_failure; eauto.
Qed.

(** C7.  In the three versions of [sendHttpReq]: when [http.NewRequest]
    fails, the call returns status 0, nil bytes and a [*ResourceError] with
    the URL as given, the cause, code 0, and touches nothing; when the round
    trip fails, it returns status 0, nil bytes and a [*ResourceError] with
    the URL (re-encoded when it holds a question mark), the cause and
    code 0. *)
Theorem C7_no_response (P : Platform) :
  (∀ method urlString data headers cookie,
      no_response_rule P method urlString data
        (HttpUtilsGo.sendHttpReq P method urlString data headers cookie))
  ∧ (∀ method urlString token data headers cookie transport,
      no_response_rule P method urlString data
        (Part001.sendHttpReq P method urlString token data headers cookie transport))
  ∧ (∀ method urlString token data headers cookie transport timeout,
      no_response_rule P method urlString data
        (Part000.sendHttpReq P method urlString token data headers cookie transport timeout)).
Proof.
  split; [|split]; intros; (split; intros; to_dispatch);
    first [ by eapply dispatch_no_response
          | eapply (proj2 (dispatch_no_response _ _ _ _ _ _ _ _)); eauto ].
Qed.

(** C9.  In the three versions of [sendHttpReq]: when the response arrives
    and reading its body fails, the status code returned is 0 and the bytes
    are nil, while the [*ResourceError] returned has the status code of the
    response in [HTTPCode] and the read error as its cause. *)
Theorem C9_read_failure (P : Platform) :
  (∀ method urlString data headers cookie,
      read_failure_rule P (HttpUtilsGo.sendHttpReq P method urlString data headers cookie))
  ∧ (∀ method urlString token data headers cookie transport,
      read_failure_rule P
        (Part001.sendHttpReq P method urlString token data headers cookie transport))
  ∧ (∀ method urlString token data headers cookie transport timeout,
      read_failure_rule P
        (Part000.sendHttpReq P method urlString token data headers cookie transport timeout)).
Proof.
  split; [|split]; unfold read_failure_rule; intros; to_dispatch;
    eapply dispatch_read_failure; eauto.
Qed.

(** C10.  In the three versions of [sendHttpReq]: whenever [http.NewRequest]
    accepts the URL string, [url.Parse] accepts it too, so the return for a
    failed re-parse is never taken and the round trip is always made. *)
Theorem C10_reparse_cannot_fail (P : Platform) :
  (∀ method urlString data headers cookie,
      always_sent_rule P method urlString data
        (HttpUtilsGo.sendHttpReq P method urlString data headers cookie))
  ∧ (∀ method urlString token data headers cookie transport,
      always_sent_rule P method urlString data
        (Part001.sendHttpReq P method urlString token data headers cookie transport))
  ∧ (∀ method urlString token data headers cookie transport timeout,
      always_sent_rule P method urlString data
        (Part000.sendHttpReq P method urlString token data headers cookie transport timeout)).
Proof.
  split; [|split]; unfold always_sent_rule; intros; to_dispatch;
    eapply dispatch_always_sent; eauto.
Qed.

(** The product [timeout * time.Second] within [int64]. *)
Lemma client_of_timeout (transport : option Transport) (timeout : Z) :
  (timeout ≤ 0 → Client.Timeout (client_of transport timeout) = 30 * Second)
  ∧ (0 < timeout ≤ 9223372036 →
     Client.Timeout (client_of transport timeout) = timeout * Second).
Proof.
  unfold client_of, Duration_mul, Duration, wrap64, Second. simpl. split; intros H.
  - destruct (Z.ltb_spec 0 timeout); [lia|done].
  - destruct (Z.ltb_spec 0 timeout); [|lia].
    rewrite (Z.mod_small (timeout + _)) by lia.
    replace (timeout + 2 ^ 63 - 2 ^ 63) with timeout by lia.
    rewrite Z.mod_small by lia. lia.
Qed.

(** C4, as amended.  The client of the round trip has: in [http-utils.go] a
    zero [Timeout] (no timeout); in [part_001] 30 seconds; in [part_000]
    30 seconds when [timeout] is not positive and [timeout] seconds when
    [0 < timeout <= 9223372036] (the product fits [int64]). *)
Theorem C4_client_timeout (P : Platform) :
  (∀ method urlString data headers cookie,
      client_timeout_rule 0
        (HttpUtilsGo.sendHttpReq P method urlString data headers cookie))
  ∧ (∀ method urlString token data headers cookie transport,
      client_timeout_rule (30 * Second)
        (Part001.sendHttpReq P method urlString token data headers cookie transport))
  ∧ (∀ method urlString token data headers cookie transport timeout,
      timeout ≤ 0 →
      client_timeout_rule (30 * Second)
        (Part000.sendHttpReq P method urlString token data headers cookie transport timeout))
  ∧ (∀ method urlString token data headers cookie transport timeout,
      0 < timeout ≤ 9223372036 →
      client_timeout_rule (timeout * Second)
        (Part000.sendHttpReq P method urlString token data headers cookie transport timeout)).
Proof.
  split; [|split; [|split]]; unfold client_timeout_rule; intros; to_dispatch;
    match goal with
    | H : log _ = _ |- _ => apply dispatch_client_timeout in H; rewrite H
    end;
    try done.
  - by apply client_of_timeout.
  - by apply client_of_timeout.
Qed.

Lemma Part000_HttpReqPostFile_shape (P : Platform) urlString paramTexts paramFile headers
    cookie transport timeout rs w :
  Part000.HttpReqPostFile P urlString paramTexts paramFile headers cookie transport
    timeout rs w
  = Part000.httpReqAuthFile P "POST" urlString EmptyString paramTexts paramFile headers
      cookie transport timeout rs w.
Proof. done. Qed.

(** The maps after an entry point are the maps after its headers step. *)
Lemma entry_maps (P : Platform) codec rs client method urlString token data headers cookie
    (always : bool) ct hs (w w0 : World) :
  maps w0 = maps w →
  hs = headers →
  headers_rule always ct hs w
    (decode_response P codec rs
       (dispatch P client method urlString token data
          (Some (prepare_headers always ct headers w0).1) cookie
          (prepare_headers always ct headers w0).2)).2.
Proof.
  intros Hw0 ->.
  eapply headers_rule_maps; [exact Hw0| |apply prepare_headers_rule].
  rewrite decode_response_maps.
  by destruct (dispatch_world P client method urlString token data
                 (Some (prepare_headers always ct headers w0).1) cookie
                 (prepare_headers always ct headers w0).2) as (-> & _).
Qed.

Ltac unfold_lets :=
  repeat match goal with x := _ |- _ => subst x end; cbv zeta.

Ltac to_shape :=
  rewrite ?Part000_HttpReqPostFile_shape;
  unfold Part000.HttpReqAuthPostFile, Part000.HttpReqAuthPutFile;
  first
    [ rewrite HttpUtilsGo_HttpReqXML_shape | rewrite HttpUtilsGo_HttpReqJSON_shape
    | rewrite Part001_HttpReqAuthXML_shape | rewrite Part001_HttpReqAuthJSON_shape
    | rewrite Part001_HttpReqXML_shape | rewrite Part001_HttpReqJSON_shape
    | rewrite Part001_HttpReqPostFormJSON_shape | rewrite Part001_HttpReqPostFormXML_shape
    | rewrite Part000_HttpReqAuthXML_shape | rewrite Part000_HttpReqAuthJSON_shape
    | rewrite Part000_HttpReqXML_shape | rewrite Part000_HttpReqJSON_shape
    | rewrite Part000_HttpReqPostFormJSON_shape | rewrite Part000_HttpReqPostFormXML_shape
    | rewrite Part000_httpReqAuthFile_shape ];
  cbv zeta; to_dispatch.

(** C3.  In every entry point of the three versions: a nil [headers] makes
    a new map holding exactly the content type of the variant (for the file
    uploads the content type the writer generated, boundary included); in a
    map the caller passed, [Content-Type] is overwritten, except by
    [HttpReqPostFormXML], which writes it only when the key is absent. *)
Theorem C3_content_type_header (P : Platform) :
  (∀ method urlString body headers cookie rs w,
      headers_rule true "text/xml" headers w
        (HttpUtilsGo.HttpReqXML P method urlString body headers cookie rs w).2)
  ∧ (∀ method urlString body headers cookie rs w,
      headers_rule true "application/json" headers w
        (HttpUtilsGo.HttpReqJSON P method urlString body headers cookie rs w).2)
  ∧ (∀ method urlString token body headers cookie transport rs w,
      headers_rule true "text/xml" headers w
        (Part001.HttpReqAuthXML P method urlString token body headers cookie transport rs w).2)
  ∧ (∀ method urlString token body headers cookie transport rs w,
      headers_rule true "application/json" headers w
        (Part001.HttpReqAuthJSON P method urlString token body headers cookie transport rs w).2)
  ∧ (∀ method urlString body headers cookie transport rs w,
      headers_rule true "text/xml" headers w
        (Part001.HttpReqXML P method urlString body headers cookie transport rs w).2)
  ∧ (∀ method urlString body headers cookie transport rs w,
      headers_rule true "application/json" headers w
        (Part001.HttpReqJSON P method urlString body headers cookie transport rs w).2)
  ∧ (∀ urlString body headers cookie transport rs w,
      headers_rule true "application/x-www-form-urlencoded" headers w
        (Part001.HttpReqPostFormJSON P urlString body headers cookie transport rs w).2)
  ∧ (∀ urlString body headers cookie transport rs w,
      headers_rule false "application/x-www-form-urlencoded" headers w
        (Part001.HttpReqPostFormXML P urlString body headers cookie transport rs w).2)
  ∧ (∀ method urlString token body headers cookie transport timeout rs w,
      headers_rule true "text/xml" headers w
        (Part000.HttpReqAuthXML P method urlString token body headers cookie transport timeout rs w).2)
  ∧ (∀ method urlString token body headers cookie transport timeout rs w,
      headers_rule true "application/json" headers w
        (Part000.HttpReqAuthJSON P method urlString token body headers cookie transport timeout rs w).2)
  ∧ (∀ method urlString body headers cookie transport timeout rs w,
      headers_rule true "text/xml" headers w
        (Part000.HttpReqXML P method urlString body headers cookie transport timeout rs w).2)
  ∧ (∀ method urlString body headers cookie transport timeout rs w,
      headers_rule true "application/json" headers w
        (Part000.HttpReqJSON P method urlString body headers cookie transport timeout rs w).2)
  ∧ (∀ urlString body headers cookie transport timeout rs w,
      headers_rule true "application/x-www-form-urlencoded" headers w
        (Part000.HttpReqPostFormJSON P urlString body headers cookie transport timeout rs w).2)
  ∧ (∀ urlString body headers cookie transport timeout rs w,
      headers_rule false "application/x-www-form-urlencoded" headers w
        (Part000.HttpReqPostFormXML P urlString body headers cookie transport timeout rs w).2)
  ∧ (∀ urlString paramTexts paramFile headers cookie transport timeout rs w,
      headers_rule true (Layout.content_type (randomBoundary P (rand w))) headers w
        (Part000.HttpReqPostFile P urlString paramTexts paramFile headers cookie transport timeout rs w).2)
  ∧ (∀ urlString token paramTexts paramFile headers cookie transport timeout rs w,
      headers_rule true (Layout.content_type (randomBoundary P (rand w))) headers w
        (Part000.HttpReqAuthPostFile P urlString token paramTexts paramFile headers cookie transport timeout rs w).2)
  ∧ (∀ urlString token paramTexts paramFile headers cookie transport timeout rs w,
      headers_rule true (Layout.content_type (randomBoundary P (rand w))) headers w
        (Part000.HttpReqAuthPutFile P urlString token paramTexts paramFile headers cookie transport timeout rs w).2).
Proof.
  repeat apply conj; intros; to_shape; by apply entry_maps.
Qed.

Lemma server_reported_log (P : Platform) (w0 w : World) (sent : Result * World) :
  log w0 = log w → server_reported P w0 sent → server_reported P w sent.
Proof. unfold server_reported. by intros ->. Qed.

(** C6.  In every entry point of the three versions: the status code and
    the bytes are those the dispatcher returned; the decoder runs exactly
    when the dispatcher returned no error, the output value is not nil and
    the body is not empty, and then the error returned is the decoder's own
    (nil when it succeeds), not a [*ResourceError]; a dispatcher return
    without error carries the status code of the server's response. *)
Theorem C6_decoding (P : Platform) :
  (∀ method urlString body headers cookie rs w,
      let lw := prepare_headers true "text/xml" headers w in
      let sent := HttpUtilsGo.sendHttpReq P method urlString body (Some lw.1) cookie lw.2 in
      decoding_rule P XML rs sent (HttpUtilsGo.HttpReqXML P method urlString body headers cookie rs w)
      ∧ server_reported P w sent)
  ∧ (∀ method urlString body headers cookie rs w,
      let lw := prepare_headers true "application/json" headers w in
      let sent := HttpUtilsGo.sendHttpReq P (TrimSpace P (ToUpper P method)) urlString body (Some lw.1) cookie lw.2 in
      decoding_rule P JSON rs sent (HttpUtilsGo.HttpReqJSON P method urlString body headers cookie rs w)
      ∧ server_reported P w sent)
  ∧ (∀ method urlString token body headers cookie transport rs w,
      let lw := prepare_headers true "text/xml" headers w in
      let sent := Part001.sendHttpReq P (TrimSpace P (ToUpper P method)) urlString token body (Some lw.1) cookie transport lw.2 in
      decoding_rule P XML rs sent (Part001.HttpReqAuthXML P method urlString token body headers cookie transport rs w)
      ∧ server_reported P w sent)
  ∧ (∀ method urlString token body headers cookie transport rs w,
      let lw := prepare_headers true "application/json" headers w in
      let sent := Part001.sendHttpReq P (TrimSpace P (ToUpper P method)) urlString token body (Some lw.1) cookie transport lw.2 in
      decoding_rule P JSON rs sent (Part001.HttpReqAuthJSON P method urlString token body headers cookie transport rs w)
      ∧ server_reported P w sent)
  ∧ (∀ method urlString body headers cookie transport rs w,
      let lw := prepare_headers true "text/xml" headers w in
      let sent := Part001.sendHttpReq P (TrimSpace P (ToUpper P method)) urlString EmptyString body (Some lw.1) cookie transport lw.2 in
      decoding_rule P XML rs sent (Part001.HttpReqXML P method urlString body headers cookie transport rs w)
      ∧ server_reported P w sent)
  ∧ (∀ method urlString body headers cookie transport rs w,
      let lw := prepare_headers true "application/json" headers w in
      let sent := Part001.sendHttpReq P (TrimSpace P (ToUpper P method)) urlString EmptyString body (Some lw.1) cookie transport lw.2 in
      decoding_rule P JSON rs sent (Part001.HttpReqJSON P method urlString body headers cookie transport rs w)
      ∧ server_reported P w sent)
  ∧ (∀ urlString body headers cookie transport rs w,
      let lw := prepare_headers true "application/x-www-form-urlencoded" headers w in
      let sent := Part001.sendHttpReq P "POST" urlString EmptyString body (Some lw.1) cookie transport lw.2 in
      decoding_rule P JSON rs sent (Part001.HttpReqPostFormJSON P urlString body headers cookie transport rs w)
      ∧ server_reported P w sent)
  ∧ (∀ urlString body headers cookie transport rs w,
      let lw := prepare_headers false "application/x-www-form-urlencoded" headers w in
      let sent := Part001.sendHttpReq P "POST" urlString EmptyString body (Some lw.1) cookie transport lw.2 in
      decoding_rule P XML rs sent (Part001.HttpReqPostFormXML P urlString body headers cookie transport rs w)
      ∧ server_reported P w sent)
  ∧ (∀ method urlString token body headers cookie transport timeout rs w,
      let lw := prepare_headers true "text/xml" headers w in
      let sent := Part000.sendHttpReq P (TrimSpace P (ToUpper P method)) urlString token body (Some lw.1) cookie transport timeout lw.2 in
      decoding_rule P XML rs sent (Part000.HttpReqAuthXML P method urlString token body headers cookie transport timeout rs w)
      ∧ server_reported P w sent)
  ∧ (∀ method urlString token body headers cookie transport timeout rs w,
      let lw := prepare_headers true "application/json" headers w in
      let sent := Part000.sendHttpReq P (TrimSpace P (ToUpper P method)) urlString token body (Some lw.1) cookie transport timeout lw.2 in
      decoding_rule P JSON rs sent (Part000.HttpReqAuthJSON P method urlString token body headers cookie transport timeout rs w)
      ∧ server_reported P w sent)
  ∧ (∀ method urlString body headers cookie transport timeout rs w,
      let lw := prepare_headers true "text/xml" headers w in
      let sent := Part000.sendHttpReq P (TrimSpace P (ToUpper P method)) urlString EmptyString body (Some lw.1) cookie transport timeout lw.2 in
      decoding_rule P XML rs sent (Part000.HttpReqXML P method urlString body headers cookie transport timeout rs w)
      ∧ server_reported P w sent)
  ∧ (∀ method urlString body headers cookie transport timeout rs w,
      let lw := prepare_headers true "application/json" headers w in
      let sent := Part000.sendHttpReq P (TrimSpace P (ToUpper P method)) urlString EmptyString body (Some lw.1) cookie transport timeout lw.2 in
      decoding_rule P JSON rs sent (Part000.HttpReqJSON P method urlString body headers cookie transport timeout rs w)
      ∧ server_reported P w sent)
  ∧ (∀ urlString body headers cookie transport timeout rs w,
      let lw := prepare_headers true "application/x-www-form-urlencoded" headers w in
      let sent := Part000.sendHttpReq P "POST" urlString EmptyString body (Some lw.1) cookie transport timeout lw.2 in
      decoding_rule P JSON rs sent (Part000.HttpReqPostFormJSON P urlString body headers cookie transport timeout rs w)
      ∧ server_reported P w sent)
  ∧ (∀ urlString body headers cookie transport timeout rs w,
      let lw := prepare_headers false "application/x-www-form-urlencoded" headers w in
      let sent := Part000.sendHttpReq P "POST" urlString EmptyString body (Some lw.1) cookie transport timeout lw.2 in
      decoding_rule P XML rs sent (Part000.HttpReqPostFormXML P urlString body headers cookie transport timeout rs w)
      ∧ server_reported P w sent)
  ∧ (∀ urlString paramTexts paramFile headers cookie transport timeout rs w,
      let b := randomBoundary P (rand w) in
      let lw := prepare_headers true (Layout.content_type b) headers (after_writer w) in
      let sent :=
        Part000.sendHttpReq P "POST" urlString EmptyString
          (Some (Layout.multipart_body P b (rangeOrder P (iter w) paramTexts) paramFile))
          (Some lw.1) cookie transport timeout lw.2 in
      decoding_rule P JSON rs sent (Part000.HttpReqPostFile P urlString paramTexts paramFile headers cookie transport timeout rs w)
      ∧ server_reported P w sent)
  ∧ (∀ urlString token paramTexts paramFile headers cookie transport timeout rs w,
      let b := randomBoundary P (rand w) in
      let lw := prepare_headers true (Layout.content_type b) headers (after_writer w) in
      let sent :=
        Part000.sendHttpReq P "POST" urlString token
          (Some (Layout.multipart_body P b (rangeOrder P (iter w) paramTexts) paramFile))
          (Some lw.1) cookie transport timeout lw.2 in
      decoding_rule P JSON rs sent (Part000.HttpReqAuthPostFile P urlString token paramTexts paramFile headers cookie transport timeout rs w)
      ∧ server_reported P w sent)
  ∧ (∀ urlString token paramTexts paramFile headers cookie transport timeout rs w,
      let b := randomBoundary P (rand w) in
      let lw := prepare_headers true (Layout.content_type b) headers (after_writer w) in
      let sent :=
        Part000.sendHttpReq P "PUT" urlString token
          (Some (Layout.multipart_body P b (rangeOrder P (iter w) paramTexts) paramFile))
          (Some lw.1) cookie transport timeout lw.2 in
      decoding_rule P JSON rs sent (Part000.HttpReqAuthPutFile P urlString token paramTexts paramFile headers cookie transport timeout rs w)
      ∧ server_reported P w sent).
Proof.
  repeat apply conj; intros; unfold_lets;
    (split;
     [ to_shape; apply decode_response_rule
     | to_dispatch; eapply server_reported_log;
       [|apply dispatch_server_reported]; by apply prepare_headers_log ]).
Qed.


(** The request an entry point sends is the one its dispatcher call sends. *)
Lemma entry_sent_method (P : Platform) codec rs client method urlString token data headers
    cookie (w0 w : World) c r rest :
  log w0 = log w →
  log (decode_response P codec rs
         (dispatch P client method urlString token data headers cookie w0)).2
  = log w ++ EvDo c r :: rest →
  Request.Method r = (if String.eqb method EmptyString then "GET"%string else method)
  ∧ Request.Body r = string_of data.
Proof.
  intros Hw0 Hlog.
  apply decode_dispatch_sent in Hlog as [rest' Hlog]; [|done].
  by apply dispatch_sent_method in Hlog.
Qed.

(** C8.  In the three file uploads: the text fields are written in the
    order the runtime ranges over [paramTexts], every entry once; the body
    handed to the dispatcher is the parts of the text fields, then the file
    part with the caller's key, file name and content, then the closing
    delimiter; the content type of the writer, boundary included, goes into
    the headers by the rule of the other variants; a request that is sent
    has the method of the variant and that body. *)
Theorem C8_multipart_upload (P : Platform) :
  (∀ urlString paramTexts paramFile headers cookie transport timeout rs w,
      let b := randomBoundary P (rand w) in
      let texts := rangeOrder P (iter w) paramTexts in
      let data :=
        Some (Layout.text_parts P b true texts +:+
              Layout.file_part P b (Layout.is_nil texts) paramFile +:+
              Layout.terminator b) in
      let lw := prepare_headers true (Layout.content_type b) headers (after_writer w) in
      texts ≡ₚ map_to_list paramTexts
      ∧ headers_rule true (Layout.content_type b) headers w lw.2
      ∧ headers_map (Some lw.1) lw.2 !! "Content-Type"%string = Some (Layout.content_type b)
      ∧ Part000.HttpReqPostFile P urlString paramTexts paramFile headers cookie transport timeout rs w
        = decode_response P JSON rs
            (Part000.sendHttpReq P "POST" urlString EmptyString data (Some lw.1) cookie transport
               timeout lw.2)
      ∧ (∀ c r rest,
            log (Part000.HttpReqPostFile P urlString paramTexts paramFile headers cookie transport timeout rs w).2 = log w ++ EvDo c r :: rest →
            Request.Method r = "POST"%string ∧ Request.Body r = string_of data))
  ∧ (∀ urlString token paramTexts paramFile headers cookie transport timeout rs w,
      let b := randomBoundary P (rand w) in
      let texts := rangeOrder P (iter w) paramTexts in
      let data :=
        Some (Layout.text_parts P b true texts +:+
              Layout.file_part P b (Layout.is_nil texts) paramFile +:+
              Layout.terminator b) in
      let lw := prepare_headers true (Layout.content_type b) headers (after_writer w) in
      texts ≡ₚ map_to_list paramTexts
      ∧ headers_rule true (Layout.content_type b) headers w lw.2
      ∧ headers_map (Some lw.1) lw.2 !! "Content-Type"%string = Some (Layout.content_type b)
      ∧ Part000.HttpReqAuthPostFile P urlString token paramTexts paramFile headers cookie transport timeout rs w
        = decode_response P JSON rs
            (Part000.sendHttpReq P "POST" urlString token data (Some lw.1) cookie transport
               timeout lw.2)
      ∧ (∀ c r rest,
            log (Part000.HttpReqAuthPostFile P urlString token paramTexts paramFile headers cookie transport timeout rs w).2 = log w ++ EvDo c r :: rest →
            Request.Method r = "POST"%string ∧ Request.Body r = string_of data))
  ∧ (∀ urlString token paramTexts paramFile headers cookie transport timeout rs w,
      let b := randomBoundary P (rand w) in
      let texts := rangeOrder P (iter w) paramTexts in
      let data :=
        Some (Layout.text_parts P b true texts +:+
              Layout.file_part P b (Layout.is_nil texts) paramFile +:+
              Layout.terminator b) in
      let lw := prepare_headers true (Layout.content_type b) headers (after_writer w) in
      texts ≡ₚ map_to_list paramTexts
      ∧ headers_rule true (Layout.content_type b) headers w lw.2
      ∧ headers_map (Some lw.1) lw.2 !! "Content-Type"%string = Some (Layout.content_type b)
      ∧ Part000.HttpReqAuthPutFile P urlString token paramTexts paramFile headers cookie transport timeout rs w
        = decode_response P JSON rs
            (Part000.sendHttpReq P "PUT" urlString token data (Some lw.1) cookie transport
               timeout lw.2)
      ∧ (∀ c r rest,
            log (Part000.HttpReqAuthPutFile P urlString token paramTexts paramFile headers cookie transport timeout rs w).2 = log w ++ EvDo c r :: rest →
            Request.Method r = "PUT"%string ∧ Request.Body r = string_of data)).
Proof.
  repeat apply conj; intros; unfold_lets.
  all: split; [apply rangeOrder_perm|].
  all: split;
    [apply (headers_rule_maps true _ headers (after_writer w) w _ _ eq_refl eq_refl),
           prepare_headers_rule|].
  all: split; [apply prepare_headers_lookup|].
  all: split; [by to_shape|].
  all: intros c r rest Hlog; revert Hlog; to_shape; intros Hlog;
    apply entry_sent_method in Hlog; [done|by apply prepare_headers_log].
Qed.

(** The three dispatchers send the query string of the URL as written:
    the request is built from the caller's string before the re-encoding,
    and the re-encoded string only reaches the [URL] field of an error. *)
Lemma sendHttpReq_sent_query (P : Platform) :
  (∀ method urlString data headers cookie,
      sent_query_rule P urlString
        (HttpUtilsGo.sendHttpReq P method urlString data headers cookie))
  ∧ (∀ method urlString token data headers cookie transport,
      sent_query_rule P urlString
        (Part001.sendHttpReq P method urlString token data headers cookie transport))
  ∧ (∀ method urlString token data headers cookie transport timeout,
      sent_query_rule P urlString
        (Part000.sendHttpReq P method urlString token data headers cookie transport timeout)).
Proof.
  split; [|split]; unfold sent_query_rule; intros; to_dispatch;
    eapply dispatch_sent_query; eauto.
Qed.

(** C1, at the URL [http://h/missing?b=2&a=1].  In the three versions the
    request sent has the query [b=2&a=1], as the caller wrote it; its
    canonical re-encoding is [a=1&b=2], which appears only in the [URL]
    field of the error returned for the 404 answer. *)
Theorem C1_query_sent_as_written :
  let url := "http://h/missing?b=2&a=1"%string in
  (∃ c r re,
      HttpUtilsGo.sendHttpReq Sample.platform "GET" url None None None Sample.world0
      = ((404, Some "not found"%string, Some (ErrResource re)),
         mkWorld ∅ 1 0 [EvDo c r; EvClose])
      ∧ RawQuery (Request.URL r) = "b=2&a=1"%string
      ∧ Encode (Query (Request.URL r)) = "a=1&b=2"%string
      ∧ ResourceError.URL re = "http://h/missing?a=1&b=2"%string)
  ∧ (∃ c r re,
      Part001.sendHttpReq Sample.platform "GET" url EmptyString None None None None
        Sample.world0
      = ((404, Some "not found"%string, Some (ErrResource re)),
         mkWorld ∅ 1 0 [EvDo c r; EvClose])
      ∧ RawQuery (Request.URL r) = "b=2&a=1"%string
      ∧ Encode (Query (Request.URL r)) = "a=1&b=2"%string
      ∧ ResourceError.URL re = "http://h/missing?a=1&b=2"%string)
  ∧ (∃ c r re,
      Part000.sendHttpReq Sample.platform "GET" url EmptyString None None None None 0
        Sample.world0
      = ((404, Some "not found"%string, Some (ErrResource re)),
         mkWorld ∅ 1 0 [EvDo c r; EvClose])
      ∧ RawQuery (Request.URL r) = "b=2&a=1"%string
      ∧ Encode (Query (Request.URL r)) = "a=1&b=2"%string
      ∧ ResourceError.URL re = "http://h/missing?a=1&b=2"%string).
Proof.
  cbv zeta. split; [|split]; eexists _, _, _; (split; [vm_compute; reflexivity|]);
    repeat split; vm_compute; reflexivity.
Qed.

(** Every entry point that takes a method sends [TrimSpace(ToUpper(method))]
    (GET when that is empty), but for [HttpReqXML] of [http-utils.go], which
    sends the method as given. *)
Lemma entry_points_sent_method (P : Platform) :
  (∀ method urlString body headers cookie rs,
      sent_method_rule method body
        (HttpUtilsGo.HttpReqXML P method urlString body headers cookie rs))
  ∧ (∀ method urlString body headers cookie rs,
      sent_method_rule (TrimSpace P (ToUpper P method)) body
        (HttpUtilsGo.HttpReqJSON P method urlString body headers cookie rs))
  ∧ (∀ method urlString token body headers cookie transport rs,
      sent_method_rule (TrimSpace P (ToUpper P method)) body
        (Part001.HttpReqAuthXML P method urlString token body headers cookie transport rs))
  ∧ (∀ method urlString token body headers cookie transport rs,
      sent_method_rule (TrimSpace P (ToUpper P method)) body
        (Part001.HttpReqAuthJSON P method urlString token body headers cookie transport rs))
  ∧ (∀ method urlString body headers cookie transport rs,
      sent_method_rule (TrimSpace P (ToUpper P method)) body
        (Part001.HttpReqXML P method urlString body headers cookie transport rs))
  ∧ (∀ method urlString body headers cookie transport rs,
      sent_method_rule (TrimSpace P (ToUpper P method)) body
        (Part001.HttpReqJSON P method urlString body headers cookie transport rs))
  ∧ (∀ method urlString token body headers cookie transport timeout rs,
      sent_method_rule (TrimSpace P (ToUpper P method)) body
        (Part000.HttpReqAuthXML P method urlString token body headers cookie transport
           timeout rs))
  ∧ (∀ method urlString token body headers cookie transport timeout rs,
      sent_method_rule (TrimSpace P (ToUpper P method)) body
        (Part000.HttpReqAuthJSON P method urlString token body headers cookie transport
           timeout rs))
  ∧ (∀ method urlString body headers cookie transport timeout rs,
      sent_method_rule (TrimSpace P (ToUpper P method)) body
        (Part000.HttpReqXML P method urlString body headers cookie transport timeout rs))
  ∧ (∀ method urlString body headers cookie transport timeout rs,
      sent_method_rule (TrimSpace P (ToUpper P method)) body
        (Part000.HttpReqJSON P method urlString body headers cookie transport timeout rs)).
Proof.
  repeat apply conj.
  all: intros; intros w c r rest Hlog; revert Hlog; to_shape; intros Hlog;
    apply entry_sent_method in Hlog; [done|by apply prepare_headers_log].
Qed.

(** C5, at the method [get].  [HttpReqXML] of [http-utils.go] sends the
    method [get], where [TrimSpace(ToUpper(method))] is [GET]; [HttpReqJSON]
    of the same file sends [GET]. *)
Theorem C5_HttpReqXML_sends_method_as_given :
  (∃ c r rest,
      log (HttpUtilsGo.HttpReqXML Sample.platform "get" "http://h/" None None None None
             Sample.world0).2 = EvDo c r :: rest
      ∧ Request.Method r = "get"%string)
  ∧ TrimSpace Sample.platform (ToUpper Sample.platform "get") = "GET"%string
  ∧ (∃ c r rest,
      log (HttpUtilsGo.HttpReqJSON Sample.platform "get" "http://h/" None None None None
             Sample.world0).2 = EvDo c r :: rest
      ∧ Request.Method r = "GET"%string).
Proof.
  split; [|split].
  - eexists _, _, _. split; vm_compute; reflexivity.
  - vm_compute; reflexivity.
  - eexists _, _, _. split; vm_compute; reflexivity.
Qed.

(** C4 fails in [http-utils.go]: the client of the round trip has a zero
    [Timeout], not 30 seconds, so no timeout bounds the round trip. *)
Lemma C4_counterexample :
  ¬ client_timeout_rule (30 * Second)
      (HttpUtilsGo.sendHttpReq Sample.platform "GET" "http://h/" None None None).
Proof.
  intros H.
  specialize (H Sample.world0 (Client.mk None 0)
                (Request.mk "GET" (mkURL "http" "h" "/" false EmptyString EmptyString)
                            ∅ "h" EmptyString 0)
                [EvClose] eq_refl).
  discriminate H.
Qed.

(** * Worked examples on the sample platform *)

(** C2 at a POST of [payload] to [/missing], answered 404 [not found]. *)
Lemma C2_status_failure_witness :
  ∃ re,
    (Part000.sendHttpReq Sample.platform "POST" "http://h/missing" EmptyString
       (Some "payload"%string) None None None 0 Sample.world0).1
    = (404, Some "not found"%string, Some (ErrResource re))
    ∧ ResourceError.Body re = Some "payload"%string
    ∧ ResourceError.Message re = "incorrect response.StatusCode"%string
    ∧ ResourceError.HTTPCode re = 404.
Proof.
  eapply (proj2 (proj2 (C2_status_failure Sample.platform))
            "POST" "http://h/missing" EmptyString (Some "payload"%string) None None None 0
            Sample.world0 _ _ _ (Response.mk 404 ("not found"%string, None))).
  - reflexivity.
  - reflexivity.
  - reflexivity.
  - simpl. lia.
Defined.

(** C7 at a method that is no token, and at a host that is down. *)
Lemma C7_no_response_witness :
  Part000.sendHttpReq Sample.platform "bad method" "http://h/" EmptyString None None None
    None 0 Sample.world0
  = ((0, None,
      Some (ErrResource (ResourceError.mk "http://h/" 0 EmptyString None
                           (Some (InvalidMethod "bad method"))))),
     Sample.world0)
  ∧ ∃ url,
      reencode Sample.platform "http://down.example/?q=1" = inr url
      ∧ (Part000.sendHttpReq Sample.platform "GET" "http://down.example/?q=1" EmptyString
           None None None None 0 Sample.world0).1
        = (0, None,
           Some (ErrResource (ResourceError.mk url 0 EmptyString None
                                (Some (LibError "dial tcp: connection refused"))))).
Proof.
  split.
  - apply (proj1 (proj2 (proj2 (C7_no_response Sample.platform))
                    "bad method" "http://h/" EmptyString None None None None 0)).
    reflexivity.
  - eapply (proj2 (proj2 (proj2 (C7_no_response Sample.platform))
                     "GET" "http://down.example/?q=1" EmptyString None None None None 0)
              Sample.world0).
    + reflexivity.
    + reflexivity.
Defined.

(** C9 at [/broken], whose body ends early after a 200 status. *)
Lemma C9_read_failure_witness :
  ∃ re,
    (HttpUtilsGo.sendHttpReq Sample.platform "GET" "http://h/broken" None None None
       Sample.world0).1
    = (0, None, Some (ErrResource re))
    ∧ ResourceError.HTTPCode re = 200
    ∧ ResourceError.Err re = Some (LibError "unexpected EOF").
Proof.
  eapply (proj1 (C9_read_failure Sample.platform)
            "GET" "http://h/broken" None None None Sample.world0 _ _ _
            (Response.mk 200 ("{"%string, Some (LibError "unexpected EOF")))).
  - reflexivity.
  - reflexivity.
  - reflexivity.
Defined.

(** C10 at a URL with a query. *)
Lemma C10_reparse_cannot_fail_witness :
  (∃ u, url_Parse Sample.platform "http://h/p?b=2&a=1" = inr u)
  ∧ ∃ c r rest,
      log (Part001.sendHttpReq Sample.platform "GET" "http://h/p?b=2&a=1" EmptyString None
             None None None Sample.world0).2
      = log Sample.world0 ++ EvDo c r :: rest.
Proof.
  eapply (proj1 (proj2 (C10_reparse_cannot_fail Sample.platform))
            "GET" "http://h/p?b=2&a=1" EmptyString None None None None Sample.world0).
  reflexivity.
Defined.

(** C4 as amended, at [timeout = 0] and [timeout = 5] in [part_000]. *)
Lemma C4_client_timeout_witness :
  (∃ c r rest,
      log (Part000.sendHttpReq Sample.platform "GET" "http://h/" EmptyString None None None
             None 0 Sample.world0).2 = log Sample.world0 ++ EvDo c r :: rest
      ∧ Client.Timeout c = 30 * Second)
  ∧ (∃ c r rest,
      log (Part000.sendHttpReq Sample.platform "GET" "http://h/" EmptyString None None None
             None 5 Sample.world0).2 = log Sample.world0 ++ EvDo c r :: rest
      ∧ Client.Timeout c = 5 * Second).
Proof.
  split.
  - eexists _, _, _. split; [reflexivity|].
    eapply (proj1 (proj2 (proj2 (C4_client_timeout Sample.platform)))
              "GET" "http://h/" EmptyString None None None None 0 ltac:(lia) Sample.world0).
    reflexivity.
  - eexists _, _, _. split; [reflexivity|].
    eapply (proj2 (proj2 (proj2 (C4_client_timeout Sample.platform)))
              "GET" "http://h/" EmptyString None None None None 5 ltac:(lia) Sample.world0).
    reflexivity.
Defined.

(** C6 at [/data]: the dispatcher returns no error, and the status code
    handed on is the one of the server's response. *)
Lemma C6_decoding_witness :
  ∃ c r response,
    log (Part001.sendHttpReq Sample.platform "GET" "http://h/data" EmptyString None
           (Some (prepare_headers true "application/json" None Sample.world0).1) None None
           (prepare_headers true "application/json" None Sample.world0).2).2
    = log Sample.world0 ++ [EvDo c r; EvClose]
    ∧ Do Sample.platform c r = inr response
    ∧ 200 = Response.StatusCode response
    ∧ Some "{}"%string = Some (Response.Body response).1.
Proof.
  apply (proj2 (proj1 (proj2 (proj2 (proj2 (proj2 (proj2 (C6_decoding Sample.platform))))))
                  "get" "http://h/data" None None None None (Some (TargetRef 0))
                  Sample.world0)).
  reflexivity.
Defined.

(** C8 at an upload of two text fields and a file. *)
Lemma C8_multipart_upload_witness :
  let P := Sample.platform in
  let texts := rangeOrder P 0 {["a"%string := "1"%string; "b"%string := "2"%string]} in
  let file := FileItem.mk "f" "x.txt" (Some "DATA"%string) in
  ∃ c r rest,
    log (Part000.HttpReqPostFile P "http://h/data"
           {["a"%string := "1"%string; "b"%string := "2"%string]} file None None None 0
           (Some (TargetRef 0)) Sample.world0).2
    = log Sample.world0 ++ EvDo c r :: rest
    ∧ Request.Method r = "POST"%string
    ∧ Request.Body r
      = string_of
          (Some (Layout.text_parts P (randomBoundary P 0) true texts +:+
                 Layout.file_part P (randomBoundary P 0) (Layout.is_nil texts) file +:+
                 Layout.terminator (randomBoundary P 0))).
Proof.
  cbv zeta. eexists _, _, _. split.
  - vm_compute. reflexivity.
  - eapply (proj2 (proj2 (proj2 (proj2
              (proj1 (C8_multipart_upload Sample.platform) "http://h/data"
                 {["a"%string := "1"%string; "b"%string := "2"%string]}
                 (FileItem.mk "f" "x.txt" (Some "DATA"%string)) None None None 0
                 (Some (TargetRef 0)) Sample.world0))))).
    vm_compute. reflexivity.
Defined.

(** Beyond 9223372036 seconds the product [timeout * time.Second] wraps
    around in [int64]: at 9223372037 the client of [part_000] gets a
    negative [Timeout], which [net/http] treats as no timeout. *)
Example client_of_overflow :
  Client.Timeout (client_of None 9223372037) = -9223372036709551616.
Proof. reflexivity. Qed.

(** The text parts of the upload above, byte for byte. *)
Example text_parts_example :
  Layout.text_parts Sample.platform "B" true
    [("a"%string, "1"%string); ("b"%string, "2"%string)]
  = ("--B" +:+ Multipart.CRLF +:+
     "Content-Disposition: form-data; name=" +:+ Multipart.dquote +:+ "a" +:+
     Multipart.dquote +:+ Multipart.CRLF +:+ Multipart.CRLF +:+ "1" +:+
     Multipart.CRLF +:+ "--B" +:+ Multipart.CRLF +:+
     "Content-Disposition: form-data; name=" +:+ Multipart.dquote +:+ "b" +:+
     Multipart.dquote +:+ Multipart.CRLF +:+ Multipart.CRLF +:+ "2")%string.
Proof. reflexivity. Qed.

(** * Further properties of the dispatchers *)

Section MoreDispatchRules.
Context (P : Platform) (client : Client.t) (method urlString token : string)
        (data : ByteSlice) (headers : option loc) (cookie : option Cookie.t).

Local Abbreviation run := (dispatch P client method urlString token data headers cookie).

Lemma dispatch_success : success_rule P run.
Proof.
  intros w c r rest response Hlog HDo Hread Hcode.
  destruct (dispatch_sent _ _ _ _ _ _ _ _ _ _ _ _ Hlog)
    as (request & url & _ & _ & _ & _ & ->).
  rewrite HDo, Hread.
  by destruct (Z.ltb_spec 399 (Response.StatusCode response)); [lia|].
Qed.

Lemma dispatch_error_shape : error_shape_rule P urlString run.
Proof.
  intros w e He.
  destruct (NewRequest P method urlString data) as [err|request] eqn:HN.
  { rewrite (dispatch_inl _ _ _ _ _ _ _ _ _ _ HN) in He |- *. simpl in *.
    simplify_eq. eexists. split; [done|]. simpl. eauto 10. }
  destruct (dispatch_inr P client method urlString token data headers cookie w _ HN)
    as (url & Hurl & Heq).
  simpl in Heq. rewrite Heq in He |- *. clear Heq.
  destruct (Do P client _) as [err|response]; simpl in *.
  { simplify_eq. eexists. split; [done|]. simpl. eauto 10. }
  destruct (Response.Body response).2 as [err|]; simpl in *.
  { simplify_eq. eexists. split; [done|]. simpl. eauto 10. }
  destruct (Z.ltb_spec 399 (Response.StatusCode response)); simpl in *.
  2: { discriminate. }
  simplify_eq. eexists. split; [done|]. simpl.
  split; [eauto|]. split; [eauto|]. right. eauto.
Qed.

Lemma dispatch_effects : effects_rule P method urlString data run.
Proof.
  intros w.
  destruct (NewRequest P method urlString data) as [err|request] eqn:HN.
  { by rewrite (dispatch_inl _ _ _ _ _ _ _ _ _ _ HN). }
  destruct (dispatch_inr P client method urlString token data headers cookie w _ HN)
    as (url & Hurl & Heq).
  simpl in Heq. rewrite Heq. clear Heq.
  exists client,
    (decorate P request cookie (rangeOrder P (iter w) (headers_map headers w)) token).
  destruct (Do P client _) as [err|response]; simpl; [done|].
  destruct (Response.Body response).2; simpl; [done|].
  by destruct (399 <? Response.StatusCode response).
Qed.

Lemma dispatch_invalid_method : invalid_method_rule method urlString run.
Proof.
  intros Hne Htok w. apply dispatch_inl. unfold NewRequest.
  destruct (String.eqb_spec method EmptyString) as [->|_]; [done|].
  unfold validMethod. rewrite Htok, andb_false_r. done.
Qed.

Lemma dispatch_transport : transport_rule (Client.Transport client) run.
Proof.
  intros w c r rest Hlog.
  by destruct (dispatch_sent _ _ _ _ _ _ _ _ _ _ _ _ Hlog)
    as (request & url & _ & _ & -> & _ & _).
Qed.

End MoreDispatchRules.

(** ** The header of the request sent *)

Lemma Header_Add_lookup (P : Platform) (h : Header) (k v key : string) :
  Header_Add P h k v !! key
  = if decide (CanonicalMIMEHeaderKey P k = key)
    then Some (default [] (h !! key) ++ [v])
    else h !! key.
Proof.
  unfold Header_Add. simpl. rewrite lookup_insert.
  by destruct (decide (CanonicalMIMEHeaderKey P k = key)) as [->|].
Qed.

Lemma Header_Add_has_new (P : Platform) (h : Header) (k v : string) :
  header_has (Header_Add P h k v) (CanonicalMIMEHeaderKey P k) v.
Proof.
  unfold header_has. rewrite Header_Add_lookup, decide_True by done.
  eexists. split; [done|]. apply elem_of_app. right. by apply list_elem_of_singleton.
Qed.

Lemma Header_Add_has_mono (P : Platform) (h : Header) (k v key x : string) :
  header_has h key x → header_has (Header_Add P h k v) key x.
Proof.
  intros (vs & Hvs & Hx). unfold header_has. rewrite Header_Add_lookup.
  destruct (decide _); [|eauto].
  rewrite Hvs. simpl. eexists. split; [done|]. apply elem_of_app. by left.
Qed.

(** The first value under a key stays first when values are added. *)
Lemma Header_Add_head (P : Platform) (h : Header) (k v key x : string) (vs : list string) :
  h !! key = Some (x :: vs) → ∃ vs', Header_Add P h k v !! key = Some (x :: vs').
Proof.
  intros Hvs. rewrite Header_Add_lookup.
  destruct (decide _); [|eauto]. rewrite Hvs. simpl. eauto.
Qed.

Lemma fold_Header_Add_mono (P : Platform) (entries : list (string * string)) r key x :
  header_has (Request.Header r) key x →
  header_has (Request.Header
                (fold_left (λ r kv, Request_Header_Add P r kv.1 kv.2) entries r)) key x.
Proof.
  revert r. induction entries as [|kv entries IH]; intros r Hr; [done|].
  simpl. apply IH. by apply Header_Add_has_mono.
Qed.

Lemma fold_Header_Add_has (P : Platform) (entries : list (string * string)) r k v :
  (k, v) ∈ entries →
  header_has (Request.Header
                (fold_left (λ r kv, Request_Header_Add P r kv.1 kv.2) entries r))
             (CanonicalMIMEHeaderKey P k) v.
Proof.
  revert r. induction entries as [|kv entries IH]; intros r Hin.
  { by apply elem_of_nil in Hin. }
  apply elem_of_cons in Hin as [<-|Hin]; simpl.
  - apply fold_Header_Add_mono, Header_Add_has_new.
  - by apply IH.
Qed.

Lemma fold_Header_Add_head (P : Platform) (entries : list (string * string)) r key x vs :
  Request.Header r !! key = Some (x :: vs) →
  ∃ vs', Request.Header
           (fold_left (λ r kv, Request_Header_Add P r kv.1 kv.2) entries r) !! key
         = Some (x :: vs').
Proof.
  revert r vs. induction entries as [|kv entries IH]; intros r vs Hr; [eauto|].
  simpl. destruct (Header_Add_head P (Request.Header r) kv.1 kv.2 key x vs Hr) as [vs' Hvs'].
  by apply (IH _ vs').
Qed.

(** [http.NewRequest] makes a request with an empty header. *)
Lemma NewRequest_Header (P : Platform) method urlString data request :
  NewRequest P method urlString data = inr request → Request.Header request = ∅.
Proof.
  unfold NewRequest. intros H.
  destruct (negb _); [done|].
  destruct (url_Parse P urlString) as [err|u]; [done|]. by simplify_eq/=.
Qed.

Section HeaderRules.
Context (P : Platform) (client : Client.t) (method urlString token : string)
        (data : ByteSlice) (headers : option loc) (cookie : option Cookie.t).

Local Abbreviation run := (dispatch P client method urlString token data headers cookie).

Lemma dispatch_headers_sent : headers_sent_rule P headers run.
Proof.
  intros w c r rest k v Hlog Hkv.
  destruct (dispatch_sent _ _ _ _ _ _ _ _ _ _ _ _ Hlog)
    as (request & url & _ & _ & _ & -> & _).
  assert ((k, v) ∈ rangeOrder P (iter w) (headers_map headers w)) as Hin.
  { rewrite (rangeOrder_perm P (iter w) (headers_map headers w)).
    by apply elem_of_map_to_list. }
  unfold decorate.
  destruct (negb _); [apply Header_Add_has_mono|]; by apply fold_Header_Add_has.
Qed.

Lemma dispatch_token_sent : token_sent_rule P token run.
Proof.
  intros w c r rest Hlog Htok.
  destruct (dispatch_sent _ _ _ _ _ _ _ _ _ _ _ _ Hlog)
    as (request & url & _ & _ & _ & -> & _).
  unfold decorate.
  destruct (String.eqb_spec token EmptyString) as [->|_]; [done|]. simpl.
  rewrite Header_Add_lookup, decide_True by done. eauto.
Qed.

Lemma dispatch_cookie_sent : cookie_sent_rule P cookie run.
Proof.
  intros w c r rest ck Hlog ->.
  destruct (dispatch_sent _ _ _ _ _ _ _ _ _ _ _ _ Hlog)
    as (request & url & HN & _ & _ & -> & _).
  apply NewRequest_Header in HN.
  unfold decorate.
  assert (Request.Header (AddCookie P request ck) !! CanonicalMIMEHeaderKey P "Cookie"
          = Some [sanitizeCookieName P (Cookie.Name ck) +:+ "=" +:+
                  sanitizeCookieValue P (Cookie.Value ck)]) as Hck.
  { unfold AddCookie, Header_Get. rewrite HN, lookup_empty. simpl.
    unfold Header_Set. by rewrite lookup_insert_eq. }
  destruct (fold_Header_Add_head P (rangeOrder P (iter w) (headers_map headers w))
              _ _ _ _ Hck) as [vs Hvs].
  destruct (negb _); [|eauto].
  by apply (Header_Add_head P _ "Authorization" token _ _ vs).
Qed.

End HeaderRules.

(** In the three versions of [sendHttpReq]: when the server answers with a
    status code below 400 and the body is read to the end, the call returns
    that status code, the bytes of the body and a nil error. *)
Theorem sendHttpReq_success (P : Platform) :
  (∀ method urlString data headers cookie,
      success_rule P
        (HttpUtilsGo.sendHttpReq P method urlString data headers cookie))
  ∧ (∀ method urlString token data headers cookie transport,
      success_rule P
        (Part001.sendHttpReq P method urlString token data headers cookie transport))
  ∧ (∀ method urlString token data headers cookie transport timeout,
      success_rule P
        (Part000.sendHttpReq P method urlString token data headers cookie transport timeout)).
Proof.
  split; [|split]; unfold success_rule; intros; to_dispatch;
    eapply dispatch_success; eauto.
Qed.

(** In the three versions of [sendHttpReq]: an error returned is always a
    [*ResourceError] with its cause set and with the URL as given or
    re-encoded; with it come either status 0, nil bytes and no payload, or
    a status code above 399 (also in [HTTPCode]), the bytes and the fixed
    message. *)
Theorem sendHttpReq_error_shape (P : Platform) :
  (∀ method urlString data headers cookie,
      error_shape_rule P urlString
        (HttpUtilsGo.sendHttpReq P method urlString data headers cookie))
  ∧ (∀ method urlString token data headers cookie transport,
      error_shape_rule P urlString
        (Part001.sendHttpReq P method urlString token data headers cookie transport))
  ∧ (∀ method urlString token data headers cookie transport timeout,
      error_shape_rule P urlString
        (Part000.sendHttpReq P method urlString token data headers cookie transport timeout)).
Proof.
  split; [|split]; unfold error_shape_rule; intros; to_dispatch;
    eapply dispatch_error_shape; eauto.
Qed.

(** In the three versions of [sendHttpReq]: a call whose request cannot be
    built leaves the world as it was; any other call ranges once over the
    headers, makes exactly one round trip, closes the body exactly when a
    response arrived, and changes no map. *)
Theorem sendHttpReq_effects (P : Platform) :
  (∀ method urlString data headers cookie,
      effects_rule P method urlString data
        (HttpUtilsGo.sendHttpReq P method urlString data headers cookie))
  ∧ (∀ method urlString token data headers cookie transport,
      effects_rule P method urlString data
        (Part001.sendHttpReq P method urlString token data headers cookie transport))
  ∧ (∀ method urlString token data headers cookie transport timeout,
      effects_rule P method urlString data
        (Part000.sendHttpReq P method urlString token data headers cookie transport timeout)).
Proof.
  split; [|split]; intros; intros w; to_dispatch; apply dispatch_effects.
Qed.

(** In the three versions of [sendHttpReq]: a method that is not empty and
    holds a byte that is no token character ends the call with a
    [*ResourceError] whose cause is the invalid-method error, before any
    header is read or any request sent. *)
Theorem sendHttpReq_invalid_method (P : Platform) :
  (∀ method urlString data headers cookie,
      invalid_method_rule method urlString
        (HttpUtilsGo.sendHttpReq P method urlString data headers cookie))
  ∧ (∀ method urlString token data headers cookie transport,
      invalid_method_rule method urlString
        (Part001.sendHttpReq P method urlString token data headers cookie transport))
  ∧ (∀ method urlString token data headers cookie transport timeout,
      invalid_method_rule method urlString
        (Part000.sendHttpReq P method urlString token data headers cookie transport timeout)).
Proof.
  split; [|split]; intros; intros Hne Htok w; to_dispatch;
    by apply dispatch_invalid_method.
Qed.

(** In the three versions of [sendHttpReq]: every entry of the headers map
    is on the request sent, among the values of its canonical key. *)
Theorem sendHttpReq_headers_sent (P : Platform) :
  (∀ method urlString data headers cookie,
      headers_sent_rule P headers
        (HttpUtilsGo.sendHttpReq P method urlString data headers cookie))
  ∧ (∀ method urlString token data headers cookie transport,
      headers_sent_rule P headers
        (Part001.sendHttpReq P method urlString token data headers cookie transport))
  ∧ (∀ method urlString token data headers cookie transport timeout,
      headers_sent_rule P headers
        (Part000.sendHttpReq P method urlString token data headers cookie transport timeout)).
Proof.
  split; [|split]; unfold headers_sent_rule; intros; to_dispatch;
    eapply dispatch_headers_sent; eauto.
Qed.

(** In [part_001] and [part_000]: a non-empty token is sent as the last
    value of the [Authorization] header, with nothing put before or after
    it. *)
Theorem sendHttpReq_token_sent (P : Platform) :
  (∀ method urlString token data headers cookie transport,
      token_sent_rule P token
        (Part001.sendHttpReq P method urlString token data headers cookie transport))
  ∧ (∀ method urlString token data headers cookie transport timeout,
      token_sent_rule P token
        (Part000.sendHttpReq P method urlString token data headers cookie transport timeout)).
Proof.
  split; unfold token_sent_rule; intros; to_dispatch;
    eapply dispatch_token_sent; eauto.
Qed.

(** In the three versions of [sendHttpReq]: a cookie is sent as the first
    value of the [Cookie] header, in the form [name=value]. *)
Theorem sendHttpReq_cookie_sent (P : Platform) :
  (∀ method urlString data headers cookie,
      cookie_sent_rule P cookie
        (HttpUtilsGo.sendHttpReq P method urlString data headers cookie))
  ∧ (∀ method urlString token data headers cookie transport,
      cookie_sent_rule P cookie
        (Part001.sendHttpReq P method urlString token data headers cookie transport))
  ∧ (∀ method urlString token data headers cookie transport timeout,
      cookie_sent_rule P cookie
        (Part000.sendHttpReq P method urlString token data headers cookie transport timeout)).
Proof.
  split; [|split]; unfold cookie_sent_rule; intros; to_dispatch;
    eapply dispatch_cookie_sent; eauto.
Qed.

(** The client of the round trip has no transport in [http-utils.go] and
    the caller's transport, nil or not, in [part_001] and [part_000]. *)
Theorem sendHttpReq_transport (P : Platform) :
  (∀ method urlString data headers cookie,
      transport_rule None
        (HttpUtilsGo.sendHttpReq P method urlString data headers cookie))
  ∧ (∀ method urlString token data headers cookie transport,
      transport_rule transport
        (Part001.sendHttpReq P method urlString token data headers cookie transport))
  ∧ (∀ method urlString token data headers cookie transport timeout,
      transport_rule transport
        (Part000.sendHttpReq P method urlString token data headers cookie transport timeout)).
Proof.
  split; [|split]; unfold transport_rule; intros; to_dispatch;
    match goal with
    | H : log _ = _ |- _ => apply dispatch_transport in H; by rewrite H
    end.
Qed.

(** * Further properties of the entry points *)

Lemma len_Some_test (s : string) : (0 <? len (Some s)) = negb (String.eqb s EmptyString).
Proof. by destruct s. Qed.

(** What an entry point returns and logs once its dispatcher call got a
    response. *)
Lemma decode_dispatch_response (P : Platform) codec rs client method urlString token data
    headers cookie (w0 w : World) c r rest response :
  log w0 = log w →
  log (decode_response P codec rs
         (dispatch P client method urlString token data headers cookie w0)).2
  = log w ++ EvDo c r :: rest →
  Do P c r = inr response →
  (Response.Body response).2 = None →
  ∃ url,
    decode_response P codec rs
      (dispatch P client method urlString token data headers cookie w0)
    = decode_response P codec rs
        (if 399 <? Response.StatusCode response then
           ((Response.StatusCode response, Some (Response.Body response).1,
             Some (ErrResource
                     (ResourceError.mk url (Response.StatusCode response)
                        "incorrect response.StatusCode"
                        (Some (string_of data))
                        (Some (Errorf "incorrect status code"))))),
            after w0 [EvDo c r; EvClose])
         else
           ((Response.StatusCode response, Some (Response.Body response).1, None),
            after w0 [EvDo c r; EvClose])).
Proof.
  intros Hw0 Hlog HDo Hread.
  apply decode_dispatch_sent in Hlog as [rest' Hlog]; [|done].
  destruct (dispatch_sent _ _ _ _ _ _ _ _ _ _ _ _ Hlog)
    as (request & url & _ & _ & _ & _ & ->).
  rewrite HDo, Hread. by exists url.
Qed.

Lemma entry_success_at (P : Platform) codec rs client method urlString token data
    headers cookie (w0 w : World) c r rest response :
  log w0 = log w →
  let out := decode_response P codec rs
               (dispatch P client method urlString token data headers cookie w0) in
  log out.2 = log w ++ EvDo c r :: rest →
  Do P c r = inr response →
  (Response.Body response).2 = None →
  Response.StatusCode response ≤ 399 →
  out.1.1 = (Response.StatusCode response, Some (Response.Body response).1)
  ∧ match rs with
    | Some v =>
        if String.eqb (Response.Body response).1 EmptyString
        then out.1.2 = None ∧ rest = [EvClose]
        else out.1.2 = ErrStd <$> Unmarshal P codec (Response.Body response).1 v
             ∧ rest = [EvClose; EvUnmarshal codec (Response.Body response).1 v]
    | None => out.1.2 = None ∧ rest = [EvClose]
    end.
Proof.
  intros Hw0 out Hlog HDo Hread Hcode. subst out.
  destruct (decode_dispatch_response P codec rs client method urlString token data headers
              cookie w0 w c r rest response Hw0 Hlog HDo Hread) as [url Heq].
  rewrite Heq in Hlog |- *. clear Heq.
  destruct (Z.ltb_spec 399 (Response.StatusCode response)); [lia|].
  destruct rs as [v|]; simpl in Hlog |- *.
  - rewrite len_Some_test in Hlog |- *.
    destruct (String.eqb (Response.Body response).1 EmptyString); simpl in Hlog |- *.
    + rewrite Hw0 in Hlog. apply app_inv_head in Hlog. by simplify_eq.
    + rewrite Hw0, <- app_assoc in Hlog. apply app_inv_head in Hlog. by simplify_eq/=.
  - rewrite Hw0 in Hlog. apply app_inv_head in Hlog. by simplify_eq.
Qed.

Lemma entry_failure_at (P : Platform) codec rs client method urlString token data
    headers cookie (w0 w : World) c r rest response :
  log w0 = log w →
  let out := decode_response P codec rs
               (dispatch P client method urlString token data headers cookie w0) in
  log out.2 = log w ++ EvDo c r :: rest →
  Do P c r = inr response →
  (Response.Body response).2 = None →
  400 ≤ Response.StatusCode response →
  rest = [EvClose]
  ∧ ∃ re,
      out.1 = (Response.StatusCode response, Some (Response.Body response).1,
               Some (ErrResource re))
      ∧ ResourceError.HTTPCode re = Response.StatusCode response
      ∧ ResourceError.Message re = "incorrect response.StatusCode"%string.
Proof.
  intros Hw0 out Hlog HDo Hread Hcode. subst out.
  destruct (decode_dispatch_response P codec rs client method urlString token data headers
              cookie w0 w c r rest response Hw0 Hlog HDo Hread) as [url Heq].
  rewrite Heq in Hlog |- *. clear Heq.
  destruct (Z.ltb_spec 399 (Response.StatusCode response)); [|lia].
  simpl in Hlog |- *. rewrite Hw0 in Hlog.
  apply app_inv_head in Hlog. simplify_eq. split; [done|]. eexists. simpl. done.
Qed.

Lemma entry_headers_sent_at (P : Platform) codec rs client method urlString token data
    headers cookie (w0 w : World) c r rest k v :
  log w0 = log w →
  log (decode_response P codec rs
         (dispatch P client method urlString token data headers cookie w0)).2
  = log w ++ EvDo c r :: rest →
  headers_map headers w0 !! k = Some v →
  header_has (Request.Header r) (CanonicalMIMEHeaderKey P k) v.
Proof.
  intros Hw0 Hlog Hkv.
  apply decode_dispatch_sent in Hlog as [rest' Hlog]; [|done].
  by eapply dispatch_headers_sent.
Qed.

(** After the headers step of [HttpReqPostFormXML] the map handed to the
    dispatcher has the caller's content type when there was one, the
    default otherwise. *)
Lemma prepare_headers_lookup_absent (ct : string) (headers : option loc) (w : World) :
  let lw := prepare_headers false ct headers w in
  headers_map (Some lw.1) lw.2 !! "Content-Type"%string
  = Some (default ct (headers_map headers w !! "Content-Type"%string)).
Proof.
  unfold prepare_headers, headers_map. destruct headers as [l|]; simpl.
  - destruct (default ∅ (maps w !! l) !! "Content-Type"%string) as [v0|] eqn:Hct.
    + rewrite bool_decide_eq_true_2 by eauto. simpl. done.
    + rewrite bool_decide_eq_false_2 by (by intros [? ?]). simpl.
      rewrite lookup_insert_eq. simpl. by rewrite lookup_insert_eq.
  - rewrite lookup_insert_eq. simpl. by rewrite lookup_singleton_eq, lookup_empty.
Qed.

(** In every entry point of the three versions: when the server answers
    with a status code below 400 and the body is read to the end, the
    status code and the bytes are returned; with an output value and a
    non-empty body the decoder of the variant runs once, after the body is
    closed, and its result is the error returned; with a nil output value
    or an empty body the error is nil and no decoder runs. *)
Theorem entry_points_success (P : Platform) :
  (∀ method urlString body headers cookie rs,
      entry_success_rule P XML rs
        (HttpUtilsGo.HttpReqXML P method urlString body headers cookie rs))
  ∧ (∀ method urlString body headers cookie rs,
      entry_success_rule P JSON rs
        (HttpUtilsGo.HttpReqJSON P method urlString body headers cookie rs))
  ∧ (∀ method urlString token body headers cookie transport rs,
      entry_success_rule P XML rs
        (Part001.HttpReqAuthXML P method urlString token body headers cookie transport rs))
  ∧ (∀ method urlString token body headers cookie transport rs,
      entry_success_rule P JSON rs
        (Part001.HttpReqAuthJSON P method urlString token body headers cookie transport rs))
  ∧ (∀ method urlString body headers cookie transport rs,
      entry_success_rule P XML rs
        (Part001.HttpReqXML P method urlString body headers cookie transport rs))
  ∧ (∀ method urlString body headers cookie transport rs,
      entry_success_rule P JSON rs
        (Part001.HttpReqJSON P method urlString body headers cookie transport rs))
  ∧ (∀ urlString body headers cookie transport rs,
      entry_success_rule P JSON rs
        (Part001.HttpReqPostFormJSON P urlString body headers cookie transport rs))
  ∧ (∀ urlString body headers cookie transport rs,
      entry_success_rule P XML rs
        (Part001.HttpReqPostFormXML P urlString body headers cookie transport rs))
  ∧ (∀ method urlString token body headers cookie transport timeout rs,
      entry_success_rule P XML rs
        (Part000.HttpReqAuthXML P method urlString token body headers cookie transport timeout rs))
  ∧ (∀ method urlString token body headers cookie transport timeout rs,
      entry_success_rule P JSON rs
        (Part000.HttpReqAuthJSON P method urlString token body headers cookie transport timeout rs))
  ∧ (∀ method urlString body headers cookie transport timeout rs,
      entry_success_rule P XML rs
        (Part000.HttpReqXML P method urlString body headers cookie transport timeout rs))
  ∧ (∀ method urlString body headers cookie transport timeout rs,
      entry_success_rule P JSON rs
        (Part000.HttpReqJSON P method urlString body headers cookie transport timeout rs))
  ∧ (∀ urlString body headers cookie transport timeout rs,
      entry_success_rule P JSON rs
        (Part000.HttpReqPostFormJSON P urlString body headers cookie transport timeout rs))
  ∧ (∀ urlString body headers cookie transport timeout rs,
      entry_success_rule P XML rs
        (Part000.HttpReqPostFormXML P urlString body headers cookie transport timeout rs))
  ∧ (∀ urlString paramTexts paramFile headers cookie transport timeout rs,
      entry_success_rule P JSON rs
        (Part000.HttpReqPostFile P urlString paramTexts paramFile headers cookie transport timeout rs))
  ∧ (∀ urlString token paramTexts paramFile headers cookie transport timeout rs,
      entry_success_rule P JSON rs
        (Part000.HttpReqAuthPostFile P urlString token paramTexts paramFile headers cookie transport timeout rs))
  ∧ (∀ urlString token paramTexts paramFile headers cookie transport timeout rs,
      entry_success_rule P JSON rs
        (Part000.HttpReqAuthPutFile P urlString token paramTexts paramFile headers cookie transport timeout rs)).
Proof.
  repeat apply conj.
  all: intros; intros w c r rest response; to_shape;
    apply entry_success_at; by apply prepare_headers_log.
Qed.

(** In every entry point of the three versions: when the server answers
    with a status code of 400 or more, the [*ResourceError] of the
    dispatcher is returned with the status code and the bytes, and no
    decoder runs, whatever the output value and the body are. *)
Theorem entry_points_failure (P : Platform) :
  (∀ method urlString body headers cookie rs,
      entry_failure_rule P
        (HttpUtilsGo.HttpReqXML P method urlString body headers cookie rs))
  ∧ (∀ method urlString body headers cookie rs,
      entry_failure_rule P
        (HttpUtilsGo.HttpReqJSON P method urlString body headers cookie rs))
  ∧ (∀ method urlString token body headers cookie transport rs,
      entry_failure_rule P
        (Part001.HttpReqAuthXML P method urlString token body headers cookie transport rs))
  ∧ (∀ method urlString token body headers cookie transport rs,
      entry_failure_rule P
        (Part001.HttpReqAuthJSON P method urlString token body headers cookie transport rs))
  ∧ (∀ method urlString body headers cookie transport rs,
      entry_failure_rule P
        (Part001.HttpReqXML P method urlString body headers cookie transport rs))
  ∧ (∀ method urlString body headers cookie transport rs,
      entry_failure_rule P
        (Part001.HttpReqJSON P method urlString body headers cookie transport rs))
  ∧ (∀ urlString body headers cookie transport rs,
      entry_failure_rule P
        (Part001.HttpReqPostFormJSON P urlString body headers cookie transport rs))
  ∧ (∀ urlString body headers cookie transport rs,
      entry_failure_rule P
        (Part001.HttpReqPostFormXML P urlString body headers cookie transport rs))
  ∧ (∀ method urlString token body headers cookie transport timeout rs,
      entry_failure_rule P
        (Part000.HttpReqAuthXML P method urlString token body headers cookie transport timeout rs))
  ∧ (∀ method urlString token body headers cookie transport timeout rs,
      entry_failure_rule P
        (Part000.HttpReqAuthJSON P method urlString token body headers cookie transport timeout rs))
  ∧ (∀ method urlString body headers cookie transport timeout rs,
      entry_failure_rule P
        (Part000.HttpReqXML P method urlString body headers cookie transport timeout rs))
  ∧ (∀ method urlString body headers cookie transport timeout rs,
      entry_failure_rule P
        (Part000.HttpReqJSON P method urlString body headers cookie transport timeout rs))
  ∧ (∀ urlString body headers cookie transport timeout rs,
      entry_failure_rule P
        (Part000.HttpReqPostFormJSON P urlString body headers cookie transport timeout rs))
  ∧ (∀ urlString body headers cookie transport timeout rs,
      entry_failure_rule P
        (Part000.HttpReqPostFormXML P urlString body headers cookie transport timeout rs))
  ∧ (∀ urlString paramTexts paramFile headers cookie transport timeout rs,
      entry_failure_rule P
        (Part000.HttpReqPostFile P urlString paramTexts paramFile headers cookie transport timeout rs))
  ∧ (∀ urlString token paramTexts paramFile headers cookie transport timeout rs,
      entry_failure_rule P
        (Part000.HttpReqAuthPostFile P urlString token paramTexts paramFile headers cookie transport timeout rs))
  ∧ (∀ urlString token paramTexts paramFile headers cookie transport timeout rs,
      entry_failure_rule P
        (Part000.HttpReqAuthPutFile P urlString token paramTexts paramFile headers cookie transport timeout rs)).
Proof.
  repeat apply conj.
  all: intros; intros w c r rest response; to_shape;
    apply entry_failure_at; by apply prepare_headers_log.
Qed.

(** In every entry point of the three versions, the request sent has the
    content type of the variant among the values of its [Content-Type]
    header; with [HttpReqPostFormXML] it is the content type of the caller's
    map when that has one, the form content type otherwise. *)
Theorem entry_points_content_type_sent (P : Platform) :
  (∀ method urlString body headers cookie rs,
      content_type_sent_rule P (λ _, "text/xml"%string)
        (HttpUtilsGo.HttpReqXML P method urlString body headers cookie rs))
  ∧ (∀ method urlString body headers cookie rs,
      content_type_sent_rule P (λ _, "application/json"%string)
        (HttpUtilsGo.HttpReqJSON P method urlString body headers cookie rs))
  ∧ (∀ method urlString token body headers cookie transport rs,
      content_type_sent_rule P (λ _, "text/xml"%string)
        (Part001.HttpReqAuthXML P method urlString token body headers cookie transport rs))
  ∧ (∀ method urlString token body headers cookie transport rs,
      content_type_sent_rule P (λ _, "application/json"%string)
        (Part001.HttpReqAuthJSON P method urlString token body headers cookie transport rs))
  ∧ (∀ method urlString body headers cookie transport rs,
      content_type_sent_rule P (λ _, "text/xml"%string)
        (Part001.HttpReqXML P method urlString body headers cookie transport rs))
  ∧ (∀ method urlString body headers cookie transport rs,
      content_type_sent_rule P (λ _, "application/json"%string)
        (Part001.HttpReqJSON P method urlString body headers cookie transport rs))
  ∧ (∀ urlString body headers cookie transport rs,
      content_type_sent_rule P (λ _, "application/x-www-form-urlencoded"%string)
        (Part001.HttpReqPostFormJSON P urlString body headers cookie transport rs))
  ∧ (∀ urlString body headers cookie transport rs,
      content_type_sent_rule P
        (λ w, default "application/x-www-form-urlencoded"%string
                (headers_map headers w !! "Content-Type"%string))
        (Part001.HttpReqPostFormXML P urlString body headers cookie transport rs))
  ∧ (∀ method urlString token body headers cookie transport timeout rs,
      content_type_sent_rule P (λ _, "text/xml"%string)
        (Part000.HttpReqAuthXML P method urlString token body headers cookie transport timeout rs))
  ∧ (∀ method urlString token body headers cookie transport timeout rs,
      content_type_sent_rule P (λ _, "application/json"%string)
        (Part000.HttpReqAuthJSON P method urlString token body headers cookie transport timeout rs))
  ∧ (∀ method urlString body headers cookie transport timeout rs,
      content_type_sent_rule P (λ _, "text/xml"%string)
        (Part000.HttpReqXML P method urlString body headers cookie transport timeout rs))
  ∧ (∀ method urlString body headers cookie transport timeout rs,
      content_type_sent_rule P (λ _, "application/json"%string)
        (Part000.HttpReqJSON P method urlString body headers cookie transport timeout rs))
  ∧ (∀ urlString body headers cookie transport timeout rs,
      content_type_sent_rule P (λ _, "application/x-www-form-urlencoded"%string)
        (Part000.HttpReqPostFormJSON P urlString body headers cookie transport timeout rs))
  ∧ (∀ urlString body headers cookie transport timeout rs,
      content_type_sent_rule P
        (λ w, default "application/x-www-form-urlencoded"%string
                (headers_map headers w !! "Content-Type"%string))
        (Part000.HttpReqPostFormXML P urlString body headers cookie transport timeout rs))
  ∧ (∀ urlString paramTexts paramFile headers cookie transport timeout rs,
      content_type_sent_rule P (λ w, Layout.content_type (randomBoundary P (rand w)))
        (Part000.HttpReqPostFile P urlString paramTexts paramFile headers cookie transport timeout rs))
  ∧ (∀ urlString token paramTexts paramFile headers cookie transport timeout rs,
      content_type_sent_rule P (λ w, Layout.content_type (randomBoundary P (rand w)))
        (Part000.HttpReqAuthPostFile P urlString token paramTexts paramFile headers cookie transport timeout rs))
  ∧ (∀ urlString token paramTexts paramFile headers cookie transport timeout rs,
      content_type_sent_rule P (λ w, Layout.content_type (randomBoundary P (rand w)))
        (Part000.HttpReqAuthPutFile P urlString token paramTexts paramFile headers cookie transport timeout rs)).
Proof.
  repeat apply conj.
  all: intros; intros w c r rest; to_shape; intros Hlog;
    eapply entry_headers_sent_at in Hlog;
    [exact Hlog
    |by apply prepare_headers_log
    |first [apply prepare_headers_lookup | apply prepare_headers_lookup_absent]].
Qed.

(** Every entry point that normalises its method sends
    [TrimSpace(ToUpper(method))], GET when that is empty, together with the
    caller's body; the form posts send POST. *)
Theorem entry_points_method_sent (P : Platform) :
  (∀ method urlString body headers cookie rs,
      sent_method_rule (TrimSpace P (ToUpper P method)) body
        (HttpUtilsGo.HttpReqJSON P method urlString body headers cookie rs))
  ∧ (∀ method urlString token body headers cookie transport rs,
      sent_method_rule (TrimSpace P (ToUpper P method)) body
        (Part001.HttpReqAuthXML P method urlString token body headers cookie transport rs))
  ∧ (∀ method urlString token body headers cookie transport rs,
      sent_method_rule (TrimSpace P (ToUpper P method)) body
        (Part001.HttpReqAuthJSON P method urlString token body headers cookie transport rs))
  ∧ (∀ method urlString body headers cookie transport rs,
      sent_method_rule (TrimSpace P (ToUpper P method)) body
        (Part001.HttpReqXML P method urlString body headers cookie transport rs))
  ∧ (∀ method urlString body headers cookie transport rs,
      sent_method_rule (TrimSpace P (ToUpper P method)) body
        (Part001.HttpReqJSON P method urlString body headers cookie transport rs))
  ∧ (∀ urlString body headers cookie transport rs,
      sent_method_rule "POST" body
        (Part001.HttpReqPostFormJSON P urlString body headers cookie transport rs))
  ∧ (∀ urlString body headers cookie transport rs,
      sent_method_rule "POST" body
        (Part001.HttpReqPostFormXML P urlString body headers cookie transport rs))
  ∧ (∀ method urlString token body headers cookie transport timeout rs,
      sent_method_rule (TrimSpace P (ToUpper P method)) body
        (Part000.HttpReqAuthXML P method urlString token body headers cookie transport timeout rs))
  ∧ (∀ method urlString token body headers cookie transport timeout rs,
      sent_method_rule (TrimSpace P (ToUpper P method)) body
        (Part000.HttpReqAuthJSON P method urlString token body headers cookie transport timeout rs))
  ∧ (∀ method urlString body headers cookie transport timeout rs,
      sent_method_rule (TrimSpace P (ToUpper P method)) body
        (Part000.HttpReqXML P method urlString body headers cookie transport timeout rs))
  ∧ (∀ method urlString body headers cookie transport timeout rs,
      sent_method_rule (TrimSpace P (ToUpper P method)) body
        (Part000.HttpReqJSON P method urlString body headers cookie transport timeout rs))
  ∧ (∀ urlString body headers cookie transport timeout rs,
      sent_method_rule "POST" body
        (Part000.HttpReqPostFormJSON P urlString body headers cookie transport timeout rs))
  ∧ (∀ urlString body headers cookie transport timeout rs,
      sent_method_rule "POST" body
        (Part000.HttpReqPostFormXML P urlString body headers cookie transport timeout rs)).
Proof.
  repeat apply conj.
  all: intros; intros w c r rest Hlog; revert Hlog; to_shape; intros Hlog;
    apply entry_sent_method in Hlog; [done|by apply prepare_headers_log].
Qed.

(** * The re-encoding of a query *)

Lemma append_String (a : ascii) (s t : string) : String a s +:+ t = String a (s +:+ t).
Proof. done. Qed.

(** The hex digits written by [QueryEscape] are read back by
    [QueryUnescape]. *)
Lemma upperhex_unhex (d : nat) :
  (d < 16)%nat →
  ishex (upperhex d) = true ∧ unhex (upperhex d) = d ∧ shouldEscape (upperhex d) = false.
Proof.
  intros Hd.
  do 16 (destruct d as [|d]; [by vm_compute|]). lia.
Qed.

Lemma nat_of_ascii_lt (c : ascii) : (nat_of_ascii c < 256)%nat.
Proof. destruct c as [[] [] [] [] [] [] [] []]; vm_compute; lia. Qed.

Lemma QueryUnescape_plain (c : ascii) (s : string) :
  c ≠ "%"%char → c ≠ "+"%char →
  QueryUnescape (String c s) = String c <$> QueryUnescape s.
Proof.
  intros H1 H2.
  destruct c as [[] [] [] [] [] [] [] []]; try done.
Qed.

Lemma QueryUnescape_percent (h1 h2 : ascii) (s : string) :
  QueryUnescape (String "%" (String h1 (String h2 s)))
  = if ishex h1 && ishex h2
    then String (ascii_of_nat (unhex h1 * 16 + unhex h2)) <$> QueryUnescape s
    else None.
Proof. done. Qed.

(** Escaping then unescaping gives the string back. *)
Theorem QueryEscape_round_trip (s : string) : QueryUnescape (QueryEscape s) = Some s.
Proof.
  induction s as [|c s IH]; [done|].
  cbn [QueryEscape].
  destruct (Ascii.eqb_spec c " ") as [->|Hsp].
  { change (String " " <$> QueryUnescape (QueryEscape s) = Some (String " " s)).
    by rewrite IH. }
  destruct (shouldEscape c) eqn:Hesc.
  - rewrite QueryUnescape_percent.
    pose proof (nat_of_ascii_lt c) as Hlt.
    destruct (upperhex_unhex (nat_of_ascii c / 16)) as (-> & -> & _).
    { apply Nat.Div0.div_lt_upper_bound. lia. }
    destruct (upperhex_unhex (nat_of_ascii c mod 16)) as (-> & -> & _).
    { apply Nat.mod_upper_bound. lia. }
    replace (nat_of_ascii c / 16 * 16 + nat_of_ascii c mod 16)%nat with (nat_of_ascii c)
      by (pose proof (Nat.div_mod_eq (nat_of_ascii c) 16); lia).
    by rewrite ascii_nat_embedding, IH.
  - rewrite QueryUnescape_plain.
    + by rewrite IH.
    + by intros ->.
    + by intros ->.
Qed.

(** No byte that [QueryEscape] escapes, other than the percent and plus
    signs, is in its output: in particular no [&], [=] or [;]. *)
Lemma QueryEscape_avoids (x : ascii) (s : string) :
  shouldEscape x = true → x ≠ "%"%char → x ≠ "+"%char →
  contains_byte x (QueryEscape s) = false.
Proof.
  intros Hx Hpc Hplus.
  assert (∀ d, (d < 16)%nat → Ascii.eqb (upperhex d) x = false) as Hhex.
  { intros d Hd. destruct (Ascii.eqb_spec (upperhex d) x) as [<-|]; [|done].
    destruct (upperhex_unhex d Hd) as (_ & _ & Hno). congruence. }
  induction s as [|c s IH]; [done|].
  cbn [QueryEscape].
  pose proof (nat_of_ascii_lt c) as Hlt.
  destruct (Ascii.eqb_spec c " ") as [->|Hsp].
  { cbn [contains_byte]. destruct (Ascii.eqb_spec "+" x) as [<-|]; done. }
  destruct (shouldEscape c) eqn:Hesc; cbn [contains_byte].
  - destruct (Ascii.eqb_spec "%" x) as [<-|_]; [done|].
    rewrite !Hhex; [done| |].
    + apply Nat.mod_upper_bound. lia.
    + apply Nat.Div0.div_lt_upper_bound. lia.
  - destruct (Ascii.eqb_spec c x) as [->|_]; [congruence|done].
Qed.

Lemma contains_byte_app (x : ascii) (a b : string) :
  contains_byte x (a +:+ b) = contains_byte x a || contains_byte x b.
Proof.
  induction a as [|c a IH]; [done|].
  rewrite append_String. cbn [contains_byte]. by destruct (Ascii.eqb c x).
Qed.

(** Cutting at the first separator, when the text before has none. *)
Lemma Cut_app (sep : ascii) (a b : string) :
  contains_byte sep a = false → Cut (a +:+ String sep b) sep = (a, b, true).
Proof.
  induction a as [|c a IH]; intros Ha.
  - change (Cut (String sep b) sep = (EmptyString, b, true)). cbn [Cut].
    by rewrite Ascii.eqb_refl.
  - rewrite append_String. cbn [Cut contains_byte] in Ha |- *.
    destruct (Ascii.eqb c sep); [done|]. by rewrite IH.
Qed.

Lemma pieces_plain (sep : ascii) (a : string) :
  contains_byte sep a = false → pieces sep a = [a].
Proof.
  induction a as [|c a IH]; intros Ha; [done|].
  cbn [pieces contains_byte] in Ha |- *.
  destruct (Ascii.eqb c sep); [done|]. by rewrite IH.
Qed.

Lemma pieces_app (sep : ascii) (a b : string) :
  contains_byte sep a = false →
  pieces sep (a +:+ String sep b) = a :: pieces sep b.
Proof.
  induction a as [|c a IH]; intros Ha.
  - change (pieces sep (String sep b) = EmptyString :: pieces sep b). cbn [pieces].
    by rewrite Ascii.eqb_refl.
  - rewrite append_String. cbn [pieces contains_byte] in Ha |- *.
    destruct (Ascii.eqb c sep); [done|]. by rewrite IH.
Qed.

(** Splitting a joined list gives the list back, when no item holds the
    separator. *)
Lemma pieces_Join (sep : ascii) (l : list string) :
  l ≠ [] →
  Forall (λ a, contains_byte sep a = false) l →
  pieces sep (Join l (String sep EmptyString)) = l.
Proof.
  induction l as [|a l IH]; intros Hne Hl; [done|].
  apply Forall_cons in Hl as [Ha Hl].
  destruct l as [|b l].
  - cbn [Join]. by apply pieces_plain.
  - change (Join (a :: b :: l) (String sep EmptyString))
      with (a +:+ String sep EmptyString +:+ Join (b :: l) (String sep EmptyString)).
    change (String sep EmptyString +:+ Join (b :: l) (String sep EmptyString))
      with (String sep (Join (b :: l) (String sep EmptyString))).
    rewrite pieces_app by done. f_equal. by apply IH.
Qed.

(** One encoded pair, read back by one step of [ParseQuery]. *)
Lemma parsePiece_pair (m : Values) (k x : string) :
  parsePiece m (QueryEscape k +:+ "=" +:+ QueryEscape x)
  = <[k := default [] (m !! k) ++ [x]]> m.
Proof.
  unfold parsePiece.
  change ("=" +:+ QueryEscape x) with (String "=" (QueryEscape x)).
  rewrite contains_byte_app. cbn [contains_byte].
  rewrite !QueryEscape_avoids by done. simpl.
  destruct (String.eqb_spec (QueryEscape k +:+ String "=" (QueryEscape x)) EmptyString)
    as [Hempty|_].
  { destruct (QueryEscape k); discriminate Hempty. }
  rewrite Cut_app by by apply QueryEscape_avoids.
  by rewrite !QueryEscape_round_trip.
Qed.

Lemma pair_no_amp (k x : string) :
  contains_byte "&" (QueryEscape k +:+ "=" +:+ QueryEscape x) = false.
Proof.
  change ("=" +:+ QueryEscape x) with (String "=" (QueryEscape x)).
  rewrite contains_byte_app. cbn [contains_byte].
  by rewrite !QueryEscape_avoids.
Qed.

(** The pairs of one key, read back in turn: its values are appended. *)
Lemma parsePiece_key (k : string) (vs : list string) (m : Values) :
  fold_left parsePiece (map (λ x, QueryEscape k +:+ "=" +:+ QueryEscape x) vs) m
  = match vs with
    | [] => m
    | _ => <[k := default [] (m !! k) ++ vs]> m
    end.
Proof.
  revert m. induction vs as [|x vs IH]; intros m; [done|].
  cbn [map fold_left]. rewrite parsePiece_pair, IH.
  destruct vs as [|y vs]; [done|].
  rewrite lookup_insert_eq, insert_insert_eq. simpl. by rewrite <- app_assoc.
Qed.

Lemma insert_sorted_perm (k : string) (l : list string) : insert_sorted k l ≡ₚ k :: l.
Proof.
  induction l as [|x l IH]; [done|].
  cbn [insert_sorted]. destruct (String.leb k x); [done|].
  rewrite IH. apply Permutation_swap.
Qed.

(** Sorting keeps the keys, each as often as before. *)
Lemma sort_strings_perm (l : list string) : sort_strings l ≡ₚ l.
Proof.
  induction l as [|x l IH]; [done|].
  cbn [sort_strings fold_right]. fold (sort_strings l).
  by rewrite insert_sorted_perm, IH.
Qed.

Lemma fold_left_flat_map {A B C : Type} (f : A → C → A) (g : B → list C)
    (l : list B) (a : A) :
  fold_left f (flat_map g l) a = fold_left (λ a x, fold_left f (g x) a) l a.
Proof.
  revert a. induction l as [|x l IH]; intros a; [done|].
  cbn [flat_map fold_left]. by rewrite fold_left_app, IH.
Qed.

(** Reading back the pairs of a list of distinct keys: each key gets its
    values, unless it has none. *)
Lemma parsePiece_keys (v : Values) (keys : list string) (m : Values) (k : string) :
  NoDup keys →
  (∀ k', k' ∈ keys → m !! k' = None) →
  fold_left
    (λ m k, fold_left parsePiece
              (map (λ x, QueryEscape k +:+ "=" +:+ QueryEscape x) (default [] (v !! k))) m)
    keys m !! k
  = if decide (k ∈ keys)
    then match v !! k with
         | Some (x :: xs) => Some (x :: xs)
         | _ => None
         end
    else m !! k.
Proof.
  revert m. induction keys as [|k0 keys IH]; intros m Hnd Hm.
  { cbn [fold_left]. destruct (decide (k ∈ [])) as [Hin|_]; [|done].
    by apply elem_of_nil in Hin. }
  apply NoDup_cons in Hnd as [Hk0 Hnd].
  cbn [fold_left]. rewrite parsePiece_key.
  assert (m !! k0 = None) as Hmk0 by (apply Hm; left).
  rewrite IH; [|done|].
  - destruct (decide (k ∈ keys)) as [Hin|Hnin].
    + by rewrite decide_True by by right.
    + destruct (decide (k = k0)) as [->|Hne].
      * rewrite decide_True by left.
        destruct (v !! k0) as [[|x xs]|]; simpl; [done| |done].
        by rewrite Hmk0, lookup_insert_eq.
      * rewrite decide_False by (by intros [?|?]%elem_of_cons).
        destruct (default [] (v !! k0)); [done|]. by rewrite lookup_insert_ne.
  - intros k' Hk'.
    assert (k' ≠ k0) by (by intros ->).
    destruct (default [] (v !! k0)); [apply Hm; by right|].
    rewrite lookup_insert_ne by done. apply Hm. by right.
Qed.

(** Parsing an encoded set of values gives the values back, but for the
    keys that had no value, which [Encode] leaves out. *)
Theorem ParseQuery_Encode (v : Values) :
  ParseQuery (Encode v) = filter (λ kv, kv.2 ≠ []) v.
Proof.
  unfold ParseQuery, Encode.
  set (keys := sort_strings (map fst (map_to_list v))).
  set (items := flat_map _ keys).
  assert (fold_left parsePiece (pieces "&" (Join items "&")) ∅
          = fold_left parsePiece items ∅) as ->.
  { destruct (decide (items = [])) as [->|Hne]; [done|].
    rewrite pieces_Join; [done|done|].
    subst items. apply Forall_flat_map, Forall_forall. intros k _.
    apply Forall_map, Forall_forall. intros x _. simpl. apply pair_no_amp. }
  subst items. rewrite fold_left_flat_map.
  assert (keys ≡ₚ map fst (map_to_list v)) as Hkeys by apply sort_strings_perm.
  apply map_eq. intros k.
  rewrite parsePiece_keys.
  - rewrite map_lookup_filter.
    destruct (decide (k ∈ keys)) as [Hin|Hnin].
    + by destruct (v !! k) as [[|x xs]|].
    + rewrite lookup_empty.
      destruct (v !! k) as [vs|] eqn:Hvk; [|done].
      exfalso. apply Hnin. rewrite Hkeys.
      apply list_elem_of_fmap. exists (k, vs). split; [done|].
      by apply elem_of_map_to_list.
  - rewrite Hkeys. apply NoDup_fst_map_to_list.
  - intros. apply lookup_empty.
Qed.

(** A parsed query has no key without a value. *)
Lemma ParseQuery_no_empty (q k : string) : ParseQuery q !! k ≠ Some [].
Proof.
  unfold ParseQuery.
  assert (∀ l (m : Values), (∀ k, m !! k ≠ Some []) →
                            ∀ k, fold_left parsePiece l m !! k ≠ Some []) as H.
  { induction l as [|p l IH]; intros m Hm; [done|].
    cbn [fold_left]. apply IH. intros k'. unfold parsePiece.
    destruct (contains_byte ";" p); [done|].
    destruct (String.eqb p EmptyString); [done|].
    destruct (Cut p "=") as [[key value] found].
    destruct (QueryUnescape key) as [key'|]; [|done].
    destruct (QueryUnescape value) as [value'|]; [|done].
    destruct (decide (key' = k')) as [->|Hne].
    - rewrite lookup_insert_eq. intros [=Heq]. by apply app_nil in Heq as [_ ?].
    - by rewrite lookup_insert_ne. }
  apply H. intros k'. by rewrite lookup_empty.
Qed.

(** The re-encoding block of [sendHttpReq] keeps what the query means: the
    re-encoded query parses to the values of the query as written, and
    re-encoding once more changes nothing. *)
Theorem reencoded_query_same_values (u : URL) :
  let u' := set_RawQuery (Encode (Query u)) u in
  Query u' = Query u
  ∧ RawQuery (set_RawQuery (Encode (Query u')) u') = RawQuery u'.
Proof.
  assert (ParseQuery (Encode (Query u)) = Query u) as H.
  { rewrite ParseQuery_Encode. apply map_filter_id. intros k vs Hk. simpl.
    intros ->. by apply (ParseQuery_no_empty (RawQuery u) k). }
  cbv zeta.
  assert (Query (set_RawQuery (Encode (Query u)) u) = Query u) as H' by exact H.
  split; [done|]. cbn [set_RawQuery RawQuery]. by rewrite H'.
Qed.

(** * Uploads and error texts *)

(** In the three file uploads, with no text field the body of the request
    sent is the file part, written without a leading line break, and the
    closing delimiter. *)
Theorem upload_without_text_fields (P : Platform) :
  (∀ urlString paramFile headers cookie transport timeout rs w c r rest,
      log (Part000.HttpReqPostFile P urlString ∅ paramFile headers cookie transport
             timeout rs w).2 = log w ++ EvDo c r :: rest →
      Request.Body r
      = Layout.file_part P (randomBoundary P (rand w)) true paramFile +:+
        Layout.terminator (randomBoundary P (rand w)))
  ∧ (∀ urlString token paramFile headers cookie transport timeout rs w c r rest,
      log (Part000.HttpReqAuthPostFile P urlString token ∅ paramFile headers cookie
             transport timeout rs w).2 = log w ++ EvDo c r :: rest →
      Request.Body r
      = Layout.file_part P (randomBoundary P (rand w)) true paramFile +:+
        Layout.terminator (randomBoundary P (rand w)))
  ∧ (∀ urlString token paramFile headers cookie transport timeout rs w c r rest,
      log (Part000.HttpReqAuthPutFile P urlString token ∅ paramFile headers cookie
             transport timeout rs w).2 = log w ++ EvDo c r :: rest →
      Request.Body r
      = Layout.file_part P (randomBoundary P (rand w)) true paramFile +:+
        Layout.terminator (randomBoundary P (rand w))).
Proof.
  repeat apply conj.
  all: intros until rest; to_shape; intros Hlog;
    apply entry_sent_method in Hlog as [_ ->]; [|by apply prepare_headers_log];
    assert (rangeOrder P (iter w) ∅ = []) as ->
      by (apply Permutation_nil_r; rewrite rangeOrder_perm; by rewrite map_to_list_empty);
    done.
Qed.

Lemma dispatch_error_text (P : Platform) quote client method urlString token data headers
    cookie :
  error_text_rule P quote urlString data
    (dispatch P client method urlString token data headers cookie).
Proof.
  intros w c r rest response Hlog HDo Hread Hcode.
  destruct (dispatch_sent _ _ _ _ _ _ _ _ _ _ _ _ Hlog)
    as (request & url & _ & Hurl & _ & _ & ->).
  rewrite HDo, Hread.
  destruct (Z.ltb_spec 399 (Response.StatusCode response)); [|lia].
  eexists _, url. split; [done|]. split; [done|].
  unfold ResourceError_Error. simpl.
  change (",  err: incorrect status code, body: " +:+ string_of data)
    with (",  err: " +:+ "incorrect status code" +:+ ", body: " +:+ string_of data).
  done.
Qed.

(** In the three versions of [sendHttpReq]: the text of the error returned
    for a status code of 400 or more names the URL after re-encoding and the
    status code in decimal, and ends with the whole request body. *)
Theorem sendHttpReq_error_text (P : Platform) (quote : string → string) :
  (∀ method urlString data headers cookie,
      error_text_rule P quote urlString data
        (HttpUtilsGo.sendHttpReq P method urlString data headers cookie))
  ∧ (∀ method urlString token data headers cookie transport,
      error_text_rule P quote urlString data
        (Part001.sendHttpReq P method urlString token data headers cookie transport))
  ∧ (∀ method urlString token data headers cookie transport timeout,
      error_text_rule P quote urlString data
        (Part000.sendHttpReq P method urlString token data headers cookie transport timeout)).
Proof.
  split; [|split]; unfold error_text_rule; intros; to_dispatch;
    eapply dispatch_error_text; eauto.
Qed.
